(** * Market mirror of eve_tools: freshness, cache and store

    A shallow embedding of [src/api/market.py].  The orchestrators
    ([get_structure_market], [get_region_market], [get_station_market],
    [_get_type_history_async], [get_market_history], [get_region_types])
    are translated statement by statement into a small state/exception
    monad that also records the externally visible effects (remote
    requests, cache accesses, store accesses) in a log.

    The helpers the module imports ([_update_or_not], [_select_from_orders],
    [make_cache_key], [api_cache], [ESIDB], [ESIClient], the [search_*]
    resolvers) live in other files of the package; they are modelled from
    the design document and each such definition says so. *)

From Stdlib Require Import ZArith List String Ascii Bool Lia Sorted.
From stdpp Require Import base decidable option list gmap strings.

Open Scope string_scope.
Open Scope list_scope.
Open Scope Z_scope.

(** ** Python values that reach the module *)

(** A [Union[str, int]] argument as Python sees it at run time: a string, an
    integer, or a value of any other type. *)
Inductive pyarg :=
| PyStr (s : string)
| PyInt (n : Z)
| PyOther.

(** Positional arguments that enter a cache key. *)
Inductive pyval :=
| VInt (n : Z)
| VStr (s : string)
| VNone
| VList (l : list Z)
| VFun (name : string).

#[global] Instance pyval_eq_dec : EqDecision pyval.
Proof. solve_decision. Defined.

Definition opt_int (o : option Z) : pyval :=
  match o with Some n => VInt n | None => VNone end.

(** [**kwd]: the keyword dictionary; the documented options are integers. *)
Abbreviation kwds := (gmap string Z).

(** ** Records *)

(** One row of the [orders] table (prices in integer minor units). *)
Record order := mk_order {
  o_order_id : Z;
  o_type_id : Z;
  o_region_id : Z;
  o_system_id : Z;
  o_location_id : Z;
  o_is_buy_order : bool;
  o_price : Z;
  o_volume_remain : Z;
  o_duration : Z;
  o_issued : Z;
  o_retrieve_time : Z
}.

(** One order as the remote endpoint returns it, before the columns
    [retrieve_time] and [region_id] are added. *)
Record raw_order := mk_raw_order {
  r_order_id : Z;
  r_type_id : Z;
  r_system_id : Z;
  r_location_id : Z;
  r_is_buy_order : bool;
  r_price : Z;
  r_volume_remain : Z;
  r_duration : Z;
  r_issued : Z
}.

(** One row of the [market_history] table. *)
Record history := mk_history {
  h_region_id : Z;
  h_type_id : Z;
  h_date : Z;
  h_average : Z;
  h_highest : Z;
  h_lowest : Z;
  h_volume : Z;
  h_order_count : Z
}.

(** One day of history as the remote endpoint returns it: the date is the
    text ["YYYY-MM-DD"]. *)
Record raw_history := mk_raw_history {
  rh_date : string;
  rh_average : Z;
  rh_highest : Z;
  rh_lowest : Z;
  rh_volume : Z;
  rh_order_count : Z
}.

#[global] Instance order_eq_dec : EqDecision order.
Proof. solve_decision. Defined.
#[global] Instance history_eq_dec : EqDecision history.
Proof. solve_decision. Defined.

(** What the functions return and what the response cache stores. *)
Inductive pyobj :=
| DFOrders (rows : list order)
| DFHistory (rows : list history)
| TypeIds (ids : list Z).

(** ** Cache keys, cache entries *)

Record cache_key := mk_key {
  k_op : string;
  k_args : list pyval;
  k_kwd : kwds
}.

#[global] Instance cache_key_eq_dec : EqDecision cache_key.
Proof. solve_decision. Defined.

Record cache_entry := mk_entry {
  e_key : cache_key;
  e_value : pyobj;
  e_expires_at : Z
}.

(** The third argument of [api_cache.set]: an integer number of seconds
    ([update_threshold]), the remote [Expires] hint, or [None]. *)
Inductive expires_arg :=
| ExpSeconds (n : Z)
| ExpHint (t : Z)
| ExpNone.

(** ** Store filters *)

Inductive table := tbl_orders | tbl_market_history.
Inductive column := col_retrieve_time | col_date.

(** The [**kwd] of [_update_or_not]: equality constraints on columns. *)
Record filter := mk_filter {
  f_region_id : option Z;
  f_location_id : option Z;
  f_type_id : option Z
}.

Definition opt_matches (c : option Z) (v : Z) : bool :=
  match c with Some x => x =? v | None => true end.

Definition order_matches (f : filter) (o : order) : bool :=
  opt_matches (f_region_id f) (o_region_id o)
  && opt_matches (f_location_id f) (o_location_id o)
  && opt_matches (f_type_id f) (o_type_id o).

(** [market_history] has no [location_id] column. *)
Definition history_matches (f : filter) (h : history) : bool :=
  opt_matches (f_region_id f) (h_region_id h)
  && match f_location_id f with Some _ => false | None => true end
  && opt_matches (f_type_id f) (h_type_id h).

(** ** The world: clock, store, response cache *)

Record World := mk_world {
  now : Z;                          (* time.time(), in seconds *)
  orders : list order;              (* table orders *)
  market_history : list history;    (* table market_history *)
  api_cache : list cache_entry      (* the response cache *)
}.

(** ** The remote side and the other collaborators *)

Inductive endpoint :=
| ep_structure_orders (structure_id : Z)
| ep_region_orders (region_id : Z) (order_type : string) (type_id : option Z)
| ep_region_types (region_id : Z)
| ep_history (region_id type_id : Z).

Record headers := mk_headers {
  hd_expires : option Z;   (* "Expires" *)
  hd_x_pages : option Z    (* "X-Pages" *)
}.

(** A failed request is [None]. *)
Record Env := mk_env {
  search_id : string -> string -> Z;
  search_structure_id : pyarg -> option string -> Z;
  search_station_region_id : Z -> Z;
  esi_head : endpoint -> option headers;
  esi_orders : endpoint -> Z -> option (list raw_order);
  esi_types : Z -> Z -> option (list Z);
  esi_history : Z -> Z -> option (list raw_history);
  check_type_id : Z -> bool
}.

(** ** Effects *)

Inductive exn :=
  TypeError | ValueError | KeyError | UnboundLocalError | TransportError.

Inductive event :=
| ev_search (fn : string) (arg : pyarg)        (* a name/id resolver call *)
| ev_head (ep : endpoint)                      (* ESIClient.head *)
| ev_get (ep : endpoint) (page : Z)            (* one page of ESIClient.get *)
| ev_request (ep : endpoint)                   (* ESIClient.request *)
| ev_check_type (type_id : Z)                  (* _check_type_id_async *)
| ev_cache_get (k : cache_key)                 (* api_cache.get *)
| ev_cache_set (k : cache_key)                 (* api_cache.set *)
| ev_oracle (t : table) (f : filter)           (* _update_or_not *)
| ev_select (t : table) (f : filter)           (* SELECT on the store *)
| ev_write (t : table) (n : nat).              (* df.to_sql *)

Inductive result (A : Type) :=
| Ok (a : A)
| Raise (e : exn).
Arguments Ok {A} a.
Arguments Raise {A} e.

Record outcome (A : Type) := mk_outcome {
  res : result A;
  fin : World;
  log : list event
}.
Arguments mk_outcome {A} res fin log.
Arguments res {A} o.
Arguments fin {A} o.
Arguments log {A} o.

Definition M (A : Type) : Type := World -> outcome A.

Definition ret {A} (a : A) : M A := fun w => mk_outcome (Ok a) w [].

Definition raise {A} (e : exn) : M A := fun w => mk_outcome (Raise e) w [].

Definition bind {A B} (m : M A) (k : A -> M B) : M B :=
  fun w =>
    match m w with
    | mk_outcome (Ok a) w1 l1 =>
        match k a w1 with
        | mk_outcome r w2 l2 => mk_outcome r w2 (l1 ++ l2)
        end
    | mk_outcome (Raise e) w1 l1 => mk_outcome (Raise e) w1 l1
    end.

Definition emit (e : event) : M unit := fun w => mk_outcome (Ok tt) w [e].

Definition get_world : M World := fun w => mk_outcome (Ok w) w [].

Definition put_world (w' : World) : M unit := fun _ => mk_outcome (Ok tt) w' [].

Declare Scope py_scope.
Delimit Scope py_scope with py.
Notation "x <- c1 ;; c2" := (bind c1 (fun x => c2))
  (at level 100, c1 at next level, right associativity) : py_scope.
Notation "c1 ;;; c2" := (bind c1 (fun _ => c2))
  (at level 100, right associativity) : py_scope.
Open Scope py_scope.

(** ** The response cache *)

(** Modelled from the spec: [api_cache.set] (package [src.data]) is not in
    this file.  Section 4.2: the expiry is absolute; an integer is a time
    to live, the remote hint is taken as it is, and without either the
    default of 20 minutes applies. *)
Definition expires_at (t : Z) (e : expires_arg) : Z :=
  match e with
  | ExpSeconds n => t + n
  | ExpHint h => h
  | ExpNone => t + 1200
  end.

Fixpoint cache_find (k : cache_key) (c : list cache_entry) : option cache_entry :=
  match c with
  | [] => None
  | e :: c' => if decide (e_key e = k) then Some e else cache_find k c'
  end.

(** Modelled from the spec: [api_cache.get] (package [src.data]) is not in
    this file.  Section 4.2: the stored value, unless [expires_at] has
    passed; an expired entry is a miss and stays where it is. *)
Definition cache_lookup (k : cache_key) (w : World) : option pyobj :=
  match cache_find k (api_cache w) with
  | Some e => if now w <=? e_expires_at e then Some (e_value e) else None
  | None => None
  end.

(** Modelled from the spec: [api_cache.set] (package [src.data]) is not in
    this file.  The entry is stored under its key; a key that is set again
    has its entry replaced; no other entry is deleted. *)
Definition cache_store (k : cache_key) (v : pyobj) (x : expires_arg) (w : World)
  : World :=
  mk_world (now w) (orders w) (market_history w)
    (mk_entry k v (expires_at (now w) x)
     :: List.filter (fun e => negb (bool_decide (e_key e = k))) (api_cache w)).

Definition api_cache_get (k : cache_key) : M (option pyobj) :=
  emit (ev_cache_get k) ;;;
  w <- get_world ;;
  ret (cache_lookup k w).

Definition api_cache_set (k : cache_key) (v : pyobj) (x : expires_arg) : M unit :=
  emit (ev_cache_set k) ;;;
  w <- get_world ;;
  put_world (cache_store k v x w).

(** Modelled from the spec: [make_cache_key] (module [utils]) is not in this
    file.  The key is a function of the operation name, the positional
    arguments in call order and the keyword arguments; the keyword
    dictionary is kept as a finite map, whose equality ignores the order of
    insertion. *)
Definition make_cache_key (op : string) (args : list pyval) (kwd : kwds)
  : cache_key :=
  mk_key op args kwd.

(** ** The freshness oracle *)

(** [SELECT col FROM table WHERE filter]: the timestamps of the matching
    rows.  [orders] is stamped by [retrieve_time], [market_history] by
    [date]. *)
Definition stamps (t : table) (c : column) (f : filter) (w : World) : list Z :=
  match t, c with
  | tbl_orders, col_retrieve_time =>
      map o_retrieve_time (List.filter (order_matches f) (orders w))
  | tbl_market_history, col_date =>
      map h_date (List.filter (history_matches f) (market_history w))
  | _, _ => []
  end.

(** [SELECT MAX(col)]: absent when no row matches. *)
Definition max_stamp (l : list Z) : option Z :=
  match l with
  | [] => None
  | x :: l' => Some (fold_left Z.max l' x)
  end.

(** [SELECT COUNT( * ) ... AND col = m]. *)
Definition count_at (m : Z) (l : list Z) : Z :=
  Z.of_nat (length (List.filter (fun x => x =? m) l)).

(** Modelled from the spec: [_update_or_not] (module [utils]) is not in this
    file.  Section 4.1: no matching row gives [(true, absent)]; a maximum
    older than the threshold gives [true]; otherwise, when
    [fresh_entry_check] is on, fewer than [min_fresh_entry] rows at the
    maximum give [true]; otherwise [(false, maximum)].  [min_fresh_entry]
    is optional: a call that leaves it out imposes no minimum.  The spec
    does not say which timestamp accompanies [true] when rows exist; the
    maximum found is returned. *)
Definition below_minimum (count : Z) (min_fresh_entry : option Z) : bool :=
  match min_fresh_entry with
  | Some n => count <? n
  | None => false
  end.

Definition decide_fresh (threshold : Z) (min_fresh_entry : option Z)
    (fresh_entry_check : bool) (l : list Z) : bool * option Z :=
  match max_stamp l with
  | None => (true, None)
  | Some m =>
      if m <? threshold then (true, Some m)
      else if fresh_entry_check && below_minimum (count_at m l) min_fresh_entry
           then (true, Some m)
           else (false, Some m)
  end.

Definition _update_or_not (threshold : Z) (t : table) (c : column)
    (min_fresh_entry : option Z) (fresh_entry_check : bool) (f : filter)
  : M (bool * option Z) :=
  emit (ev_oracle t f) ;;;
  w <- get_world ;;
  ret (decide_fresh threshold min_fresh_entry fresh_entry_check (stamps t c f w)).

(** ** Reading the store *)

Definition side_matches (order_type : string) (o : order) : bool :=
  if decide (order_type = "sell") then negb (o_is_buy_order o)
  else if decide (order_type = "buy") then o_is_buy_order o
  else true.

(** Modelled from the spec: [_select_from_orders] (module [utils]) is not in
    this file.  Section 4.4: filter by any combination of
    region/location/type, by side, and optionally by one [retrieve_time]. *)
Definition select_orders (order_type : string) (type_id : option Z)
    (region_id location_id retrieve_time : option Z) (l : list order)
  : list order :=
  List.filter
    (fun o => order_matches (mk_filter region_id location_id type_id) o
              && side_matches order_type o
              && opt_matches retrieve_time (o_retrieve_time o))
    l.

Definition _select_from_orders (order_type : string) (type_id : option Z)
    (region_id location_id retrieve_time : option Z) : M pyobj :=
  emit (ev_select tbl_orders (mk_filter region_id location_id type_id)) ;;;
  w <- get_world ;;
  ret (DFOrders (select_orders order_type type_id region_id location_id
                   retrieve_time (orders w))).

(** ** Writing the store *)

(** [ON CONFLICT(order_id) DO UPDATE]: the mutable fields of the stored row
    take the values of the incoming one. *)
Definition overwrite (new old : order) : order :=
  mk_order (o_order_id old) (o_type_id old) (o_region_id old)
    (o_system_id old) (o_location_id old) (o_is_buy_order old)
    (o_price new) (o_volume_remain new) (o_duration new)
    (o_issued old) (o_retrieve_time new).

Definition same_order (r o : order) : bool := o_order_id o =? o_order_id r.

(** Modelled from the spec: [ESIDB.orders_insert_update] (package
    [src.data]) is not in this file.  Section 4.4: insert-or-update keyed
    by [order_id]; an existing row has its mutable fields (price,
    volume_remain, duration, retrieve_time) overwritten. *)
Definition orders_insert_update (tbl : list order) (r : order) : list order :=
  if existsb (same_order r) tbl
  then map (fun o => if same_order r o then overwrite r o else o) tbl
  else tbl ++ [r].

Definition history_key (h : history) : Z * Z * Z :=
  (h_region_id h, h_type_id h, h_date h).

Definition same_day (r h : history) : bool :=
  bool_decide (history_key h = history_key r).

(** Modelled from the spec: [ESIDB.history_insert_ignore] (package
    [src.data]) is not in this file.  Section 4.4: insert-or-ignore keyed
    by [(region_id, type_id, date)]; an existing row is left untouched. *)
Definition history_insert_ignore (tbl : list history) (r : history)
  : list history :=
  if existsb (same_day r) tbl then tbl else tbl ++ [r].

(** [df.to_sql("orders", ..., if_exists="append",
    method=ESIDB.orders_insert_update)]: every row of the frame goes
    through the insert method, in frame order. *)
Definition upsert_orders (rows tbl : list order) : list order :=
  fold_left orders_insert_update rows tbl.

Definition upsert_history (rows tbl : list history) : list history :=
  fold_left history_insert_ignore rows tbl.

Definition to_sql_orders (rows : list order) : M unit :=
  emit (ev_write tbl_orders (length rows)) ;;;
  w <- get_world ;;
  put_world (mk_world (now w) (upsert_orders rows (orders w))
               (market_history w) (api_cache w)).

Definition to_sql_history (rows : list history) : M unit :=
  emit (ev_write tbl_market_history (length rows)) ;;;
  w <- get_world ;;
  put_world (mk_world (now w) (orders w)
               (upsert_history rows (market_history w)) (api_cache w)).

(** ** Frames of orders *)

(** [pd.DataFrame(all_orders)] with the columns the function adds. *)
Definition to_order (retrieve_time region_id : Z) (system_id : option Z)
    (r : raw_order) : order :=
  mk_order (r_order_id r) (r_type_id r) region_id
    (default (r_system_id r) system_id) (r_location_id r) (r_is_buy_order r)
    (r_price r) (r_volume_remain r) (r_duration r) (r_issued r) retrieve_time.

(** Ascending order on [type_id], [is_buy_order], [price]. *)
Definition sort_le (a b : order) : bool :=
  (o_type_id a <? o_type_id b)
  || ((o_type_id a =? o_type_id b)
      && ((negb (o_is_buy_order a) && o_is_buy_order b)
          || (eqb (o_is_buy_order a) (o_is_buy_order b)
              && (o_price a <=? o_price b)))).

Fixpoint sort_insert (x : order) (l : list order) : list order :=
  match l with
  | [] => [x]
  | y :: l' => if sort_le x y then x :: l else y :: sort_insert x l'
  end.

(** [df.sort_values(["type_id", "is_buy_order", "price"])]. *)
Definition sort_values (l : list order) : list order :=
  fold_right sort_insert [] l.

(** ** Dates

    [datetime.strptime(f"{date} +0000", "%Y-%m-%d %z")] followed by
    [datetime.timestamp], as the standard library computes them: the
    proleptic Gregorian ordinal of the day, minus the ordinal of
    1970-01-01, in seconds.  The values are integers far below 2^53, hence
    exact as Python floats.

    [strptime] turns the format into the regular expression

      [(\d\d\d\d)-(1[0-2]|0[1-9]|[1-9])-(3[0-1]|[1-2]\d|0[1-9]|[1-9]| [1-9])\s+(zone)]

    tries the alternatives in this order, and raises ValueError unless the
    match reaches the end of the text.  A month or a day may hence be
    written with one digit, and blanks after the day are absorbed by the
    blank of the format.  A zone has no blank in it and has to end the
    text, so it can only be the appended [+0000]: the offset is zero.  A
    text is a sequence of characters with code points below 256, among
    which [\d] is the ASCII digits. *)

Definition _is_leap (year : Z) : bool :=
  (year mod 4 =? 0) && (negb (year mod 100 =? 0) || (year mod 400 =? 0)).

Definition _days_before_year (year : Z) : Z :=
  let y := year - 1 in y * 365 + y / 4 - y / 100 + y / 400.

Definition _DAYS_IN_MONTH : list Z :=
  [-1; 31; 28; 31; 30; 31; 30; 31; 31; 30; 31; 30; 31].

Definition _DAYS_BEFORE_MONTH : list Z :=
  [-1; 0; 31; 59; 90; 120; 151; 181; 212; 243; 273; 304; 334].

Definition _days_in_month (year month : Z) : Z :=
  if (month =? 2) && _is_leap year then 29
  else nth (Z.to_nat month) _DAYS_IN_MONTH 0.

Definition _days_before_month (year month : Z) : Z :=
  nth (Z.to_nat month) _DAYS_BEFORE_MONTH 0
  + (if (2 <? month) && _is_leap year then 1 else 0).

Definition _ymd2ord (year month day : Z) : Z :=
  _days_before_year year + _days_before_month year month + day.

(** [datetime(1970, 1, 1).toordinal()]. *)
Definition EPOCH_ORDINAL : Z := 719163.

Definition valid_ymd (y m d : Z) : bool :=
  (1 <=? y) && (y <=? 9999) && (1 <=? m) && (m <=? 12)
  && (1 <=? d) && (d <=? _days_in_month y m).

Definition digit_of (c : ascii) : option Z :=
  let n := Z.of_N (N_of_ascii c) in
  if (48 <=? n) && (n <=? 57) then Some (n - 48) else None.

Definition dash : ascii := "-"%char.

(** [\s] on code points below 256: tab to carriage return, the separators
    28 to 31, the blank, NEL and the no-break blank. *)
Definition is_space (c : ascii) : bool :=
  let n := Z.of_N (N_of_ascii c) in
  ((9 <=? n) && (n <=? 13)) || ((28 <=? n) && (n <=? 32))
  || (n =? 133) || (n =? 160).

(** The first alternative that leads to a match. *)
Definition or_else {A} (a b : option A) : option A :=
  match a with
  | Some _ => a
  | None => b
  end.

(** One digit between [lo] and [hi], then the rest of the pattern. *)
Definition digit_in {R} (lo hi : Z) (k : Z -> list ascii -> option R)
    (cs : list ascii) : option R :=
  match cs with
  | c :: cs' =>
      match digit_of c with
      | Some d => if (lo <=? d) && (d <=? hi) then k d cs' else None
      | None => None
      end
  | [] => None
  end.

(** The character [c], then the rest of the pattern. *)
Definition lit {R} (c : ascii) (k : list ascii -> option R)
    (cs : list ascii) : option R :=
  match cs with
  | c' :: cs' => if bool_decide (c' = c) then k cs' else None
  | [] => None
  end.

(** [%Y]: [\d\d\d\d]. *)
Definition re_Y {R} (k : Z -> list ascii -> option R)
  : list ascii -> option R :=
  digit_in 0 9 (fun a => digit_in 0 9 (fun b => digit_in 0 9 (fun c =>
    digit_in 0 9 (fun d => k (1000 * a + 100 * b + 10 * c + d))))).

(** [%m]: [1[0-2]|0[1-9]|[1-9]]. *)
Definition re_m {R} (k : Z -> list ascii -> option R) (cs : list ascii)
  : option R :=
  or_else (digit_in 1 1 (fun a => digit_in 0 2 (fun b => k (10 * a + b))) cs)
  (or_else (digit_in 0 0 (fun _ => digit_in 1 9 k) cs)
           (digit_in 1 9 k cs)).

(** [%d]: [3[0-1]|[1-2]\d|0[1-9]|[1-9]| [1-9]]. *)
Definition re_d {R} (k : Z -> list ascii -> option R) (cs : list ascii)
  : option R :=
  or_else (digit_in 3 3 (fun a => digit_in 0 1 (fun b => k (10 * a + b))) cs)
  (or_else (digit_in 1 2 (fun a => digit_in 0 9 (fun b => k (10 * a + b))) cs)
  (or_else (digit_in 0 0 (fun _ => digit_in 1 9 k) cs)
  (or_else (digit_in 1 9 k cs)
           (lit " "%char (digit_in 1 9 k) cs)))).

(** [\s*], the longest run first. *)
Fixpoint re_spaces_star {R} (k : list ascii -> option R) (cs : list ascii)
  : option R :=
  match cs with
  | c :: cs' =>
      if is_space c then or_else (re_spaces_star k cs') (k cs) else k cs
  | [] => k []
  end.

(** [\s+]. *)
Definition re_spaces {R} (k : list ascii -> option R) (cs : list ascii)
  : option R :=
  match cs with
  | c :: cs' => if is_space c then re_spaces_star k cs' else None
  | [] => None
  end.

(** The fields matched in [f"{date} +0000"]. *)
Definition match_ymd_z (date : string) : option (Z * Z * Z) :=
  re_Y (fun y => lit dash (re_m (fun m => lit dash (re_d (fun d =>
    re_spaces (fun zone =>
      if bool_decide (zone = list_ascii_of_string "+0000")
      then Some (y, m, d) else None))))))
    (list_ascii_of_string (String.append date " +0000")).

(** The day [strptime] reads from a date text; [None] is its ValueError,
    for a text that does not match and for a day that does not exist. *)
Definition strptime_ymd (s : string) : option (Z * Z * Z) :=
  match match_ymd_z s with
  | Some (y, m, d) => if valid_ymd y m d then Some (y, m, d) else None
  | None => None
  end.

(** Seconds from the epoch to 00:00:00 UTC of the day. *)
Definition midnight_utc (y m d : Z) : Z :=
  (_ymd2ord y m d - EPOCH_ORDINAL) * 86400.

(** The lambda applied to the [date] column. *)
Definition history_date (date : string) : option Z :=
  match strptime_ymd date with
  | Some (y, m, d) => Some (midnight_utc y m d + 39900)
  | None => None
  end.

Definition to_history (rid type_id : Z) (r : raw_history) : option history :=
  match history_date (rh_date r) with
  | Some t => Some (mk_history rid type_id t (rh_average r) (rh_highest r)
                      (rh_lowest r) (rh_volume r) (rh_order_count r))
  | None => None
  end.

(** The frame of a history response: every record converted, or the first
    conversion error. *)
Fixpoint history_frame (rid type_id : Z) (resp : list raw_history)
  : option (list history) :=
  match resp with
  | [] => Some []
  | r :: resp' =>
      match to_history rid type_id r, history_frame rid type_id resp' with
      | Some h, Some hs => Some (h :: hs)
      | _, _ => None
      end
  end.

(** [df["type_id"] = type_id; df["region_id"] = rid]. *)
Definition set_ids (rid type_id : Z) (h : history) : history :=
  mk_history rid type_id (h_date h) (h_average h) (h_highest h) (h_lowest h)
    (h_volume h) (h_order_count h).

(** A reducer is a callable; the cache key sees its identity. *)
Record reducer := mk_reducer {
  red_name : string;
  red_apply : list history -> list history
}.

Definition reducer_val (r : option reducer) : pyval :=
  match r with Some f => VFun (red_name f) | None => VNone end.

Definition apply_reduces (reduces : option reducer) (rid type_id : Z)
    (df : list history) : list history :=
  match reduces with
  | Some f => map (set_ids rid type_id) (red_apply f df)
  | None => df
  end.

(** [pd.concat(objs, ignore_index=True)] as pandas documents it: [None]
    entries are dropped silently unless all are [None], in which case
    ValueError is raised; an empty sequence raises ValueError as well. *)
Definition pd_concat (objs : list (option (list history))) : M (list history) :=
  match omap id objs with
  | [] => raise ValueError
  | kept => ret (concat kept)
  end.

(** ** The orchestrators of [market.py] *)

Section Market.

Variable E : Env.

(** *** Collaborators, with their effects *)

Definition call_search_id (name category : string) : M Z :=
  emit (ev_search "search_id" (PyStr name)) ;;;
  ret (search_id E name category).

Definition call_search_structure_id (x : pyarg) (cname : option string) : M Z :=
  emit (ev_search "search_structure_id" x) ;;;
  ret (search_structure_id E x cname).

Definition call_search_station_region_id (station_id : Z) : M Z :=
  emit (ev_search "search_station_region_id" (PyInt station_id)) ;;;
  ret (search_station_region_id E station_id).

Definition of_response {A} (r : option A) : M A :=
  match r with Some a => ret a | None => raise TransportError end.

(** [ESIClient.head(endpoint, ...)]. *)
Definition ESIClient_head (ep : endpoint) : M headers :=
  emit (ev_head ep) ;;;
  of_response (esi_head E ep).

(** Modelled from the spec: [ESIClient.get] with [async_loop=["page"]]
    (package [src.ESI]) is not in this file.  Section 4.3: one request per
    page, the record lists merged into one; a transport error of any
    request fails the whole call. *)
Fixpoint ESIClient_get {A} (fetch : Z -> option (list A)) (ep : endpoint)
    (pages : list Z) : M (list A) :=
  match pages with
  | [] => ret []
  | p :: pages' =>
      emit (ev_get ep p) ;;;
      rows <- of_response (fetch p) ;;
      rest <- ESIClient_get fetch ep pages' ;;
      ret (rows ++ rest)
  end.

(** [int(headers["X-Pages"])]. *)
Definition x_pages_of (h : headers) : M Z :=
  match hd_x_pages h with Some n => ret n | None => raise KeyError end.

(** [range(1, x_pages + 1)]. *)
Definition page_range (x_pages : Z) : list Z :=
  map Z.of_nat (seq 1 (Z.to_nat x_pages)).

Definition pages_to_fetch (page : Z) (h : headers) : M (list Z) :=
  if page =? -1 then
    x_pages <- x_pages_of h ;;
    ret (page_range x_pages)
  else ret [page].

(** [expires] and [update_threshold] after the [if update_threshold:]
    test: an absent or zero option falls back to the remote hint and to
    1200 seconds. *)
Definition expiry_policy (update_threshold : option Z) (h : headers)
  : expires_arg * Z :=
  let hint := match hd_expires h with Some t => ExpHint t | None => ExpNone end in
  match update_threshold with
  | Some n => if n =? 0 then (hint, 1200) else (ExpSeconds n, n)
  | None => (hint, 1200)
  end.

(** The frame of the fetched orders, sorted.  A frame built from no record
    has no [type_id] column, and [sort_values] raises KeyError on it. *)
Definition orders_frame (retrieve_time region_id : Z) (system_id : option Z)
    (all_orders : list raw_order) : M (list order) :=
  match all_orders with
  | [] => raise KeyError
  | _ => ret (sort_values (map (to_order retrieve_time region_id system_id)
                             all_orders))
  end.

Definition truthy_str (s : option string) : bool :=
  match s with
  | Some s => negb (bool_decide (s = ""))
  | None => false
  end.

(** *** get_structure_market *)

Definition get_structure_market (structure_name_or_id : pyarg)
    (cname : option string) (kwd : kwds) : M pyobj :=
  (* sid = True; False for a name; the id itself for an integer *)
  sid <- match structure_name_or_id with
         | PyStr _ => ret false
         | PyInt n => ret (negb (n =? 0))
         | PyOther => raise TypeError
         end ;;
  if negb sid && negb (truthy_str cname) then raise ValueError
  else
    sid <- call_search_structure_id structure_name_or_id cname ;;
    headers <- ESIClient_head (ep_structure_orders sid) ;;
    let key := make_cache_key "get_structure_market" [VInt sid] kwd in
    value <- api_cache_get key ;;
    match value with
    | Some v => ret v
    | None =>
        let (expires, update_threshold) :=
          expiry_policy (kwd !! "update_threshold") headers in
        w <- get_world ;;
        r <- _update_or_not (now w - update_threshold) tbl_orders
               col_retrieve_time (Some 1000) true
               (mk_filter None (Some sid) None) ;;
        if negb (fst r) then
          _select_from_orders "all" None None (Some sid) (snd r)
        else
          pages <- pages_to_fetch (default (-1) (kwd !! "page")) headers ;;
          all_orders <- ESIClient_get (esi_orders E (ep_structure_orders sid))
                          (ep_structure_orders sid) pages ;;
          w <- get_world ;;
          df <- orders_frame (now w) (default 0 (kwd !! "region_id"))
                  (Some (default 0 (kwd !! "system_id"))) all_orders ;;
          to_sql_orders df ;;;
          api_cache_set key (DFOrders df) expires ;;;
          ret (DFOrders df)
    end.

(** *** get_region_market *)

Definition valid_order_type (order_type : string) : bool :=
  bool_decide (order_type ∈ ["sell"; "buy"; "all"]).

Definition get_region_market (region_name_or_id : pyarg) (order_type : string)
    (type_id : option Z) (kwd : kwds) : M pyobj :=
  rid <- match region_name_or_id with
         | PyStr s => call_search_id s "region"
         | PyInt n => ret n
         | PyOther => raise TypeError
         end ;;
  if negb (valid_order_type order_type) then raise ValueError
  else
    let page := default (-1) (kwd !! "page") in
    let ep := ep_region_orders rid order_type type_id in
    headers <- ESIClient_head ep ;;
    let key := make_cache_key "get_region_market"
                 [VInt rid; VStr order_type; opt_int type_id] kwd in
    value <- api_cache_get key ;;
    match value with
    | Some v => ret v
    | None =>
        let (expires, update_threshold) :=
          expiry_policy (kwd !! "update_threshold") headers in
        w <- get_world ;;
        r <- _update_or_not (now w - update_threshold) tbl_orders
               col_retrieve_time (Some 1000) true
               (mk_filter (Some rid) None None) ;;
        if negb (fst r) then
          _select_from_orders order_type type_id (Some rid) None (snd r)
        else
          pages <- pages_to_fetch page headers ;;
          all_orders <- ESIClient_get (esi_orders E ep) ep pages ;;
          w <- get_world ;;
          df <- orders_frame (now w) rid None all_orders ;;
          to_sql_orders df ;;;
          api_cache_set key (DFOrders df) expires ;;;
          ret (DFOrders df)
    end.

(** *** get_station_market *)

Definition get_station_market (station_name_or_id : pyarg)
    (order_type : string) (type_id : option Z) (kwd : kwds) : M pyobj :=
  station_id <- match station_name_or_id with
                | PyInt n => ret n
                | PyStr s => call_search_id s "station"
                | PyOther => raise TypeError
                end ;;
  if negb (valid_order_type order_type) then raise ValueError
  else
    region_id <- call_search_station_region_id station_id ;;
    let update_threshold := default 1200 (kwd !! "update_threshold") in
    w <- get_world ;;
    (* no_update_flag, retrieve_time = _update_or_not(...) *)
    r <- _update_or_not (now w - update_threshold) tbl_orders
           col_retrieve_time (Some 1000) true
           (mk_filter (Some region_id) (Some station_id) None) ;;
    (* if not no_update_flag: get_region_market(...) *)
    (if negb (fst r) then
       get_region_market (PyInt region_id) order_type type_id
         {[ "update_threshold" := update_threshold ]} ;;;
       ret tt
     else ret tt) ;;;
    _select_from_orders order_type type_id (Some region_id) (Some station_id)
      (snd r).

(** *** _get_type_history_async

    The coroutine suspends only at its two remote calls; it is run here
    from start to end.  The result [None] is Python's [None]. *)

Definition _get_type_history_async (rid type_id : Z)
    (reduces : option reducer) : M (option (list history)) :=
  w <- get_world ;;
  r <- _update_or_not (now w - 2 * 24 * 3600) tbl_market_history col_date
         None false (mk_filter (Some rid) None (Some type_id)) ;;
  if negb (fst r) then
    (* using db *)
    emit (ev_select tbl_market_history
            (mk_filter (Some rid) None (Some type_id))) ;;;
    w <- get_world ;;
    let df := List.filter
                (history_matches (mk_filter (Some rid) None (Some type_id)))
                (market_history w) in
    ret (Some (apply_reduces reduces rid type_id df))
  else
    emit (ev_check_type type_id) ;;;
    if negb (check_type_id E type_id) then ret None
    else
      emit (ev_request (ep_history rid type_id)) ;;;
      resp <- of_response (esi_history E rid type_id) ;;
      if (length resp =? 0)%nat then ret None
      else
        match history_frame rid type_id resp with
        | None => raise ValueError
        | Some df =>
            to_sql_history df ;;;
            ret (Some (apply_reduces reduces rid type_id df))
        end.

(** *** get_region_types *)

Definition get_region_types (region_name_or_id : pyarg) (src : string)
  : M (list Z) :=
  rid <- match region_name_or_id with
         | PyStr s => call_search_id s "region"
         | PyInt n => ret n
         | PyOther => raise TypeError
         end ;;
  let key := make_cache_key "get_region_types" [VInt rid; VStr src] ∅ in
  value <- api_cache_get key ;;
  (* if value: return value *)
  hit <- match value with
         | Some (TypeIds []) | None => ret None
         | Some (TypeIds l) => ret (Some l)
         | Some _ => raise ValueError (* truth value of a frame *)
         end ;;
  match hit with
  | Some l => ret l
  | None =>
      headers <- ESIClient_head (ep_region_types rid) ;;
      let expires :=
        match hd_expires headers with Some t => ExpHint t | None => ExpNone end in
      resp <- (if bool_decide (src = "esi") then
                 x_pages <- x_pages_of headers ;;
                 ESIClient_get (esi_types E rid) (ep_region_types rid)
                   (page_range x_pages)
               else if bool_decide (src = "db") then
                 emit (ev_select tbl_orders (mk_filter (Some rid) None None)) ;;;
                 w <- get_world ;;
                 ret (remove_dups
                        (map o_type_id
                           (List.filter
                              (order_matches (mk_filter (Some rid) None None))
                              (orders w))))
               else raise UnboundLocalError) ;;
      api_cache_set key (TypeIds resp) expires ;;;
      ret resp
  end.

(** *** get_market_history

    [asyncio.gather] over one task per type; the tasks are run one after
    the other, in list order, and the first exception ends the call.

    The event loop interleaves the tasks at their remote calls instead.
    The list of results is in task order under any interleaving, and
    tasks of different types read and write different rows of
    [market_history]; so for distinct types the results of a call in
    which no task raises are those of the sequential run, and so are the
    rows it stores, up to their order in the table.  When a task raises,
    which tasks have already written their rows, and which of several
    failing tasks is the first to fail, depends on the timing of the
    responses: the world after a failed call and the choice among several
    exceptions are those of this one schedule only, and nothing below is
    stated about them. *)

Fixpoint gather {A} (tasks : list (M A)) : M (list A) :=
  match tasks with
  | [] => ret []
  | t :: tasks' =>
      a <- t ;;
      rest <- gather tasks' ;;
      ret (a :: rest)
  end.

Definition get_market_history (region_name_or_id : pyarg)
    (type_ids : option (list Z)) (reduces : option reducer) : M pyobj :=
  rid <- match region_name_or_id with
         | PyStr s => call_search_id s "region"
         | PyInt n => ret n
         | PyOther => raise TypeError
         end ;;
  tk <- match type_ids with
        | None | Some [] =>
            ids <- get_region_types (PyInt rid) "esi" ;;
            ret (ids, make_cache_key "get_market_history"
                        [VInt rid; VStr "all_type_ids"; reducer_val reduces] ∅)
        | Some ids =>
            ret (ids, make_cache_key "get_market_history"
                        [VInt rid; VList ids; reducer_val reduces] ∅)
        end ;;
  let type_ids := fst tk in
  let key := snd tk in
  value <- api_cache_get key ;;
  match value with
  | Some v => ret v
  | None =>
      headers <- ESIClient_head (ep_history rid 12005) ;;
      let expires :=
        match hd_expires headers with Some t => ExpHint t | None => ExpNone end in
      ret_ <- gather (map (fun type_id =>
                             _get_type_history_async rid type_id reduces)
                        type_ids) ;;
      df <- pd_concat ret_ ;;
      api_cache_set key (DFHistory df) expires ;;;
      ret (DFHistory df)
  end.

End Market.

(** ** Scenarios used to exercise the model *)

Module Scenario.

Definition the_forge : Z := 10000002.
Definition jita_4_4 : Z := 60003760.
Definition citadel : Z := 1035466617946.

(** A remote side with one page of two orders per endpoint, no history, and
    no published type. *)
Definition page1 : list raw_order :=
  [ mk_raw_order 7001 34 30000142 jita_4_4 false 550 1000 90 1650000000;
    mk_raw_order 7002 34 30000142 jita_4_4 true 520 400 30 1650000500 ].

Definition env : Env :=
  mk_env
    (fun name category =>
       if bool_decide (category = "station") then jita_4_4 else the_forge)
    (fun x cname => match x with PyInt n => n | _ => citadel end)
    (fun station_id => the_forge)
    (fun ep => Some (mk_headers (Some 1653736500) (Some 1)))
    (fun ep page => Some page1)
    (fun rid page => Some [34; 35])
    (fun rid type_id => Some [])
    (fun type_id => false).

(** The same remote side with published types and two days of history. *)
Definition env_history : Env :=
  mk_env (search_id env) (search_structure_id env)
    (search_station_region_id env) (esi_head env) (esi_orders env)
    (esi_types env)
    (fun rid type_id =>
       Some [ mk_raw_history "2022-05-27" 540 560 500 1000000 2000;
              mk_raw_history "2022-05-28" 545 570 510 1200000 2100 ])
    (fun type_id => true).

(** An empty store and cache at 2022-05-28 11:10:00 UTC. *)
Definition w_empty : World := mk_world 1653736200 [] [] [].

(** A store holding a complete snapshot of The Forge, 1000 orders taken
    1000 seconds ago, all in one station. *)
Definition snapshot : list order :=
  map (fun i => mk_order (Z.of_nat i) 34 the_forge 30000142 jita_4_4 false
                  (500 + Z.of_nat i) 10 90 1650000000 (1653736200 - 1000))
    (seq 1 1000).

Definition w_fresh : World := mk_world 1653736200 snapshot [] [].

End Scenario.

(** ** Notions used in the statements *)

(** The dedup keys stored in a table, row by row. *)
Definition order_ids (tbl : list order) : list Z := map o_order_id tbl.

Definition history_keys (tbl : list history) : list (Z * Z * Z) :=
  map history_key tbl.

(** The fields an update may change. *)
Definition mutable_fields (o : order) : Z * Z * Z * Z :=
  (o_price o, o_volume_remain o, o_duration o, o_retrieve_time o).

(** The store invariant: one row per [order_id], one row per
    [(region_id, type_id, date)]. *)
Definition store_ok (w : World) : Prop :=
  NoDup (order_ids (orders w)) /\ NoDup (history_keys (market_history w)).

(** A computation keeps a property of the world, whatever its result. *)
Definition preserves {A} (P : World -> Prop) (m : M A) : Prop :=
  forall w, P w -> P (fin (m w)).

(** The outcome [o] with the events [l] logged before it. *)
Definition after (l : list event) {A} (o : outcome A) : outcome A :=
  mk_outcome (res o) (fin o) (l ++ log o).

(** The character of a decimal digit. *)
Definition digit_char (d : Z) : ascii := ascii_of_N (Z.to_N (48 + d)).

(** [date.isoformat()]: ["%04d-%02d-%02d"]. *)
Definition isoformat (y m d : Z) : string :=
  string_of_list_ascii
    [ digit_char (y / 1000 mod 10); digit_char (y / 100 mod 10);
      digit_char (y / 10 mod 10); digit_char (y mod 10); dash;
      digit_char (m / 10 mod 10); digit_char (m mod 10); dash;
      digit_char (d / 10 mod 10); digit_char (d mod 10) ].

(** The day after [(y, m, d)] in the Gregorian calendar. *)
Definition next_day (y m d : Z) : Z * Z * Z :=
  if d <? _days_in_month y m then (y, m, d + 1)
  else if m <? 12 then (y, m + 1, 1)
  else (y + 1, 1, 1).

(** A response whose records carry the ISO dates of the days [days]. *)
Definition dated (resp : list raw_history) (days : list (Z * Z * Z)) : Prop :=
  Forall2 (fun r '(y, m, d) =>
             valid_ymd y m d = true /\ rh_date r = isoformat y m d)
    resp days.

(** Rows stamped 11:05:00 UTC of the days [days]. *)
Definition stamped_1105 (df : list history) (days : list (Z * Z * Z)) : Prop :=
  Forall2 (fun h '(y, m, d) =>
             h_date h = midnight_utc y m d + 39900
             /\ h_date h / 86400 = _ymd2ord y m d - EPOCH_ORDINAL
             /\ h_date h mod 86400 = 11 * 3600 + 5 * 60 + 0)
    df days.

(** The verdict of the oracle at the call site of
    [_get_type_history_async]. *)
Definition history_verdict (rid type_id : Z) (w : World) : bool * option Z :=
  decide_fresh (now w - 2 * 24 * 3600) None false
    (stamps tbl_market_history col_date
       (mk_filter (Some rid) None (Some type_id)) w).

(** A computation never raises the exception [e]. *)
Definition avoids {A} (e : exn) (m : M A) : Prop :=
  forall w, res (m w) <> Raise e.

(** Effects that leave the process: requests to the remote source, reads
    and writes of the store, and the resolvers, which look a name or an id
    up remotely or in the store.  The response cache is in memory. *)
Definition reaches_outside (e : event) : bool :=
  match e with
  | ev_cache_get _ | ev_cache_set _ => false
  | _ => true
  end.

(** The region id that [get_region_market] works with. *)
Definition region_of (E : Env) (x : pyarg) : Z :=
  match x with
  | PyStr s => search_id E s "region"
  | PyInt n => n
  | PyOther => 0
  end.

(** The resolver calls [get_region_market] makes for its identifier. *)
Definition region_lookups (x : pyarg) : list event :=
  match x with
  | PyStr s => [ev_search "search_id" (PyStr s)]
  | _ => []
  end.

(** The cache keys the two order queries compute. *)
Definition structure_key (E : Env) (x : pyarg) (cname : option string)
    (kwd : kwds) : cache_key :=
  make_cache_key "get_structure_market"
    [VInt (search_structure_id E x cname)] kwd.

Definition region_key (E : Env) (x : pyarg) (order_type : string)
    (type_id : option Z) (kwd : kwds) : cache_key :=
  make_cache_key "get_region_market"
    [VInt (region_of E x); VStr order_type; opt_int type_id] kwd.

(** What follows the resolver calls in the log of a validated call: the
    HEAD request; nothing more when it fails; the cache read next when it
    completes, and nothing after that read when the cache answers. *)
Definition head_then_cache (E : Env) (ep : endpoint) (key : cache_key)
    (w : World) (o : outcome pyobj) (events : list event) : Prop :=
  match esi_head E ep with
  | None => events = [ev_head ep] /\ res o = Raise TransportError
  | Some _ =>
      exists rest,
        events = ev_head ep :: ev_cache_get key :: rest
        /\ forall v, cache_lookup key w = Some v ->
                     rest = [] /\ res o = Ok v /\ fin o = w
  end.

(** Events of the freshness oracle and of the store. *)
Definition consults_store (e : event) : bool :=
  match e with
  | ev_oracle _ _ | ev_select _ _ | ev_write _ _ => true
  | _ => false
  end.

(** The verdict of the oracle at the call sites of the order queries. *)
Definition orders_verdict (f : filter) (update_threshold : Z) (w : World)
  : bool * option Z :=
  decide_fresh (now w - update_threshold) (Some 1000) true
    (stamps tbl_orders col_retrieve_time f w).


(** ** The remaining entry points *)

(** *** get_jita_market *)

Definition get_jita_market (E : Env) (order_type : string)
    (type_id : option Z) : M pyobj :=
  get_station_market E (PyStr "Jita IV - Moon 4 - Caldari Navy Assembly Plant")
    order_type type_id ∅.

(** Modelled from the spec: [api_cache.set] (package [src.data]) is not in
    this file.  [api_cache.set(key, None, expires)]: a stored [None] reads
    back as [None], which every caller takes for a miss; the entry of the
    key is dropped. *)
Definition cache_drop (k : cache_key) (w : World) : World :=
  mk_world (now w) (orders w) (market_history w)
    (List.filter (fun e => negb (bool_decide (e_key e = k))) (api_cache w)).

Definition api_cache_set_none (k : cache_key) : M unit :=
  emit (ev_cache_set k) ;;;
  w <- get_world ;;
  put_world (cache_drop k w).

(** *** get_type_history

    [loop.run_until_complete] runs the coroutine to its end. *)

Definition get_type_history (E : Env) (region_name_or_id : pyarg)
    (type_id : Z) (reduces : option reducer) : M (option pyobj) :=
  rid <- match region_name_or_id with
         | PyStr s => call_search_id E s "region"
         | PyInt n => ret n
         | PyOther => raise TypeError
         end ;;
  let key := make_cache_key "get_type_history"
               [VInt rid; VInt type_id; reducer_val reduces] ∅ in
  value <- api_cache_get key ;;
  match value with
  | Some v => ret (Some v)
  | None =>
      headers <- ESIClient_head E (ep_history rid type_id) ;;
      let expires :=
        match hd_expires headers with Some t => ExpHint t | None => ExpNone end in
      df <- _get_type_history_async E rid type_id reduces ;;
      match df with
      | Some rows =>
          api_cache_set key (DFHistory rows) expires ;;;
          ret (Some (DFHistory rows))
      | None =>
          api_cache_set_none key ;;;
          ret None
      end
  end.

(** ** Notions used in the further statements *)

(** What [ESIClient.get] returns for a list of pages when every request
    completes. *)
Fixpoint fetch_all {A} (fetch : Z -> option (list A)) (pages : list Z)
  : option (list A) :=
  match pages with
  | [] => Some []
  | p :: pages' =>
      match fetch p, fetch_all fetch pages' with
      | Some rows, Some rest => Some (rows ++ rest)
      | _, _ => None
      end
  end.

(** The pages requested before the first failure, that one included. *)
Fixpoint attempted {A} (fetch : Z -> option (list A)) (pages : list Z)
  : list Z :=
  match pages with
  | [] => []
  | p :: pages' =>
      p :: match fetch p with Some _ => attempted fetch pages' | None => [] end
  end.

(** The pages a fetch asks for: the one of the [page] option, or all pages
    announced by the X-Pages header. *)
Definition requested_pages (page : Z) (h : headers) : option (list Z) :=
  if page =? -1 then
    match hd_x_pages h with Some n => Some (page_range n) | None => None end
  else Some [page].

(** The pages of the GET requests in a log, in order. *)
Definition get_pages (l : list event) : list Z :=
  omap (fun e => match e with ev_get _ p => Some p | _ => None end) l.

(** Every event a computation logs satisfies [P]. *)
Definition logs_only {A} (P : event -> Prop) (m : M A) : Prop :=
  forall w, Forall P (log (m w)).

(** A computation that raises leaves the world as it found it. *)
Definition atomic {A} (m : M A) : Prop :=
  forall w e, res (m w) = Raise e -> fin (m w) = w.

(** A computation that never changes the world. *)
Definition read_only {A} (m : M A) : Prop :=
  forall w, fin (m w) = w.


(** Events that talk to the remote source. *)
Definition is_remote (e : event) : bool :=
  match e with
  | ev_head _ | ev_get _ _ | ev_request _ | ev_check_type _ => true
  | _ => false
  end.

(** Events of the response cache. *)
Definition is_cache (e : event) : bool :=
  match e with
  | ev_cache_get _ | ev_cache_set _ => true
  | _ => false
  end.

(** The outcome of the stale path of an order query, from the choice of
    the pages on: KeyError without the X-Pages header, TransportError at
    the first failed page, KeyError on an empty merge; otherwise the sorted
    frame, written to the store and to the cache. *)
Definition fetch_outcome (E : Env) (ep : endpoint) (page : Z) (h : headers)
    (region_id : Z) (system_id : option Z) (key : cache_key)
    (expires : expires_arg) (w : World) : outcome pyobj :=
  match requested_pages page h with
  | None => mk_outcome (Raise KeyError) w []
  | Some pages =>
      let gets := map (ev_get ep) (attempted (esi_orders E ep) pages) in
      match fetch_all (esi_orders E ep) pages with
      | None => mk_outcome (Raise TransportError) w gets
      | Some [] => mk_outcome (Raise KeyError) w gets
      | Some rows =>
          let df := sort_values
                      (map (to_order (now w) region_id system_id) rows) in
          mk_outcome (Ok (DFOrders df))
            (cache_store key (DFOrders df) expires
               (mk_world (now w) (upsert_orders df (orders w))
                  (market_history w) (api_cache w)))
            (gets ++ [ev_write tbl_orders (length df); ev_cache_set key])
      end
  end.

(** The outcome of an order query that passed validation, got its HEAD
    answered and missed the cache: the oracle is asked, then either the
    store is read or the stale path is taken. *)
Definition miss_outcome (E : Env) (ep : endpoint) (f : filter)
    (order_type : string) (type_id : option Z) (region_id : Z)
    (system_id : option Z) (key : cache_key) (kwd : kwds) (h : headers)
    (w : World) : outcome pyobj :=
  let policy := expiry_policy (kwd !! "update_threshold") h in
  let verdict := orders_verdict f (snd policy) w in
  after [ev_head ep; ev_cache_get key; ev_oracle tbl_orders f]
    (if fst verdict
     then fetch_outcome E ep (default (-1) (kwd !! "page")) h region_id
            system_id key (fst policy) w
     else mk_outcome
            (Ok (DFOrders
                   (select_orders order_type type_id (f_region_id f)
                      (f_location_id f) (snd verdict) (orders w))))
            w
            [ev_select tbl_orders
               (mk_filter (f_region_id f) (f_location_id f) type_id)]).

Module Outage.

(** A remote side that announces two pages of orders and fails on the
    second. *)
Definition env : Env :=
  mk_env (search_id Scenario.env) (search_structure_id Scenario.env)
    (search_station_region_id Scenario.env)
    (fun ep => Some (mk_headers (Some 1653736500) (Some 2)))
    (fun ep page => if page =? 1 then Some Scenario.page1 else None)
    (esi_types Scenario.env) (esi_history Scenario.env)
    (check_type_id Scenario.env).

End Outage.


Module Edge.

(** A remote side whose HEAD responses carry no X-Pages header. *)
Definition env_no_x_pages : Env :=
  mk_env (search_id Scenario.env) (search_structure_id Scenario.env)
    (search_station_region_id Scenario.env)
    (fun ep => Some (mk_headers (Some 1653736500) None))
    (esi_orders Scenario.env) (esi_types Scenario.env)
    (esi_history Scenario.env) (check_type_id Scenario.env).

(** A remote side with one page and no order on it. *)
Definition env_empty_market : Env :=
  mk_env (search_id Scenario.env) (search_structure_id Scenario.env)
    (search_station_region_id Scenario.env) (esi_head Scenario.env)
    (fun ep page => Some [])
    (esi_types Scenario.env) (esi_history Scenario.env)
    (check_type_id Scenario.env).

End Edge.

(** The row is on the requested side of the book, and of the requested
    type. *)
Definition on_side (order_type : string) (o : order) : Prop :=
  (order_type = "sell" -> o_is_buy_order o = false)
  /\ (order_type = "buy" -> o_is_buy_order o = true).

Definition of_type (type_id : option Z) (o : order) : Prop :=
  forall t, type_id = Some t -> o_type_id o = t.

(** The station id that [get_station_market] works with, and the resolver
    calls it makes. *)
Definition station_of (E : Env) (x : pyarg) : Z :=
  match x with
  | PyStr s => search_id E s "station"
  | PyInt n => n
  | PyOther => 0
  end.

(** The cache key of the [get_region_market] call inside
    [get_station_market]. *)
Definition station_inner_key (E : Env) (x : pyarg) (order_type : string)
    (type_id : option Z) (kwd : kwds) : cache_key :=
  make_cache_key "get_region_market"
    [VInt (search_station_region_id E (station_of E x)); VStr order_type;
     opt_int type_id]
    {[ "update_threshold" := default 1200 (kwd !! "update_threshold") ]}.

(** Every cache access in the log is under the key [k]. *)
Definition cache_only_under (k : cache_key) (l : list event) : Prop :=
  Forall (fun e => is_cache e = true ->
                   e = ev_cache_get k \/ e = ev_cache_set k) l.

(** The outcome of [_get_type_history_async], decision by decision: the
    oracle, then either the store read, or the validity check, the history
    request and the conversion of the response. *)
Definition type_history_outcome (E : Env) (rid type_id : Z)
    (reduces : option reducer) (w : World) : outcome (option (list history)) :=
  let f := mk_filter (Some rid) None (Some type_id) in
  after [ev_oracle tbl_market_history f]
    (if fst (history_verdict rid type_id w) then
       after [ev_check_type type_id]
         (if check_type_id E type_id then
            after [ev_request (ep_history rid type_id)]
              (match esi_history E rid type_id with
               | None => mk_outcome (Raise TransportError) w []
               | Some [] => mk_outcome (Ok None) w []
               | Some resp =>
                   match history_frame rid type_id resp with
                   | None => mk_outcome (Raise ValueError) w []
                   | Some df =>
                       mk_outcome
                         (Ok (Some (apply_reduces reduces rid type_id df)))
                         (mk_world (now w) (orders w)
                            (upsert_history df (market_history w))
                            (api_cache w))
                         [ev_write tbl_market_history (length df)]
                   end
               end)
          else mk_outcome (Ok None) w [])
     else
       mk_outcome
         (Ok (Some (apply_reduces reduces rid type_id
                      (List.filter (history_matches f) (market_history w)))))
         w [ev_select tbl_market_history f]).

(** A record whose date text the conversion rejects: [strptime] raises
    ValueError on it. *)
Definition bad_date (r : raw_history) : Prop := history_date (rh_date r) = None.

Module BadDate.

(** A remote side whose history holds a day that does not exist. *)
Definition env : Env :=
  mk_env (search_id Scenario.env) (search_structure_id Scenario.env)
    (search_station_region_id Scenario.env) (esi_head Scenario.env)
    (esi_orders Scenario.env) (esi_types Scenario.env)
    (fun rid type_id =>
       Some [ mk_raw_history "2022-05-27" 540 560 500 1000000 2000;
              mk_raw_history "2022-02-30" 545 570 510 1200000 2100 ])
    (fun type_id => true).

End BadDate.

(** A store holding one recent day of history of type 34 in The Forge. *)
Definition w_history : World :=
  mk_world 1653736200 []
    [mk_history 10000002 34 1653735900 545 570 510 1200000 2100] [].

(** The remote requests a per-type history call makes. *)
Definition type_history_requests (E : Env) (rid type_id : Z) (w : World)
  : list event :=
  if fst (history_verdict rid type_id w) then
    if check_type_id E type_id
    then [ev_check_type type_id; ev_request (ep_history rid type_id)]
    else [ev_check_type type_id]
  else [].

(** The cache key of [get_region_types]. *)
Definition types_key (E : Env) (x : pyarg) (src : string) : cache_key :=
  make_cache_key "get_region_types" [VInt (region_of E x); VStr src] ∅.

(** What the cache holds for a call of [get_region_types] that goes on past
    its [if value:] test: nothing, or an empty list. *)
Definition no_cached_types (k : cache_key) (w : World) : Prop :=
  cache_lookup k w = None \/ cache_lookup k w = Some (TypeIds []).

(** The remote side of [Scenario.env] with every request failing. *)
Definition env_down : Env :=
  mk_env (search_id Scenario.env) (search_structure_id Scenario.env)
    (search_station_region_id Scenario.env)
    (fun ep => None) (fun ep page => None) (fun rid page => None)
    (fun rid type_id => None) (check_type_id Scenario.env).

(** The cache keys of [get_market_history]: for an explicit list of types,
    and for all the types of the region. *)
Definition history_key_for (E : Env) (x : pyarg) (type_ids : list Z)
    (reduces : option reducer) : cache_key :=
  make_cache_key "get_market_history"
    [VInt (region_of E x); VList type_ids; reducer_val reduces] ∅.

Definition history_key_all (E : Env) (x : pyarg) (reduces : option reducer)
  : cache_key :=
  make_cache_key "get_market_history"
    [VInt (region_of E x); VStr "all_type_ids"; reducer_val reduces] ∅.

(** The expiry a history call passes to the cache. *)
Definition header_expiry (h : headers) : expires_arg :=
  match hd_expires h with Some t => ExpHint t | None => ExpNone end.

(** The per-type tasks of a bulk history call. *)
Definition history_tasks (E : Env) (rid : Z) (type_ids : list Z)
    (reduces : option reducer) : list (M (option (list history))) :=
  map (fun type_id => _get_type_history_async E rid type_id reduces) type_ids.

(** A remote side on which the region has no market type. *)
Definition env_no_types : Env :=
  mk_env (search_id Scenario.env) (search_structure_id Scenario.env)
    (search_station_region_id Scenario.env) (esi_head Scenario.env)
    (esi_orders Scenario.env) (fun rid page => Some [])
    (esi_history Scenario.env) (check_type_id Scenario.env).

(** The station name behind [get_jita_market]. *)
Definition jita_name : string :=
  "Jita IV - Moon 4 - Caldari Navy Assembly Plant".

(** What an order query leaves of the world [w] in the world [w']: the
    clock and the history table as they were, every stored order id still
    stored, and the cache entries of all keys but [key] as they were. *)
Definition footprint (key : cache_key) (w w' : World) : Prop :=
  now w' = now w
  /\ market_history w' = market_history w
  /\ (forall i, In i (order_ids (orders w)) -> In i (order_ids (orders w')))
  /\ (forall k, k <> key ->
        cache_find k (api_cache w') = cache_find k (api_cache w)).

(** The snapshot of [Scenario.w_fresh] with one newer order of the region
    in another station: fresh for the station, stale for the region. *)
Definition w_fresh_station : World :=
  mk_world 1653736200
    (mk_order 999999 35 10000002 30000144 60008494 true 90 5 30 1650000000
       1653736100 :: Scenario.snapshot)
    [] [].

(** The orders table of the world is [tbl]. *)
Definition orders_are (tbl : list order) (w : World) : Prop := orders w = tbl.

(** * Properties *)

(** ** The freshness decision *)

Lemma fold_max_bounds (l : list Z) (x : Z) :
  x <= fold_left Z.max l x
  /\ Forall (fun y => y <= fold_left Z.max l x) l
  /\ In (fold_left Z.max l x) (x :: l).
Proof.
  revert x; induction l as [|a l IH]; intros x; simpl.
  - split; [lia|]. split; [constructor | now left].
  - destruct (IH (Z.max x a)) as (Hx & Hall & Hin).
    split; [lia|]. split.
    + constructor; [lia | exact Hall].
    + destruct Hin as [Hin | Hin]; [|right; right; exact Hin].
      destruct (Z.max_spec x a) as [[_ Hm] | [_ Hm]]; rewrite Hm in Hin |- *;
        simpl; auto.
Qed.

(** [max_stamp] is the maximum of the matching timestamps, and is absent
    exactly when no row matches. *)
Lemma max_stamp_spec (l : list Z) :
  match max_stamp l with
  | None => l = []
  | Some m => In m l /\ Forall (fun y => y <= m) l
  end.
Proof.
  destruct l as [|x l]; simpl; [reflexivity|].
  destruct (fold_max_bounds l x) as (Hx & Hall & Hin).
  split; [destruct Hin; auto | constructor; assumption].
Qed.

(** C1.  For every freshness decision, with T the threshold, M the
    maximum timestamp among the stored rows matching the filter and
    count_at M the number of matching rows stamped M: the flag returned by
    [_update_or_not] is true if and only if M is absent, or M < T, or the
    fresh-entry check is enabled and count_at M is below min_fresh_entry.
    Otherwise the flag is false and the maximum found is returned.  The
    decision reads the store and changes nothing. *)
Theorem update_or_not_decision (T : Z) (t : table) (c : column)
    (min_fresh_entry : option Z) (fresh_entry_check : bool) (f : filter)
    (w : World) :
  let rows := stamps t c f w in
  let o := _update_or_not T t c min_fresh_entry fresh_entry_check f w in
  exists needs_update last,
    res o = Ok (needs_update, last)
    /\ fin o = w
    /\ (needs_update = true <->
          max_stamp rows = None
          \/ (exists m, max_stamp rows = Some m /\ m < T)
          \/ (fresh_entry_check = true
              /\ exists m n, max_stamp rows = Some m
                             /\ min_fresh_entry = Some n
                             /\ count_at m rows < n))
    /\ (needs_update = false -> last = max_stamp rows /\ last <> None).
Proof.
  intros rows o. subst o. unfold _update_or_not, bind, emit, get_world, ret.
  cbn [res fin log]. fold rows. unfold decide_fresh.
  destruct (max_stamp rows) as [m|] eqn:HM.
  2:{ eexists _, _. repeat split; auto; discriminate. }
  destruct (m <? T) eqn:HT.
  { apply Z.ltb_lt in HT. eexists _, _. split; [reflexivity|]. split; [reflexivity|].
    split; [|discriminate]. split; [|reflexivity].
    intros _. right; left. eauto. }
  apply Z.ltb_ge in HT.
  destruct fresh_entry_check; cbn [andb].
  - destruct min_fresh_entry as [n|]; cbn [below_minimum].
    + destruct (count_at m rows <? n) eqn:HC.
      * apply Z.ltb_lt in HC. eexists _, _. split; [reflexivity|].
        split; [reflexivity|]. split; [|discriminate]. split; [|reflexivity].
        intros _. right; right. split; [reflexivity|]. eauto.
      * apply Z.ltb_ge in HC. eexists _, _. split; [reflexivity|].
        split; [reflexivity|]. split.
        -- split; [discriminate|].
           intros [H | [(m' & H & Hlt) | (_ & m' & n' & H & Hn & Hlt)]];
             [discriminate | |]; inversion H; subst; [lia|].
           inversion Hn; subst; lia.
        -- intros _. split; [reflexivity | discriminate].
    + eexists _, _. split; [reflexivity|]. split; [reflexivity|]. split.
      * split; [discriminate|].
        intros [H | [(m' & H & Hlt) | (_ & m' & n' & H & Hn & Hlt)]];
          [discriminate | | discriminate]. inversion H; subst; lia.
      * intros _. split; [reflexivity | discriminate].
  - eexists _, _. split; [reflexivity|]. split; [reflexivity|]. split.
    + split; [discriminate|].
      intros [H | [(m' & H & Hlt) | (Hc & _)]];
        [discriminate | | discriminate]. inversion H; subst; lia.
    + intros _. split; [reflexivity | discriminate].
Qed.

(** The complete snapshot of The Forge, taken 1000 seconds ago, against the
    threshold of 1200 seconds and the minimum of 1000 rows. *)
Lemma update_or_not_decision_witness :
  exists needs_update last,
    res (_update_or_not (1653736200 - 1200) tbl_orders col_retrieve_time
           (Some 1000) true (mk_filter (Some 10000002) None None)
           Scenario.w_fresh)
    = Ok (needs_update, last)
    /\ needs_update = false
    /\ last = Some 1653735200.
Proof.
  destruct (update_or_not_decision (1653736200 - 1200) tbl_orders
              col_retrieve_time (Some 1000) true
              (mk_filter (Some 10000002) None None) Scenario.w_fresh)
    as (needs_update & last & Hres & _ & _ & _).
  exists needs_update, last. split; [exact Hres|].
  vm_compute in Hres. injection Hres as <- <-. split; reflexivity.
Defined.

(** The scenario of the design document: 12 rows stamped 1000 seconds ago,
    threshold 1200 seconds ago, at least 5 rows required. *)
Example decide_fresh_scenario :
  decide_fresh (-1200) (Some 5) true (repeat (-1000) 12)
  = (false, Some (-1000)).
Proof. reflexivity. Qed.

Example decide_fresh_no_rows :
  decide_fresh (-1200) (Some 5) true [] = (true, None).
Proof. reflexivity. Qed.

(** ** Store writes and the dedup keys *)

Lemma orders_insert_update_ids (tbl : list order) (r : order) :
  order_ids (orders_insert_update tbl r)
  = if existsb (same_order r) tbl then order_ids tbl
    else order_ids tbl ++ [o_order_id r].
Proof.
  unfold orders_insert_update, order_ids.
  destruct (existsb (same_order r) tbl).
  - rewrite map_map. apply map_ext. intros o.
    destruct (same_order r o); reflexivity.
  - rewrite map_app. reflexivity.
Qed.

Lemma same_order_absent (tbl : list order) (r : order) :
  existsb (same_order r) tbl = false -> ~ In (o_order_id r) (order_ids tbl).
Proof.
  intros Hex Hin. apply in_map_iff in Hin as (o & Hid & Hin).
  assert (existsb (same_order r) tbl = true) as Hex'.
  { apply existsb_exists. exists o. split; [exact Hin|].
    unfold same_order. now apply Z.eqb_eq. }
  congruence.
Qed.

Lemma nodup_snoc {A} (l : list A) (x : A) :
  NoDup l -> ~ In x l -> NoDup (l ++ [x]).
Proof.
  intros Hl Hx. apply NoDup_app. split; [exact Hl|]. split.
  - intros y Hy Hy'. apply list_elem_of_In in Hy, Hy'.
    destruct Hy' as [<- | []]. contradiction.
  - apply NoDup_singleton.
Qed.

Lemma orders_insert_update_nodup (tbl : list order) (r : order) :
  NoDup (order_ids tbl) -> NoDup (order_ids (orders_insert_update tbl r)).
Proof.
  intros H. rewrite orders_insert_update_ids.
  destruct (existsb (same_order r) tbl) eqn:Hex; [exact H|].
  apply nodup_snoc; [exact H | now apply same_order_absent].
Qed.

Lemma upsert_orders_nodup (rows tbl : list order) :
  NoDup (order_ids tbl) -> NoDup (order_ids (upsert_orders rows tbl)).
Proof.
  revert tbl. induction rows as [|r rows IH]; intros tbl H; simpl; [exact H|].
  apply IH, orders_insert_update_nodup, H.
Qed.

Lemma orders_insert_update_wins (tbl : list order) (r o : order) :
  In o (orders_insert_update tbl r) -> o_order_id o = o_order_id r ->
  mutable_fields o = mutable_fields r.
Proof.
  unfold orders_insert_update. intros Hin Hid.
  destruct (existsb (same_order r) tbl) eqn:Hex.
  - apply in_map_iff in Hin as (o' & Ho & Hin).
    destruct (same_order r o') eqn:Hs; subst o; [reflexivity|].
    unfold same_order in Hs. apply Z.eqb_neq in Hs. contradiction.
  - apply in_app_or in Hin as [Hin | [-> | []]]; [|reflexivity].
    exfalso. apply (same_order_absent tbl r Hex).
    rewrite <- Hid. now apply in_map.
Qed.

Lemma orders_insert_update_present (tbl : list order) (r : order) :
  In (o_order_id r) (order_ids (orders_insert_update tbl r)).
Proof.
  rewrite orders_insert_update_ids.
  destruct (existsb (same_order r) tbl) eqn:Hex.
  - apply existsb_exists in Hex as (o & Hin & Hs).
    unfold same_order in Hs. apply Z.eqb_eq in Hs. rewrite <- Hs.
    now apply in_map.
  - apply in_or_app. right. now left.
Qed.

Lemma same_day_absent (tbl : list history) (r : history) :
  existsb (same_day r) tbl = false -> ~ In (history_key r) (history_keys tbl).
Proof.
  intros Hex Hin. apply in_map_iff in Hin as (h & Hk & Hin).
  assert (existsb (same_day r) tbl = true) as Hex'.
  { apply existsb_exists. exists h. split; [exact Hin|].
    unfold same_day. now apply bool_decide_eq_true. }
  congruence.
Qed.

Lemma history_insert_ignore_nodup (tbl : list history) (r : history) :
  NoDup (history_keys tbl) -> NoDup (history_keys (history_insert_ignore tbl r)).
Proof.
  intros H. unfold history_insert_ignore.
  destruct (existsb (same_day r) tbl) eqn:Hex; [exact H|].
  unfold history_keys. rewrite map_app. simpl.
  apply nodup_snoc; [exact H | now apply same_day_absent].
Qed.

Lemma upsert_history_nodup (rows tbl : list history) :
  NoDup (history_keys tbl) -> NoDup (history_keys (upsert_history rows tbl)).
Proof.
  revert tbl. induction rows as [|r rows IH]; intros tbl H; simpl; [exact H|].
  apply IH, history_insert_ignore_nodup, H.
Qed.

Lemma history_insert_ignore_collision (tbl : list history) (r h : history) :
  In h tbl -> history_key h = history_key r -> history_insert_ignore tbl r = tbl.
Proof.
  intros Hin Hk. unfold history_insert_ignore.
  destruct (existsb (same_day r) tbl) eqn:Hex; [reflexivity|].
  exfalso. apply (same_day_absent tbl r Hex). rewrite <- Hk.
  now apply in_map.
Qed.

(** A batch of history writes only appends. *)
Lemma upsert_history_extends (rows tbl : list history) :
  exists extra, upsert_history rows tbl = tbl ++ extra.
Proof.
  revert tbl. induction rows as [|r rows IH]; intros tbl; simpl.
  - exists []. now rewrite app_nil_r.
  - destruct (IH (history_insert_ignore tbl r)) as (extra & ->).
    unfold history_insert_ignore.
    destruct (existsb (same_day r) tbl); [now exists extra|].
    exists ([r] ++ extra). now rewrite app_assoc.
Qed.

Section Preservation.

Context (P : World -> Prop).

Lemma preserves_ret {A} (a : A) : preserves P (ret a).
Proof. intros w H. exact H. Qed.

Lemma preserves_raise {A} (e : exn) : preserves P (@raise A e).
Proof. intros w H. exact H. Qed.

Lemma preserves_emit (e : event) : preserves P (emit e).
Proof. intros w H. exact H. Qed.

Lemma preserves_get_world : preserves P get_world.
Proof. intros w H. exact H. Qed.

Lemma preserves_bind {A B} (m : M A) (k : A -> M B) :
  preserves P m -> (forall a, preserves P (k a)) -> preserves P (bind m k).
Proof.
  intros Hm Hk w H. unfold bind. specialize (Hm w H).
  destruct (m w) as [[a|e] w1 l1]; cbn [fin] in *; [|exact Hm].
  specialize (Hk a w1 Hm). destruct (k a w1). exact Hk.
Qed.

Lemma preserves_of_response {A} (r : option A) : preserves P (of_response r).
Proof. destruct r; [apply preserves_ret | apply preserves_raise]. Qed.

End Preservation.

Lemma preserves_cache_set (k : cache_key) (v : pyobj) (x : expires_arg) :
  preserves store_ok (api_cache_set k v x).
Proof. intros w H. exact H. Qed.

Lemma preserves_to_sql_orders (rows : list order) :
  preserves store_ok (to_sql_orders rows).
Proof.
  intros w [Ho Hh]. split; cbn; [now apply upsert_orders_nodup | exact Hh].
Qed.

Lemma preserves_to_sql_history (rows : list history) :
  preserves store_ok (to_sql_history rows).
Proof.
  intros w [Ho Hh]. split; cbn; [exact Ho | now apply upsert_history_nodup].
Qed.

Lemma preserves_ESIClient_get (P : World -> Prop) {A}
    (fetch : Z -> option (list A)) (ep : endpoint) (pages : list Z) :
  preserves P (ESIClient_get fetch ep pages).
Proof.
  induction pages as [|p pages IH]; simpl; [apply preserves_ret|].
  apply preserves_bind; [apply preserves_emit | intros _].
  apply preserves_bind; [apply preserves_of_response | intros rows].
  apply preserves_bind; [exact IH | intros rest]. apply preserves_ret.
Qed.

(** One step of the syntax-directed proof that an orchestrator keeps the
    store invariant. *)
Ltac preserve_step :=
  match goal with
  | |- preserves _ (bind _ _) => apply preserves_bind
  | |- preserves _ (ret _) => apply preserves_ret
  | |- preserves _ (raise _) => apply preserves_raise
  | |- preserves _ (emit _) => apply preserves_emit
  | |- preserves _ get_world => apply preserves_get_world
  | |- preserves _ (of_response _) => apply preserves_of_response
  | |- preserves _ (ESIClient_get _ _ _) => apply preserves_ESIClient_get
  | |- preserves _ (api_cache_set _ _ _) => apply preserves_cache_set
  | |- preserves _ (to_sql_orders _) => apply preserves_to_sql_orders
  | |- preserves _ (to_sql_history _) => apply preserves_to_sql_history
  | |- preserves _ (match ?x with _ => _ end) => destruct x
  | |- forall _, _ => intro
  end.

Ltac preserve :=
  repeat first
    [ preserve_step
    | progress unfold api_cache_get, _update_or_not, _select_from_orders,
        call_search_id, call_search_structure_id,
        call_search_station_region_id, ESIClient_head, pages_to_fetch,
        x_pages_of, orders_frame, pd_concat ].

Lemma preserves_get_structure_market (E : Env) (x : pyarg)
    (cname : option string) (kwd : kwds) :
  preserves store_ok (get_structure_market E x cname kwd).
Proof. unfold get_structure_market. preserve. Qed.

Lemma preserves_get_region_market (E : Env) (x : pyarg) (order_type : string)
    (type_id : option Z) (kwd : kwds) :
  preserves store_ok (get_region_market E x order_type type_id kwd).
Proof. unfold get_region_market. preserve. Qed.

Lemma preserves_get_station_market (E : Env) (x : pyarg) (order_type : string)
    (type_id : option Z) (kwd : kwds) :
  preserves store_ok (get_station_market E x order_type type_id kwd).
Proof.
  unfold get_station_market. preserve.
  all: apply preserves_get_region_market.
Qed.

Lemma preserves_get_type_history (E : Env) (rid type_id : Z)
    (reduces : option reducer) :
  preserves store_ok (_get_type_history_async E rid type_id reduces).
Proof. unfold _get_type_history_async. preserve. Qed.

Lemma preserves_gather (P : World -> Prop) {A} (tasks : list (M A)) :
  Forall (preserves P) tasks -> preserves P (gather tasks).
Proof.
  induction 1 as [|t tasks Ht _ IH]; simpl; [apply preserves_ret|].
  apply preserves_bind; [exact Ht | intros a].
  apply preserves_bind; [exact IH | intros rest]. apply preserves_ret.
Qed.

Lemma preserves_get_region_types (E : Env) (x : pyarg) (src : string) :
  preserves store_ok (get_region_types E x src).
Proof. unfold get_region_types. preserve. Qed.

Lemma preserves_get_market_history (E : Env) (x : pyarg)
    (type_ids : option (list Z)) (reduces : option reducer) :
  preserves store_ok (get_market_history E x type_ids reduces).
Proof.
  unfold get_market_history. preserve.
  all: try apply preserves_get_region_types.
  all: apply preserves_gather, Forall_forall; intros t Ht;
    apply list_elem_of_In, in_map_iff in Ht as (type_id & <- & _);
    apply preserves_get_type_history.
Qed.

(** C6.  Every store write keeps the dedup keys.  In a store with one row
    per [order_id] and one row per [(region_id, type_id, date)]:
    a batch written to [orders] leaves one row per [order_id], and the row
    of the order written last carries that write's mutable fields (last
    write wins); a batch written to [market_history] leaves one row per
    key, every row stored before is still there unchanged, and a write
    that collides with a stored row is discarded.  The orchestrators,
    whose only writes are these, keep both keys whatever they return. *)
Theorem store_writes_keep_dedup_keys (w : World) (rows : list order)
    (days : list history) :
  store_ok w ->
  (* orders: insert or update *)
  store_ok (fin (to_sql_orders rows w))
  /\ (forall r : order,
        let tbl := orders (fin (to_sql_orders (rows ++ [r]) w)) in
        In (o_order_id r) (order_ids tbl)
        /\ forall o, In o tbl -> o_order_id o = o_order_id r ->
                     mutable_fields o = mutable_fields r)
  (* market_history: insert or ignore *)
  /\ store_ok (fin (to_sql_history days w))
  /\ (forall h, In h (market_history w) ->
                In h (market_history (fin (to_sql_history days w))))
  /\ (forall r h, In h (market_history w) -> history_key h = history_key r ->
                  market_history (fin (to_sql_history [r] w)) = market_history w)
  (* the callers *)
  /\ (forall E x cname kwd, store_ok (fin (get_structure_market E x cname kwd w)))
  /\ (forall E x order_type type_id kwd,
        store_ok (fin (get_region_market E x order_type type_id kwd w)))
  /\ (forall E x order_type type_id kwd,
        store_ok (fin (get_station_market E x order_type type_id kwd w)))
  /\ (forall E rid type_id reduces,
        store_ok (fin (_get_type_history_async E rid type_id reduces w)))
  /\ (forall E x type_ids reduces,
        store_ok (fin (get_market_history E x type_ids reduces w))).
Proof.
  intros Hw.
  split; [now apply preserves_to_sql_orders|].
  split.
  { intros r tbl. subst tbl. cbn. unfold upsert_orders.
    rewrite fold_left_app. cbn. split.
    - apply orders_insert_update_present.
    - intros o. apply orders_insert_update_wins. }
  split; [now apply preserves_to_sql_history|].
  split.
  { intros h Hin. cbn.
    destruct (upsert_history_extends days (market_history w)) as (extra & ->).
    apply in_or_app. now left. }
  split.
  { intros r h Hin Hk. cbn. now apply (history_insert_ignore_collision _ r h). }
  split; [intros; now apply preserves_get_structure_market|].
  split; [intros; now apply preserves_get_region_market|].
  split; [intros; now apply preserves_get_station_market|].
  split; [intros; now apply preserves_get_type_history|].
  intros; now apply preserves_get_market_history.
Qed.

(** A store with one order and one day of history: the order is written
    again with a new price, the day is written again with a new average. *)
Lemma store_writes_keep_dedup_keys_witness :
  let o1 := mk_order 7001 34 10000002 30000142 60003760 false 550 1000 90 0 100 in
  let o2 := mk_order 7001 34 10000002 30000142 60003760 false 540 900 90 0 400 in
  let h1 := mk_history 10000002 34 1653735900 540 560 500 1000000 2000 in
  let h2 := mk_history 10000002 34 1653735900 999 999 999 1 1 in
  let w := mk_world 500 [o1] [h1] [] in
  store_ok w
  /\ orders (fin (to_sql_orders [o2] w)) = [o2]
  /\ market_history (fin (to_sql_history [h2] w)) = [h1]
  /\ store_ok (fin (to_sql_orders [o2] w)).
Proof.
  intros o1 o2 h1 h2 w.
  assert (store_ok w) as Hw by (split; apply NoDup_singleton).
  split; [exact Hw|]. split; [reflexivity|]. split; [reflexivity|].
  exact (proj1 (store_writes_keep_dedup_keys w [o2] [h2] Hw)).
Defined.

(** ** Running the monad *)

Lemma bind_ret_l {A B} (a : A) (k : A -> M B) (w : World) :
  bind (ret a) k w = k a w.
Proof. unfold bind, ret. now destruct (k a w). Qed.

Lemma bind_raise {A B} (e : exn) (k : A -> M B) (w : World) :
  bind (raise e) k w = mk_outcome (Raise e) w [].
Proof. reflexivity. Qed.

Lemma bind_emit {B} (e : event) (k : unit -> M B) (w : World) :
  bind (emit e) k w = after [e] (k tt w).
Proof. unfold bind, emit, after. now destruct (k tt w). Qed.

Lemma bind_get_world {B} (k : World -> M B) (w : World) :
  bind get_world k w = k w w.
Proof. unfold bind, get_world. now destruct (k w w). Qed.

Lemma bind_put_world {B} (w' : World) (k : unit -> M B) (w : World) :
  bind (put_world w') k w = k tt w'.
Proof. unfold bind, put_world. now destruct (k tt w'). Qed.

Lemma bind_assoc {A B C} (m : M A) (f : A -> M B) (g : B -> M C) (w : World) :
  bind (bind m f) g w = bind m (fun a => bind (f a) g) w.
Proof.
  unfold bind. destruct (m w) as [[a|e] w1 l1]; [|reflexivity].
  destruct (f a w1) as [[b|e] w2 l2]; [|reflexivity].
  destruct (g b w2) as [r w3 l3]. now rewrite app_assoc.
Qed.

Lemma run_ret {A} (a : A) (w : World) : ret a w = mk_outcome (Ok a) w [].
Proof. reflexivity. Qed.

Lemma run_raise {A} (e : exn) (w : World) :
  @raise A e w = mk_outcome (Raise e) w [].
Proof. reflexivity. Qed.

Lemma after_after {A} (l l' : list event) (o : outcome A) :
  after l (after l' o) = after (l ++ l') o.
Proof. unfold after. cbn. now rewrite app_assoc. Qed.

(** Runs the computation in the goal as far as its next decision. *)
Ltac run_py :=
  repeat first
    [ rewrite bind_assoc
    | rewrite bind_ret_l
    | rewrite bind_raise
    | rewrite bind_emit
    | rewrite bind_get_world
    | rewrite bind_put_world
    | rewrite after_after
    | rewrite run_ret
    | rewrite run_raise
    | progress cbn [res fin log after of_response negb andb orb fst snd app] ].

(** ** History dates *)

Example isoformat_2022_05_28 : isoformat 2022 5 28 = "2022-05-28".
Proof. reflexivity. Qed.

(** 2022-05-28 11:05:00 UTC. *)
Example history_date_2022_05_28 : history_date "2022-05-28" = Some 1653735900.
Proof. reflexivity. Qed.

Example history_date_rejects_february_30 : history_date "2022-02-30" = None.
Proof. reflexivity. Qed.

(** One-digit fields and blanks after the day are read as [strptime] reads
    them; a second zone, a missing field or a fifth digit of the year are
    not. *)
Example history_date_one_digit_month :
  history_date "2022-5-28" = history_date "2022-05-28".
Proof. reflexivity. Qed.

Example history_date_blank_before_day :
  history_date "2022-05- 8" = history_date "2022-05-08".
Proof. reflexivity. Qed.

Example history_date_trailing_blank :
  history_date "2022-05-28 " = history_date "2022-05-28".
Proof. reflexivity. Qed.

Example history_date_rejects_second_zone :
  history_date "2022-05-28 +0000" = None.
Proof. reflexivity. Qed.

Example history_date_rejects_month_13 : history_date "2022-13-01" = None.
Proof. reflexivity. Qed.

Example history_date_rejects_year_0 : history_date "0000-01-01" = None.
Proof. reflexivity. Qed.

Lemma digit_of_digit_char (d : Z) :
  0 <= d <= 9 -> digit_of (digit_char d) = Some d.
Proof.
  intros H.
  assert (d = 0 \/ d = 1 \/ d = 2 \/ d = 3 \/ d = 4 \/ d = 5 \/ d = 6
          \/ d = 7 \/ d = 8 \/ d = 9) as Hd by lia.
  repeat (destruct Hd as [-> | Hd]; [reflexivity|]). subst d. reflexivity.
Qed.

Lemma days_in_month_bound (y m : Z) : _days_in_month y m <= 31.
Proof.
  unfold _days_in_month.
  destruct ((m =? 2) && _is_leap y); [lia|].
  generalize (Z.to_nat m) as n. intros n. unfold _DAYS_IN_MONTH.
  do 13 (destruct n as [|n]; [simpl; lia|]). destruct n; simpl; lia.
Qed.

Lemma digit_in_digit_char {R} (lo hi d : Z)
    (k : Z -> list ascii -> option R) (cs : list ascii) :
  0 <= d <= 9 -> lo <= d <= hi ->
  digit_in lo hi k (digit_char d :: cs) = k d cs.
Proof.
  intros Hd Hr. unfold digit_in. rewrite digit_of_digit_char by exact Hd.
  replace ((lo <=? d) && (d <=? hi)) with true; [reflexivity|].
  symmetry. apply andb_true_intro. split; apply Z.leb_le; lia.
Qed.

Lemma re_Y_isoformat {R} (y : Z) (k : Z -> list ascii -> option R)
    (cs : list ascii) :
  0 <= y <= 9999 ->
  re_Y k (digit_char (y / 1000 mod 10) :: digit_char (y / 100 mod 10)
          :: digit_char (y / 10 mod 10) :: digit_char (y mod 10) :: cs)
  = k y cs.
Proof.
  intros H. unfold re_Y.
  rewrite !digit_in_digit_char by (Z.div_mod_to_equations; lia).
  f_equal. Z.div_mod_to_equations. lia.
Qed.

Lemma re_m_isoformat {R} (m : Z) (k : Z -> list ascii -> option R)
    (cs : list ascii) (r : R) :
  1 <= m <= 12 -> k m cs = Some r ->
  re_m k (digit_char (m / 10 mod 10) :: digit_char (m mod 10) :: cs) = Some r.
Proof.
  intros H Hk.
  assert (m = 1 \/ m = 2 \/ m = 3 \/ m = 4 \/ m = 5 \/ m = 6 \/ m = 7
          \/ m = 8 \/ m = 9 \/ m = 10 \/ m = 11 \/ m = 12) as Hm by lia.
  repeat (destruct Hm as [-> | Hm]; [vm_compute; rewrite Hk; reflexivity|]).
  subst m. vm_compute. rewrite Hk. reflexivity.
Qed.

Lemma re_d_isoformat {R} (d : Z) (k : Z -> list ascii -> option R)
    (cs : list ascii) (r : R) :
  1 <= d <= 31 -> k d cs = Some r ->
  re_d k (digit_char (d / 10 mod 10) :: digit_char (d mod 10) :: cs) = Some r.
Proof.
  intros H Hk.
  assert (exists n, d = Z.of_nat n /\ (n <= 31)%nat) as (n & -> & Hn).
  { exists (Z.to_nat d). lia. }
  do 32 (destruct n as [|n];
         [first [lia | vm_compute in Hk; vm_compute; rewrite Hk; reflexivity]|]).
  lia.
Qed.

Lemma strptime_isoformat (y m d : Z) :
  valid_ymd y m d = true -> strptime_ymd (isoformat y m d) = Some (y, m, d).
Proof.
  intros Hv. unfold strptime_ymd.
  pose proof (days_in_month_bound y m) as Hdim.
  pose proof Hv as Hv'. unfold valid_ymd in Hv'.
  repeat (apply andb_prop in Hv' as [Hv' ?]).
  assert (match_ymd_z (isoformat y m d) = Some (y, m, d)) as ->.
  { unfold match_ymd_z, isoformat. cbn [string_of_list_ascii].
    cbv [String.append list_ascii_of_string].
    rewrite re_Y_isoformat by lia. unfold lit at 1.
    rewrite bool_decide_eq_true_2 by reflexivity.
    apply re_m_isoformat; [lia|]. unfold lit at 1.
    rewrite bool_decide_eq_true_2 by reflexivity.
    apply re_d_isoformat; [lia|]. reflexivity. }
  rewrite Hv. reflexivity.
Qed.

(** The stored timestamp of a day is its midnight plus 39900 seconds, which
    is 11:05:00 of that day. *)
Lemma history_date_isoformat (y m d : Z) :
  valid_ymd y m d = true ->
  history_date (isoformat y m d) = Some (midnight_utc y m d + 39900).
Proof.
  intros Hv. unfold history_date. now rewrite strptime_isoformat.
Qed.

Lemma time_of_day_1105 (y m d : Z) :
  let t := midnight_utc y m d + 39900 in
  t / 86400 = _ymd2ord y m d - EPOCH_ORDINAL
  /\ t mod 86400 = 11 * 3600 + 5 * 60 + 0.
Proof.
  unfold midnight_utc. cbv zeta. Z.div_mod_to_equations. lia.
Qed.

Lemma days_before_next_year (y : Z) :
  _days_before_year (y + 1)
  = _days_before_year y + 365 + (if _is_leap y then 1 else 0).
Proof.
  unfold _days_before_year, _is_leap. cbv zeta.
  replace (y + 1 - 1) with y by lia.
  destruct (y mod 4 =? 0) eqn:H4; destruct (y mod 100 =? 0) eqn:H100;
    destruct (y mod 400 =? 0) eqn:H400; cbn [andb orb negb];
    rewrite ?Z.eqb_eq, ?Z.eqb_neq in *;
    Z.div_mod_to_equations; lia.
Qed.

(** [midnight_utc] counts days: it is 0 on 1970-01-01 and grows by one day
    from each day to the next. *)
Lemma midnight_utc_next_day (y m d : Z) :
  valid_ymd y m d = true ->
  let '(y', m', d') := next_day y m d in
  midnight_utc y' m' d' = midnight_utc y m d + 86400.
Proof.
  intros Hv. unfold valid_ymd in Hv.
  repeat (apply andb_prop in Hv as [Hv ?]).
  unfold next_day, midnight_utc, _ymd2ord.
  destruct (d <? _days_in_month y m) eqn:Hd; [lia|].
  apply Z.ltb_ge in Hd.
  assert (d = _days_in_month y m) as -> by lia.
  destruct (m <? 12) eqn:Hm.
  - assert (m = 1 \/ m = 2 \/ m = 3 \/ m = 4 \/ m = 5 \/ m = 6 \/ m = 7
            \/ m = 8 \/ m = 9 \/ m = 10 \/ m = 11) as Hcases by lia.
    unfold _days_before_month, _days_in_month.
    generalize (_days_before_year y) as k. intros k.
    repeat (destruct Hcases as [-> | Hcases];
            [destruct (_is_leap y); simpl; lia|]).
    subst m. destruct (_is_leap y); simpl; lia.
  - assert (m = 12) as -> by lia.
    rewrite days_before_next_year.
    unfold _days_before_month, _days_in_month.
    generalize (_days_before_year y) as k. intros k.
    destruct (_is_leap y); simpl; lia.
Qed.

Example midnight_utc_epoch : midnight_utc 1970 1 1 = 0.
Proof. reflexivity. Qed.

Lemma history_frame_dated (rid type_id : Z) (resp : list raw_history)
    (days : list (Z * Z * Z)) :
  dated resp days ->
  exists df, history_frame rid type_id resp = Some df /\ stamped_1105 df days.
Proof.
  induction 1 as [|r [[y m] d] resp days [Hv Hr] _ (df & Hdf & Hst)].
  - exists []. split; [reflexivity | constructor].
  - cbn [history_frame]. unfold to_history.
    rewrite Hr, history_date_isoformat, Hdf by exact Hv.
    eexists. split; [reflexivity|]. constructor; [|exact Hst].
    cbn [h_date]. split; [reflexivity|]. apply time_of_day_1105.
Qed.

(** C7.  Every history record fetched remotely by [_get_type_history_async]
    has its date text YYYY-MM-DD converted to the epoch timestamp of that
    day's midnight UTC plus exactly 39900 seconds, which is 11:05:00 UTC of
    that day, before the frame is written to the store and returned. *)
Theorem fetched_history_dates (E : Env) (rid type_id : Z)
    (reduces : option reducer) (w : World) (resp : list raw_history)
    (days : list (Z * Z * Z)) :
  fst (history_verdict rid type_id w) = true ->
  check_type_id E type_id = true ->
  esi_history E rid type_id = Some resp ->
  resp <> [] ->
  dated resp days ->
  let o := _get_type_history_async E rid type_id reduces w in
  exists df,
    stamped_1105 df days
    /\ market_history (fin o) = upsert_history df (market_history w)
    /\ res o = Ok (Some (apply_reduces reduces rid type_id df))
    /\ In (ev_write tbl_market_history (length df)) (log o).
Proof.
  intros Hstale Hcheck Hresp Hne Hdated o.
  destruct (history_frame_dated rid type_id resp days Hdated) as (df & Hdf & Hst).
  exists df. split; [exact Hst|].
  subst o. unfold history_verdict in Hstale.
  unfold _get_type_history_async, _update_or_not, to_sql_history.
  run_py. rewrite Hstale. run_py. rewrite Hcheck. run_py.
  rewrite Hresp. run_py.
  destruct resp as [|r resp]; [contradiction|].
  cbn [length Nat.eqb]. rewrite Hdf. run_py. cbn [market_history].
  repeat split. simpl. auto 10.
Qed.

(** Two days of history of the type 34 fetched into an empty store. *)
Lemma fetched_history_dates_witness :
  let o := _get_type_history_async Scenario.env_history 10000002 34 None
             Scenario.w_empty in
  exists df,
    stamped_1105 df [(2022, 5, 27); (2022, 5, 28)]
    /\ market_history (fin o) = upsert_history df []
    /\ res o = Ok (Some df)
    /\ In (ev_write tbl_market_history (length df)) (log o).
Proof.
  refine (fetched_history_dates Scenario.env_history 10000002 34 None
            Scenario.w_empty _ [(2022, 5, 27); (2022, 5, 28)] _ _ _ _ _).
  - reflexivity.
  - reflexivity.
  - reflexivity.
  - discriminate.
  - repeat constructor.
Defined.

(** ** Exceptions a computation cannot raise *)

Lemma avoids_ret {A} (e : exn) (a : A) : avoids e (ret a).
Proof. intros w. discriminate. Qed.

Lemma avoids_raise {A} (e e' : exn) : e <> e' -> avoids e (@raise A e').
Proof. intros H w. cbn. congruence. Qed.

Lemma avoids_emit (e : exn) (ev : event) : avoids e (emit ev).
Proof. intros w. discriminate. Qed.

Lemma avoids_get_world (e : exn) : avoids e get_world.
Proof. intros w. discriminate. Qed.

Lemma avoids_put_world (e : exn) (w' : World) : avoids e (put_world w').
Proof. intros w. discriminate. Qed.

Lemma avoids_bind {A B} (e : exn) (m : M A) (k : A -> M B) :
  avoids e m -> (forall a, avoids e (k a)) -> avoids e (bind m k).
Proof.
  intros Hm Hk w. unfold bind. specialize (Hm w).
  destruct (m w) as [[a|e'] w1 l1]; cbn [res] in *.
  - specialize (Hk a w1). destruct (k a w1). exact Hk.
  - intros [= ->]. now apply Hm.
Qed.

Lemma avoids_ESIClient_get {A} (e : exn) (fetch : Z -> option (list A))
    (ep : endpoint) (pages : list Z) :
  e <> TransportError -> avoids e (ESIClient_get fetch ep pages).
Proof.
  intros He. induction pages as [|p pages IH]; simpl; [apply avoids_ret|].
  apply avoids_bind; [apply avoids_emit | intros _].
  apply avoids_bind.
  { destruct (fetch p); [apply avoids_ret | now apply avoids_raise]. }
  intros rows. apply avoids_bind; [exact IH | intros rest]. apply avoids_ret.
Qed.

Ltac avoid_step :=
  match goal with
  | |- avoids _ (bind _ _) => apply avoids_bind
  | |- avoids _ (ret _) => apply avoids_ret
  | |- avoids _ (raise _) => apply avoids_raise; discriminate
  | |- avoids _ (emit _) => apply avoids_emit
  | |- avoids _ get_world => apply avoids_get_world
  | |- avoids _ (put_world _) => apply avoids_put_world
  | |- avoids _ (ESIClient_get _ _ _) => apply avoids_ESIClient_get; discriminate
  | |- avoids _ (match ?x with _ => _ end) => destruct x
  | |- forall _, _ => intro
  end.

Ltac avoid :=
  repeat first
    [ avoid_step
    | progress unfold api_cache_get, api_cache_set, _update_or_not,
        _select_from_orders, to_sql_orders, to_sql_history, of_response,
        call_search_id, call_search_structure_id,
        call_search_station_region_id, ESIClient_head, pages_to_fetch,
        x_pages_of, orders_frame ].

(** ** Validation *)

(** C10.  [get_structure_market] called with the integer structure id 0 and
    no cname raises the ValueError that asks for "cname", before anything
    else happens: the id is tested for truthiness.  For every non-zero
    integer id no cname is required: the call goes on to the resolver and
    the HEAD request, and never raises that ValueError. *)
Theorem structure_id_zero_requires_cname (E : Env) (kwd : kwds) (w : World) :
  (forall cname, truthy_str cname = false ->
     get_structure_market E (PyInt 0) cname kwd w
     = mk_outcome (Raise ValueError) w [])
  /\ (forall n cname, n <> 0 ->
        let o := get_structure_market E (PyInt n) cname kwd w in
        res o <> Raise ValueError
        /\ res o <> Raise TypeError
        /\ exists rest,
             log o = ev_search "search_structure_id" (PyInt n)
                     :: ev_head (ep_structure_orders
                                   (search_structure_id E (PyInt n) cname))
                     :: rest).
Proof.
  split.
  - intros cname Hc. unfold get_structure_market. run_py.
    cbn [Z.eqb negb andb]. rewrite Hc. reflexivity.
  - intros n cname Hn o. subst o.
    apply Z.eqb_neq in Hn.
    assert (forall e, e = ValueError \/ e = TypeError ->
              res (get_structure_market E (PyInt n) cname kwd w) <> Raise e)
      as Hav.
    { intros e He. unfold get_structure_market.
      rewrite bind_ret_l, Hn. cbn [negb andb].
      match goal with |- res (?m w) <> _ => revert w; change (avoids e m) end.
      destruct He as [-> | ->]; avoid. }
    split; [apply Hav; now left|]. split; [apply Hav; now right|].
    unfold get_structure_market, call_search_structure_id, ESIClient_head.
    run_py. rewrite Hn. run_py.
    destruct (esi_head E _); run_py; eexists; reflexivity.
Qed.

Lemma structure_id_zero_requires_cname_witness :
  res (get_structure_market Scenario.env (PyInt 1035466617946) None ∅
         Scenario.w_empty) <> Raise ValueError.
Proof.
  refine (proj1 (proj2 (structure_id_zero_requires_cname Scenario.env ∅
                          Scenario.w_empty) 1035466617946 None _)).
  discriminate.
Defined.

(** C5, as stated, fails: [get_region_market] called with a region name and
    an unrecognized order_type resolves the name first and only then
    raises ValueError. *)
Lemma region_name_resolved_before_order_type_check :
  let o := get_region_market Scenario.env (PyStr "The Forge") "foo" None ∅
             Scenario.w_empty in
  res o = Raise ValueError
  /\ log o = [ev_search "search_id" (PyStr "The Forge")]
  /\ existsb reaches_outside (log o) = true.
Proof. repeat split. Qed.

(** C5, amended.  A call with malformed input raises its validation error
    before any request to a market endpoint, any cache access and any
    store access, and leaves the world unchanged.  A wrong identifier type
    raises TypeError before anything at all, and so does the ValueError for
    a structure name without cname, or for an unrecognized order_type with
    an integer identifier.  With a name as identifier the unrecognized
    order_type is detected after the name has been resolved: that resolver
    call is the only effect before the ValueError. *)
Theorem validation_precedes_market_access (E : Env) (kwd : kwds) (w : World)
    (order_type : string) (type_id : option Z) (cname : option string) :
  get_structure_market E PyOther cname kwd w = mk_outcome (Raise TypeError) w []
  /\ get_region_market E PyOther order_type type_id kwd w
     = mk_outcome (Raise TypeError) w []
  /\ get_station_market E PyOther order_type type_id kwd w
     = mk_outcome (Raise TypeError) w []
  /\ (truthy_str cname = false ->
      forall s, get_structure_market E (PyStr s) cname kwd w
                = mk_outcome (Raise ValueError) w [])
  /\ (valid_order_type order_type = false ->
      forall n,
        get_region_market E (PyInt n) order_type type_id kwd w
        = mk_outcome (Raise ValueError) w []
        /\ get_station_market E (PyInt n) order_type type_id kwd w
           = mk_outcome (Raise ValueError) w [])
  /\ (valid_order_type order_type = false ->
      forall s,
        get_region_market E (PyStr s) order_type type_id kwd w
        = mk_outcome (Raise ValueError) w [ev_search "search_id" (PyStr s)]
        /\ get_station_market E (PyStr s) order_type type_id kwd w
           = mk_outcome (Raise ValueError) w [ev_search "search_id" (PyStr s)]).
Proof.
  split; [reflexivity|]. split; [reflexivity|]. split; [reflexivity|].
  split.
  { intros Hc s. unfold get_structure_market. run_py. rewrite Hc. reflexivity. }
  split.
  - intros Hv n. unfold get_region_market, get_station_market. run_py.
    rewrite Hv. split; reflexivity.
  - intros Hv s.
    unfold get_region_market, get_station_market, call_search_id. run_py.
    rewrite Hv. split; reflexivity.
Qed.

Lemma validation_precedes_market_access_witness :
  get_region_market Scenario.env (PyInt 10000002) "foo" None ∅ Scenario.w_empty
  = mk_outcome (Raise ValueError) Scenario.w_empty []
  /\ get_region_market Scenario.env (PyStr "The Forge") "foo" None ∅
       Scenario.w_empty
     = mk_outcome (Raise ValueError) Scenario.w_empty
         [ev_search "search_id" (PyStr "The Forge")].
Proof.
  pose proof (validation_precedes_market_access Scenario.env ∅
                Scenario.w_empty "foo" None None) as H.
  destruct H as (_ & _ & _ & _ & Hint & Hname).
  split.
  - exact (proj1 (Hint eq_refl 10000002)).
  - exact (proj1 (Hname eq_refl "The Forge")).
Defined.

(** ** The order of the HEAD request and the cache read *)

Lemma structure_market_head_then_cache (E : Env) (kwd : kwds) (w : World)
    (x : pyarg) (cname : option string) :
  let o := get_structure_market E x cname kwd w in
  res o <> Raise TypeError -> res o <> Raise ValueError ->
  exists events,
    log o = ev_search "search_structure_id" x :: events
    /\ head_then_cache E
         (ep_structure_orders (search_structure_id E x cname))
         (structure_key E x cname kwd) w o events.
Proof.
  intros o HT HV. subst o.
  unfold head_then_cache, structure_key.
  unfold get_structure_market, call_search_structure_id, ESIClient_head,
    api_cache_get in *.
  destruct x as [s|n|]; [| |now contradiction HT].
  - revert HT HV. run_py.
    destruct (truthy_str cname); run_py; [|now intros _ []].
    intros _ _.
    destruct (esi_head E _); run_py;
      [| eexists; split; [reflexivity|]; auto ].
    destruct (cache_lookup _ w) as [v|]; run_py;
      eexists; (split; [reflexivity|]); eexists; (split; [reflexivity|]).
    all: first [discriminate | intros v' [= <-]; auto].
  - revert HT HV. run_py.
    destruct (negb (n =? 0)); run_py;
      [| destruct (truthy_str cname); run_py; [|now intros _ []] ].
    all: intros _ _.
    all: destruct (esi_head E _); run_py;
      [| eexists; split; [reflexivity|]; auto ].
    all: destruct (cache_lookup _ w) as [v|]; run_py;
      eexists; (split; [reflexivity|]); eexists; (split; [reflexivity|]).
    all: first [discriminate | intros v' [= <-]; auto].
Qed.

Lemma region_market_head_then_cache (E : Env) (kwd : kwds) (w : World)
    (x : pyarg) (order_type : string) (type_id : option Z) :
  let o := get_region_market E x order_type type_id kwd w in
  res o <> Raise TypeError -> res o <> Raise ValueError ->
  exists events,
    log o = region_lookups x ++ events
    /\ head_then_cache E
         (ep_region_orders (region_of E x) order_type type_id)
         (region_key E x order_type type_id kwd) w o events.
Proof.
  intros o HT HV. subst o.
  unfold head_then_cache, region_key.
  unfold get_region_market, call_search_id, ESIClient_head,
    api_cache_get in *.
  destruct x as [s|n|]; [| |now contradiction HT].
  all: revert HT HV; run_py.
  all: destruct (valid_order_type order_type); run_py; [|now intros _ []].
  all: intros _ _; cbn [region_of region_lookups app].
  all: destruct (esi_head E _); run_py;
    [| eexists; split; [reflexivity|]; auto ].
  all: destruct (cache_lookup _ w) as [v|]; run_py;
    eexists; (split; [reflexivity|]); eexists; (split; [reflexivity|]).
  all: first [discriminate | intros v' [= <-]; auto].
Qed.

(** C9.  Every call to [get_structure_market] or [get_region_market] that
    passes validation issues the remote HEAD request before the response
    cache is consulted: only resolver calls precede the HEAD in the log,
    the cache read comes right after it and only if it completed, so a call
    served from the cache has still performed that one remote request. *)
Theorem head_precedes_cache (E : Env) (kwd : kwds) (w : World) :
  (forall x cname,
     let o := get_structure_market E x cname kwd w in
     res o <> Raise TypeError -> res o <> Raise ValueError ->
     exists events,
       log o = ev_search "search_structure_id" x :: events
       /\ head_then_cache E
            (ep_structure_orders (search_structure_id E x cname))
            (structure_key E x cname kwd) w o events)
  /\ (forall x order_type type_id,
        let o := get_region_market E x order_type type_id kwd w in
        res o <> Raise TypeError -> res o <> Raise ValueError ->
        exists events,
          log o = region_lookups x ++ events
          /\ head_then_cache E
               (ep_region_orders (region_of E x) order_type type_id)
               (region_key E x order_type type_id kwd) w o events).
Proof.
  split.
  - intros x cname. apply structure_market_head_then_cache.
  - intros x order_type type_id. apply region_market_head_then_cache.
Qed.

(** A region call on a warm cache: HEAD, then the cache read, and the
    cached frame comes back. *)
Lemma head_precedes_cache_witness :
  let key := make_cache_key "get_region_market"
               [VInt 10000002; VStr "all"; VNone] ∅ in
  let w := mk_world 1653736200 [] []
             [mk_entry key (DFOrders []) 1653736500] in
  let o := get_region_market Scenario.env (PyInt 10000002) "all" None ∅ w in
  res o = Ok (DFOrders [])
  /\ exists events, log o = [] ++ events
       /\ head_then_cache Scenario.env
            (ep_region_orders 10000002 "all" None) key w o events.
Proof.
  intros key w o. split; [reflexivity|].
  refine (proj2 (head_precedes_cache Scenario.env ∅ w)
            (PyInt 10000002) "all" None _ _); discriminate.
Defined.

(** ** The cache key and the authenticating parameter *)

(** C8, as stated, fails on both counts.  The HEAD request comes before
    the cache read: with the remote side down, a call whose key is in the
    cache raises the transport error and never reads the cache.  And the
    cname decides whether a key is computed at all: with the structure id
    0 the call without cname raises ValueError before anything else,
    while the same call with a cname is served from the cache. *)
Lemma cached_key_not_served :
  let key := make_cache_key "get_structure_market" [VInt 1035466617946] ∅ in
  let w := mk_world 1653736200 [] []
             [mk_entry key (DFOrders []) 1653736500] in
  let o := get_structure_market env_down (PyInt 1035466617946)
             (Some "Some Pilot") ∅ w in
  let key0 := make_cache_key "get_structure_market" [VInt 0] ∅ in
  let w0 := mk_world 1653736200 [] []
              [mk_entry key0 (DFOrders []) 1653736500] in
  let o1 := get_structure_market Scenario.env (PyInt 0) None ∅ w0 in
  let o2 := get_structure_market Scenario.env (PyInt 0) (Some "Some Pilot")
              ∅ w0 in
  (cache_lookup key w = Some (DFOrders [])
   /\ res o = Raise TransportError
   /\ existsb is_cache (log o) = false)
  /\ (cache_lookup key0 w0 = Some (DFOrders [])
      /\ res o1 = Raise ValueError /\ log o1 = []
      /\ res o2 = Ok (DFOrders []) /\ In (ev_cache_get key0) (log o2)).
Proof.
  cbv zeta. split.
  - split; [reflexivity|]. split; reflexivity.
  - split; [reflexivity|]. split; [reflexivity|]. split; [reflexivity|].
    split; [reflexivity|]. vm_compute. auto.
Qed.

(** C8.  Two calls to [get_structure_market] that pass validation and
    resolve to the same structure id, with the same keyword arguments but
    different (or absent) cname, whose HEAD request completes, read the
    response cache under the same key; and a call that finds this key in
    the cache returns the cached value without consulting the freshness
    oracle or the store. *)
Theorem cache_key_ignores_cname (E : Env) (x : pyarg) (c1 c2 : option string)
    (kwd : kwds) (w1 w2 : World) :
  let sid := search_structure_id E x c1 in
  let key := make_cache_key "get_structure_market" [VInt sid] kwd in
  let o1 := get_structure_market E x c1 kwd w1 in
  let o2 := get_structure_market E x c2 kwd w2 in
  search_structure_id E x c2 = sid ->
  res o1 <> Raise TypeError -> res o1 <> Raise ValueError ->
  res o2 <> Raise TypeError -> res o2 <> Raise ValueError ->
  esi_head E (ep_structure_orders sid) <> None ->
  exists rest1 rest2,
    log o1 = ev_search "search_structure_id" x
             :: ev_head (ep_structure_orders sid) :: ev_cache_get key :: rest1
    /\ log o2 = ev_search "search_structure_id" x
                :: ev_head (ep_structure_orders sid) :: ev_cache_get key :: rest2
    /\ (forall v, cache_lookup key w1 = Some v ->
          res o1 = Ok v /\ fin o1 = w1
          /\ existsb consults_store (log o1) = false)
    /\ (forall v, cache_lookup key w2 = Some v ->
          res o2 = Ok v /\ fin o2 = w2
          /\ existsb consults_store (log o2) = false).
Proof.
  intros sid key o1 o2 Hsid HT1 HV1 HT2 HV2 Hhead.
  destruct (structure_market_head_then_cache E kwd w1 x c1 HT1 HV1)
    as (ev1 & Hl1 & H1).
  destruct (structure_market_head_then_cache E kwd w2 x c2 HT2 HV2)
    as (ev2 & Hl2 & H2).
  unfold head_then_cache, structure_key in H1, H2.
  rewrite Hsid in H2. fold sid in H1, H2. fold key in H1, H2.
  destruct (esi_head E (ep_structure_orders sid)); [|contradiction].
  destruct H1 as (rest1 & -> & H1). destruct H2 as (rest2 & -> & H2).
  fold o1 in Hl1, H1. fold o2 in Hl2, H2.
  exists rest1, rest2. split; [exact Hl1|]. split; [exact Hl2|].
  split; intros v Hv.
  - destruct (H1 v Hv) as (-> & Hr & Hf). rewrite Hl1. auto.
  - destruct (H2 v Hv) as (-> & Hr & Hf). rewrite Hl2. auto.
Qed.

(** The same structure id asked once without cname on a cold cache and
    once with a cname on a warm one. *)
Lemma cache_key_ignores_cname_witness :
  let key := make_cache_key "get_structure_market" [VInt 1035466617946] ∅ in
  let w2 := mk_world 1653736200 [] []
              [mk_entry key (DFOrders []) 1653736500] in
  let o1 := get_structure_market Scenario.env (PyInt 1035466617946) None ∅
              Scenario.w_empty in
  let o2 := get_structure_market Scenario.env (PyInt 1035466617946)
              (Some "Some Pilot") ∅ w2 in
  In (ev_cache_get key) (log o1) /\ In (ev_cache_get key) (log o2)
  /\ res o2 = Ok (DFOrders [])
  /\ existsb consults_store (log o2) = false.
Proof.
  intros key w2 o1 o2.
  destruct (cache_key_ignores_cname Scenario.env (PyInt 1035466617946) None
              (Some "Some Pilot") ∅ Scenario.w_empty w2)
    as (rest1 & rest2 & Hl1 & Hl2 & _ & H2);
    try discriminate; try reflexivity.
  fold o1 in Hl1. fold o2 in Hl2, H2.
  change (search_structure_id Scenario.env (PyInt 1035466617946) None)
    with 1035466617946 in Hl1, Hl2, H2.
  fold key in Hl1, Hl2, H2.
  split; [rewrite Hl1; simpl; auto|]. split; [rewrite Hl2; simpl; auto|].
  destruct (H2 (DFOrders []) eq_refl) as (Hr & _ & Hs). auto.
Defined.

(** ** Which paths write the response cache *)


Lemma cache_store_find (k : cache_key) (v : pyobj) (x : expires_arg) (w : World) :
  cache_find k (api_cache (cache_store k v x w))
  = Some (mk_entry k v (expires_at (now w) x)).
Proof.
  cbn. destruct (decide (k = k)); [reflexivity | contradiction].
Qed.



Lemma bind_case {A B} (m : M A) (k : A -> M B) (w : World) :
  bind m k w
  = match m w with
    | mk_outcome (Ok a) w1 l1 => after l1 (k a w1)
    | mk_outcome (Raise e) w1 l1 => mk_outcome (Raise e) w1 l1
    end.
Proof.
  unfold bind, after. destruct (m w) as [[a|e] w1 l1]; [|reflexivity].
  now destruct (k a w1).
Qed.






(** ** The station query and the oracle *)

(** C2, on the code: the claim does not hold.  What [get_station_market]
    does with the verdict of the oracle, for an integer station id and a
    valid order_type: when the oracle reports the store stale it reads the
    store and returns, and nothing is fetched; when the oracle reports the
    store fresh it calls [get_region_market], whose HEAD request follows
    the oracle.  The flag is used the wrong way round. *)
Theorem station_market_fetch_is_inverted (E : Env) (n : Z) (order_type : string)
    (type_id : option Z) (kwd : kwds) (w : World) :
  valid_order_type order_type = true ->
  let region_id := search_station_region_id E n in
  let f := mk_filter (Some region_id) (Some n) None in
  let verdict :=
    orders_verdict f (default 1200 (kwd !! "update_threshold")) w in
  let o := get_station_market E (PyInt n) order_type type_id kwd w in
  (fst verdict = true ->
   o = mk_outcome
         (Ok (DFOrders (select_orders order_type type_id (Some region_id)
                          (Some n) (snd verdict) (orders w))))
         w
         [ ev_search "search_station_region_id" (PyInt n);
           ev_oracle tbl_orders f;
           ev_select tbl_orders (mk_filter (Some region_id) (Some n) type_id) ])
  /\ (fst verdict = false ->
      exists rest,
        log o = ev_search "search_station_region_id" (PyInt n)
                :: ev_oracle tbl_orders f
                :: ev_head (ep_region_orders region_id order_type type_id)
                :: rest).
Proof.
  intros Hv region_id f verdict o. subst o verdict f region_id.
  unfold orders_verdict, get_station_market, call_search_station_region_id,
    _update_or_not, _select_from_orders.
  run_py. rewrite Hv. run_py.
  destruct (decide_fresh _ _ _ _) as [[|] last]; run_py.
  - split; [reflexivity | discriminate].
  - split; [discriminate|]. intros _.
    unfold get_region_market at 1, ESIClient_head. run_py.
    rewrite Hv. run_py. eexists. reflexivity.
Qed.

(** The failing input: on an empty store the oracle reports the data of
    the station stale, and [get_station_market] returns the (empty) store
    read without fetching anything: its log holds the resolver, the oracle
    and the store read, no request to the remote source and no write. *)
Lemma station_market_fetch_is_inverted_witness :
  let region_id := Scenario.the_forge in
  let station_id := Scenario.jita_4_4 in
  let f := mk_filter (Some region_id) (Some station_id) None in
  fst (orders_verdict f 1200 Scenario.w_empty) = true
  /\ get_station_market Scenario.env (PyInt station_id) "all" None ∅
       Scenario.w_empty
     = mk_outcome (Ok (DFOrders [])) Scenario.w_empty
         [ ev_search "search_station_region_id" (PyInt station_id);
           ev_oracle tbl_orders f;
           ev_select tbl_orders f ].
Proof.
  intros region_id station_id f. split; [reflexivity|].
  exact (proj1 (station_market_fetch_is_inverted Scenario.env station_id
                  "all" None ∅ Scenario.w_empty eq_refl) eq_refl).
Defined.

(** On a fresh store the same call goes to the remote source all the
    same: [get_region_market] is entered and issues its HEAD request. *)
Example station_market_fresh_store_goes_remote :
  let o := get_station_market Scenario.env (PyInt Scenario.jita_4_4) "all"
             None ∅ Scenario.w_fresh in
  fst (orders_verdict
         (mk_filter (Some Scenario.the_forge) (Some Scenario.jita_4_4) None)
         1200 Scenario.w_fresh) = false
  /\ In (ev_head (ep_region_orders Scenario.the_forge "all" None)) (log o).
Proof. split; [vm_compute; reflexivity | vm_compute; auto]. Qed.

(** ** Bulk history without data *)

Lemma type_history_absent (E : Env) (rid type_id : Z)
    (reduces : option reducer) (w : World) :
  fst (history_verdict rid type_id w) = true ->
  check_type_id E type_id = false \/ esi_history E rid type_id = Some [] ->
  exists l,
    _get_type_history_async E rid type_id reduces w = mk_outcome (Ok None) w l.
Proof.
  intros Hstale Hno. unfold history_verdict in Hstale.
  unfold _get_type_history_async, _update_or_not.
  run_py. rewrite Hstale. run_py.
  destruct (check_type_id E type_id); run_py; [|eexists; reflexivity].
  destruct Hno as [[=] | ->]. run_py. eexists. reflexivity.
Qed.

Lemma gather_absent (E : Env) (rid : Z) (reduces : option reducer)
    (w : World) (type_ids : list Z) :
  (forall type_id, In type_id type_ids ->
     fst (history_verdict rid type_id w) = true
     /\ (check_type_id E type_id = false
         \/ esi_history E rid type_id = Some [])) ->
  exists l,
    gather (map (fun type_id => _get_type_history_async E rid type_id reduces)
              type_ids) w
    = mk_outcome (Ok (map (fun _ => None) type_ids)) w l.
Proof.
  induction type_ids as [|t type_ids IH]; intros H; cbn [map gather].
  - eexists. reflexivity.
  - destruct (H t (or_introl eq_refl)) as [Hs Hno].
    destruct (type_history_absent E rid t reduces w Hs Hno) as (l1 & H1).
    destruct IH as (l2 & H2); [intros; apply H; now right|].
    rewrite bind_case, H1. rewrite bind_case, H2. run_py.
    eexists. reflexivity.
Qed.

Lemma pd_concat_all_none (n : list Z) (w : World) :
  res (pd_concat (map (fun _ => None) n) w) = Raise ValueError.
Proof.
  unfold pd_concat.
  assert (omap id (map (fun _ : Z => @None (list history)) n) = []) as ->
    by (induction n; [reflexivity | exact IHn]).
  reflexivity.
Qed.

(** C4, on the code: the claim does not hold.  When the cache misses, the
    HEAD completes and every requested type is without data (the store has
    no recent row of it, and either the validity check rejects it or its
    history response is empty), every per-type result is [None],
    [pd.concat] receives only [None], and [get_market_history] ends with
    ValueError instead of an empty frame. *)
Theorem market_history_without_data_raises (E : Env) (rid : Z)
    (type_ids : list Z) (reduces : option reducer) (w : World) (h : headers) :
  type_ids <> [] ->
  cache_lookup (make_cache_key "get_market_history"
                  [VInt rid; VList type_ids; reducer_val reduces] ∅) w = None ->
  esi_head E (ep_history rid 12005) = Some h ->
  (forall type_id, In type_id type_ids ->
     fst (history_verdict rid type_id w) = true
     /\ (check_type_id E type_id = false
         \/ esi_history E rid type_id = Some [])) ->
  res (get_market_history E (PyInt rid) (Some type_ids) reduces w)
  = Raise ValueError.
Proof.
  intros Hne Hmiss Hh Hall.
  unfold get_market_history, api_cache_get, ESIClient_head.
  destruct type_ids as [|t type_ids]; [contradiction|].
  run_py. rewrite Hmiss. run_py. rewrite Hh. run_py.
  destruct (gather_absent E rid reduces w (t :: type_ids) Hall) as (l & Hg).
  rewrite bind_case, Hg. run_py.
  rewrite bind_case.
  pose proof (pd_concat_all_none (t :: type_ids) w) as Hc.
  destruct (pd_concat _ w) as [[df|e] w1 l1]; cbn [res] in Hc;
    [discriminate|].
  injection Hc as ->. reflexivity.
Qed.

(** The failing input: [get_market_history] asked for two types that the
    validity check rejects, on an empty store and cache. *)
Lemma market_history_without_data_raises_witness :
  res (get_market_history Scenario.env (PyInt Scenario.the_forge)
         (Some [34; 35]) None Scenario.w_empty)
  = Raise ValueError.
Proof.
  refine (market_history_without_data_raises Scenario.env Scenario.the_forge
            [34; 35] None Scenario.w_empty
            (mk_headers (Some 1653736500) (Some 1)) _ _ _ _).
  - discriminate.
  - reflexivity.
  - reflexivity.
  - intros type_id _. split; [reflexivity | left; reflexivity].
Defined.

(** The log of that call: the cache read, the HEAD, then the oracle and the
    validity check for each type; no history request, no write. *)
Example market_history_without_data_log :
  let o := get_market_history Scenario.env (PyInt Scenario.the_forge)
             (Some [34; 35]) None Scenario.w_empty in
  res o = Raise ValueError
  /\ log o
     = [ ev_cache_get (make_cache_key "get_market_history"
                         [VInt Scenario.the_forge; VList [34; 35]; VNone] ∅);
         ev_head (ep_history Scenario.the_forge 12005);
         ev_oracle tbl_market_history
           (mk_filter (Some Scenario.the_forge) None (Some 34));
         ev_check_type 34;
         ev_oracle tbl_market_history
           (mk_filter (Some Scenario.the_forge) None (Some 35));
         ev_check_type 35 ].
Proof. split; reflexivity. Qed.

(** * Further properties *)

(** Turns the remaining [after] into an explicit outcome. *)
Ltac show_outcome :=
  unfold after; cbn [res fin log app];
  rewrite ?app_nil_r, <- ?app_assoc; cbn [app].

(** ** The paginated fetch *)

Lemma ESIClient_get_run {A} (fetch : Z -> option (list A)) (ep : endpoint)
    (pages : list Z) (w : World) :
  ESIClient_get fetch ep pages w
  = mk_outcome
      (match fetch_all fetch pages with
       | Some rows => Ok rows
       | None => Raise TransportError
       end)
      w (map (ev_get ep) (attempted fetch pages)).
Proof.
  induction pages as [|p pages IH]; [reflexivity|].
  cbn [ESIClient_get fetch_all attempted map]. run_py.
  destruct (fetch p) as [rows|]; run_py; [|reflexivity].
  rewrite bind_case, IH.
  destruct (fetch_all fetch pages); run_py; show_outcome; reflexivity.
Qed.

Lemma attempted_all {A} (fetch : Z -> option (list A)) (pages : list Z)
    (rows : list A) :
  fetch_all fetch pages = Some rows -> attempted fetch pages = pages.
Proof.
  revert rows. induction pages as [|p pages IH]; intros rows; [reflexivity|].
  cbn [fetch_all attempted]. destruct (fetch p); [|discriminate].
  destruct (fetch_all fetch pages) eqn:Hall; [|discriminate].
  intros _. f_equal. now apply (IH l0).
Qed.

Lemma fetch_path_run (E : Env) (ep : endpoint) (page : Z) (h : headers)
    (region_id : Z) (system_id : option Z) (key : cache_key)
    (expires : expires_arg) (w : World) :
  (pages <- pages_to_fetch page h ;;
   all_orders <- ESIClient_get (esi_orders E ep) ep pages ;;
   w0 <- get_world ;;
   df <- orders_frame (now w0) region_id system_id all_orders ;;
   to_sql_orders df ;;;
   api_cache_set key (DFOrders df) expires ;;;
   ret (DFOrders df)) w
  = fetch_outcome E ep page h region_id system_id key expires w.
Proof.
  unfold fetch_outcome, requested_pages, pages_to_fetch, x_pages_of.
  assert (forall pages,
    (all_orders <- ESIClient_get (esi_orders E ep) ep pages ;;
     w0 <- get_world ;;
     df <- orders_frame (now w0) region_id system_id all_orders ;;
     to_sql_orders df ;;;
     api_cache_set key (DFOrders df) expires ;;;
     ret (DFOrders df)) w
    = let gets := map (ev_get ep) (attempted (esi_orders E ep) pages) in
      match fetch_all (esi_orders E ep) pages with
      | None => mk_outcome (Raise TransportError) w gets
      | Some [] => mk_outcome (Raise KeyError) w gets
      | Some rows =>
          let df := sort_values
                      (map (to_order (now w) region_id system_id) rows) in
          mk_outcome (Ok (DFOrders df))
            (cache_store key (DFOrders df) expires
               (mk_world (now w) (upsert_orders df (orders w))
                  (market_history w) (api_cache w)))
            (gets ++ [ev_write tbl_orders (length df); ev_cache_set key])
      end) as Hpages.
  { intros pages. cbv zeta. rewrite bind_case, ESIClient_get_run.
    destruct (fetch_all (esi_orders E ep) pages) as [[|r rows]|];
      unfold orders_frame, to_sql_orders, api_cache_set; run_py;
      show_outcome; reflexivity. }
  destruct (page =? -1); run_py; [|apply Hpages].
  destruct (hd_x_pages h); run_py; [apply Hpages | reflexivity].
Qed.

(** ** The order queries after a cache miss *)

Lemma region_market_miss_run (E : Env) (kwd : kwds) (w : World) (x : pyarg)
    (order_type : string) (type_id : option Z) (h : headers) :
  let rid := region_of E x in
  let ep := ep_region_orders rid order_type type_id in
  let key := region_key E x order_type type_id kwd in
  x <> PyOther ->
  valid_order_type order_type = true ->
  esi_head E ep = Some h ->
  cache_lookup key w = None ->
  get_region_market E x order_type type_id kwd w
  = after (region_lookups x)
      (miss_outcome E ep (mk_filter (Some rid) None None) order_type type_id
         rid None key kwd h w).
Proof.
  intros rid ep key Hx Hv Hh Hmiss. subst rid ep key.
  unfold miss_outcome, orders_verdict, region_key in *.
  unfold get_region_market, call_search_id, ESIClient_head, api_cache_get,
    _update_or_not, _select_from_orders.
  destruct x as [s|n|]; [| |contradiction]; cbn [region_of region_lookups] in *.
  all: run_py; rewrite Hv; run_py; rewrite Hh; run_py; rewrite Hmiss; run_py.
  all: destruct (expiry_policy (kwd !! "update_threshold") h)
         as [expires update_threshold]; run_py.
  all: destruct (decide_fresh _ _ _ _) as [[|] last]; run_py.
  all: rewrite ?fetch_path_run; show_outcome; reflexivity.
Qed.

Lemma structure_market_miss_run (E : Env) (kwd : kwds) (w : World)
    (x : pyarg) (cname : option string) (h : headers) :
  let sid := search_structure_id E x cname in
  let ep := ep_structure_orders sid in
  let key := structure_key E x cname kwd in
  res (get_structure_market E x cname kwd w) <> Raise TypeError ->
  res (get_structure_market E x cname kwd w) <> Raise ValueError ->
  esi_head E ep = Some h ->
  cache_lookup key w = None ->
  get_structure_market E x cname kwd w
  = after [ev_search "search_structure_id" x]
      (miss_outcome E ep (mk_filter None (Some sid) None) "all" None
         (default 0 (kwd !! "region_id"))
         (Some (default 0 (kwd !! "system_id"))) key kwd h w).
Proof.
  intros sid ep key. subst sid ep key.
  unfold miss_outcome, orders_verdict, structure_key in *.
  unfold get_structure_market, call_search_structure_id, ESIClient_head,
    api_cache_get, _update_or_not, _select_from_orders.
  destruct x as [s|n|]; [| |now intros []].
  all: run_py.
  2: destruct (negb (n =? 0)); run_py.
  all: try (destruct (truthy_str cname); run_py; [|now intros _ []]).
  all: intros _ _ Hh Hmiss.
  all: rewrite Hh; run_py; rewrite Hmiss; run_py.
  all: destruct (expiry_policy (kwd !! "update_threshold") h)
         as [expires update_threshold]; run_py.
  all: destruct (decide_fresh _ _ _ _) as [[|] last]; run_py.
  all: rewrite ?fetch_path_run; show_outcome; reflexivity.
Qed.

(** ** A failed query changes nothing *)

Lemma fetch_outcome_atomic (E : Env) (ep : endpoint) (page : Z) (h : headers)
    (region_id : Z) (system_id : option Z) (key : cache_key)
    (expires : expires_arg) (w : World) (e : exn) :
  res (fetch_outcome E ep page h region_id system_id key expires w) = Raise e ->
  fin (fetch_outcome E ep page h region_id system_id key expires w) = w.
Proof.
  unfold fetch_outcome. destruct (requested_pages page h); [|reflexivity].
  cbv zeta. destruct (fetch_all _ _) as [[|r rows]|]; cbn [res fin];
    [reflexivity | discriminate | reflexivity].
Qed.

Lemma region_market_atomic (E : Env) (x : pyarg) (order_type : string)
    (type_id : option Z) (kwd : kwds) :
  atomic (get_region_market E x order_type type_id kwd).
Proof.
  intros w e.
  unfold get_region_market, call_search_id, ESIClient_head, api_cache_get,
    _update_or_not, _select_from_orders.
  destruct x as [s|n|]; run_py; [| |reflexivity].
  all: destruct (valid_order_type order_type); run_py; [|reflexivity].
  all: destruct (esi_head E _); run_py; [|reflexivity].
  all: destruct (cache_lookup _ w); run_py; [discriminate|].
  all: destruct (expiry_policy _ _) as [expires update_threshold]; run_py.
  all: destruct (decide_fresh _ _ _ _) as [[|] last]; run_py;
    [|discriminate].
  all: rewrite fetch_path_run; apply fetch_outcome_atomic.
Qed.

Lemma structure_market_atomic (E : Env) (x : pyarg) (cname : option string)
    (kwd : kwds) :
  atomic (get_structure_market E x cname kwd).
Proof.
  intros w e.
  unfold get_structure_market, call_search_structure_id, ESIClient_head,
    api_cache_get, _update_or_not, _select_from_orders.
  destruct x as [s|n|]; run_py; [| |reflexivity].
  2: destruct (negb (n =? 0)); run_py.
  all: try (destruct (truthy_str cname); run_py; [|reflexivity]).
  all: destruct (esi_head E _); run_py; [|reflexivity].
  all: destruct (cache_lookup _ w); run_py; [discriminate|].
  all: destruct (expiry_policy _ _) as [expires update_threshold]; run_py.
  all: destruct (decide_fresh _ _ _ _) as [[|] last]; run_py;
    [|discriminate].
  all: rewrite fetch_path_run; apply fetch_outcome_atomic.
Qed.

Lemma station_market_atomic (E : Env) (x : pyarg) (order_type : string)
    (type_id : option Z) (kwd : kwds) :
  atomic (get_station_market E x order_type type_id kwd).
Proof.
  intros w e.
  unfold get_station_market, call_search_id, call_search_station_region_id,
    _update_or_not, _select_from_orders.
  destruct x as [s|n|]; run_py; [| |reflexivity].
  all: destruct (valid_order_type order_type); run_py; [|reflexivity].
  all: destruct (decide_fresh _ _ _ _) as [[|] last]; run_py;
    [discriminate|].
  all: rewrite bind_case.
  all: match goal with
       | |- context [get_region_market ?E ?x ?o ?t ?k ?w0] =>
           pose proof (region_market_atomic E x o t k w0) as Hin;
           destruct (get_region_market E x o t k w0) as [[v|e'] w1 l1]
       end; run_py; [discriminate|].
  all: intros _; exact (Hin e' eq_refl).
Qed.

(** X1.  An order query that raises, whatever the exception (validation,
    transport, missing X-Pages header, empty merge), leaves the store and
    the response cache exactly as they were: the writes come after the last
    statement that can raise. *)
Theorem failed_order_query_changes_nothing (E : Env) (w : World) (e : exn) :
  (forall x cname kwd,
     res (get_structure_market E x cname kwd w) = Raise e ->
     fin (get_structure_market E x cname kwd w) = w)
  /\ (forall x order_type type_id kwd,
        res (get_region_market E x order_type type_id kwd w) = Raise e ->
        fin (get_region_market E x order_type type_id kwd w) = w)
  /\ (forall x order_type type_id kwd,
        res (get_station_market E x order_type type_id kwd w) = Raise e ->
        fin (get_station_market E x order_type type_id kwd w) = w)
  /\ (forall order_type type_id,
        res (get_jita_market E order_type type_id w) = Raise e ->
        fin (get_jita_market E order_type type_id w) = w).
Proof.
  split; [intros x cname kwd; apply structure_market_atomic|].
  split; [intros x order_type type_id kwd; apply region_market_atomic|].
  split; [intros x order_type type_id kwd; apply station_market_atomic|].
  intros order_type type_id. apply station_market_atomic.
Qed.

(** The second of two pages fails: the first page was received, and
    nothing of it reached the store or the cache. *)
Lemma failed_order_query_changes_nothing_witness :
  let o := get_region_market Outage.env (PyInt 10000002) "all" None ∅
             Scenario.w_empty in
  res o = Raise TransportError
  /\ get_pages (log o) = [1; 2]
  /\ fin o = Scenario.w_empty.
Proof.
  intros o. split; [reflexivity|]. split; [reflexivity|].
  exact (proj1 (proj2 (failed_order_query_changes_nothing Outage.env
                         Scenario.w_empty TransportError))
           (PyInt 10000002) "all" None ∅ eq_refl).
Defined.

(** ** The frame of a fetch *)







Lemma orders_insert_update_keeps (tbl : list order) (r : order) (i : Z) :
  In i (order_ids tbl) -> In i (order_ids (orders_insert_update tbl r)).
Proof.
  intros H. rewrite orders_insert_update_ids.
  destruct (existsb (same_order r) tbl); [exact H|].
  apply in_or_app. now left.
Qed.

Lemma upsert_orders_keeps (rows tbl : list order) (i : Z) :
  In i (order_ids tbl) -> In i (order_ids (upsert_orders rows tbl)).
Proof.
  revert tbl. induction rows as [|r rows IH]; intros tbl H; [exact H|].
  cbn. apply IH. now apply orders_insert_update_keeps.
Qed.


Lemma get_pages_gets (ep : endpoint) (pages : list Z) :
  get_pages (map (ev_get ep) pages) = pages.
Proof.
  induction pages as [|p pages IH]; [reflexivity|].
  cbn. unfold get_pages in IH. now rewrite IH.
Qed.

Lemma get_pages_app (l l' : list event) :
  get_pages (l ++ l') = get_pages l ++ get_pages l'.
Proof. unfold get_pages. apply omap_app. Qed.







(** ** Fetches that bring nothing *)

Lemma page_range_spec (n p : Z) : In p (page_range n) <-> 1 <= p <= n.
Proof.
  unfold page_range. rewrite in_map_iff. split.
  - intros (i & <- & Hi). apply in_seq in Hi. lia.
  - intros H. exists (Z.to_nat p). split; [lia|]. apply in_seq. lia.
Qed.

Lemma miss_outcome_empty_fetch (E : Env) (ep : endpoint) (f : filter)
    (order_type : string) (type_id : option Z) (region_id : Z)
    (system_id : option Z) (key : cache_key) (kwd : kwds) (h : headers)
    (w : World) (pre : list event) :
  let policy := expiry_policy (kwd !! "update_threshold") h in
  let page := default (-1) (kwd !! "page") in
  let o := after pre (miss_outcome E ep f order_type type_id region_id
                        system_id key kwd h w) in
  fst (orders_verdict f (snd policy) w) = true ->
  get_pages pre = [] ->
  (requested_pages page h = None ->
   res o = Raise KeyError /\ fin o = w /\ get_pages (log o) = [])
  /\ (forall pages,
        requested_pages page h = Some pages ->
        fetch_all (esi_orders E ep) pages = Some [] ->
        res o = Raise KeyError /\ fin o = w /\ get_pages (log o) = pages).
Proof.
  intros policy page o Hstale Hpre. subst o policy page.
  unfold miss_outcome. rewrite Hstale. unfold fetch_outcome. split.
  - intros ->. cbn [res fin log after].
    rewrite !get_pages_app, Hpre. auto.
  - intros pages -> Hf. cbv zeta. rewrite Hf, (attempted_all _ _ _ Hf).
    cbn [res fin log after].
    rewrite !get_pages_app, Hpre, get_pages_gets. auto.
Qed.

(** X4.  Two ways an order query raises KeyError on the stale path, after
    a cache miss, leaving the world untouched.  Without the [page] option
    (or with page -1) and without an X-Pages header in the HEAD response,
    before any page is requested.  And when every requested page arrives
    but the pages hold no order at all (so also when X-Pages is 0 or
    negative, where no page is requested): the empty frame has no
    [type_id] column to sort by.  An empty market is an exception, not an
    empty result. *)
Theorem empty_fetch_raises_KeyError (E : Env) (kwd : kwds) (w : World)
    (h : headers) :
  let policy := expiry_policy (kwd !! "update_threshold") h in
  let page := default (-1) (kwd !! "page") in
  (forall x order_type type_id,
     let rid := region_of E x in
     let ep := ep_region_orders rid order_type type_id in
     let o := get_region_market E x order_type type_id kwd w in
     x <> PyOther ->
     valid_order_type order_type = true ->
     esi_head E ep = Some h ->
     cache_lookup (region_key E x order_type type_id kwd) w = None ->
     fst (orders_verdict (mk_filter (Some rid) None None) (snd policy) w)
     = true ->
     (requested_pages page h = None ->
      res o = Raise KeyError /\ fin o = w /\ get_pages (log o) = [])
     /\ (forall pages,
           requested_pages page h = Some pages ->
           fetch_all (esi_orders E ep) pages = Some [] ->
           res o = Raise KeyError /\ fin o = w /\ get_pages (log o) = pages))
  /\ (forall x cname,
        let sid := search_structure_id E x cname in
        let ep := ep_structure_orders sid in
        let o := get_structure_market E x cname kwd w in
        res o <> Raise TypeError ->
        res o <> Raise ValueError ->
        esi_head E ep = Some h ->
        cache_lookup (structure_key E x cname kwd) w = None ->
        fst (orders_verdict (mk_filter None (Some sid) None) (snd policy) w)
        = true ->
        (requested_pages page h = None ->
         res o = Raise KeyError /\ fin o = w /\ get_pages (log o) = [])
        /\ (forall pages,
              requested_pages page h = Some pages ->
              fetch_all (esi_orders E ep) pages = Some [] ->
              res o = Raise KeyError /\ fin o = w
              /\ get_pages (log o) = pages))
  /\ (forall n, n <= 0 -> page_range n = []).
Proof.
  intros policy page. split; [|split].
  - intros x order_type type_id rid ep o Hx Hv Hh Hmiss Hstale. subst o.
    rewrite (region_market_miss_run E kwd w x order_type type_id h
               Hx Hv Hh Hmiss).
    apply miss_outcome_empty_fetch; [exact Hstale|]. destruct x; reflexivity.
  - intros x cname sid ep o HT HV Hh Hmiss Hstale. subst o.
    rewrite (structure_market_miss_run E kwd w x cname h HT HV Hh Hmiss).
    apply miss_outcome_empty_fetch; [exact Hstale | reflexivity].
  - intros n Hn. unfold page_range.
    replace (Z.to_nat n) with 0%nat by lia. reflexivity.
Qed.

(** A region without a single order, and a HEAD response without X-Pages. *)
Lemma empty_fetch_raises_KeyError_witness :
  res (get_region_market Edge.env_empty_market (PyInt 10000002) "all" None ∅
         Scenario.w_empty) = Raise KeyError
  /\ res (get_region_market Edge.env_no_x_pages (PyInt 10000002) "all" None ∅
            Scenario.w_empty) = Raise KeyError.
Proof.
  split.
  - refine (proj1 (proj2 (proj1 (empty_fetch_raises_KeyError
                                   Edge.env_empty_market ∅ Scenario.w_empty
                                   (mk_headers (Some 1653736500) (Some 1)))
                            (PyInt 10000002) "all" None _ _ _ _ _)
                     [1] _ _));
      try reflexivity; discriminate.
  - refine (proj1 (proj1 (proj1 (empty_fetch_raises_KeyError
                                   Edge.env_no_x_pages ∅ Scenario.w_empty
                                   (mk_headers (Some 1653736500) None))
                            (PyInt 10000002) "all" None _ _ _ _ _) _));
      try reflexivity; discriminate.
Defined.

(** ** Frames served from the store *)

Lemma decide_fresh_fresh (T n : Z) (l : list Z) :
  fst (decide_fresh T (Some n) true l) = false ->
  exists m,
    snd (decide_fresh T (Some n) true l) = Some m
    /\ max_stamp l = Some m /\ T <= m /\ n <= count_at m l.
Proof.
  unfold decide_fresh. destruct (max_stamp l) as [m|]; [|discriminate].
  destruct (Z.ltb_spec m T); [discriminate|]. cbn [andb below_minimum].
  destruct (Z.ltb_spec (count_at m l) n); [discriminate|].
  intros _. exists m. auto.
Qed.

Lemma opt_matches_some (x v : Z) : opt_matches (Some x) v = true -> x = v.
Proof. cbn. apply Z.eqb_eq. Qed.

Lemma side_matches_on_side (order_type : string) (o : order) :
  side_matches order_type o = true -> on_side order_type o.
Proof.
  unfold side_matches, on_side.
  destruct (decide (order_type = "sell")) as [->|Hs].
  - intros H. split; [intros _; now destruct (o_is_buy_order o)|discriminate].
  - destruct (decide (order_type = "buy")) as [->|Hb].
    + intros H. split; [discriminate | auto].
    + intros _. split; intros; contradiction.
Qed.

Lemma select_orders_rows (order_type : string) (type_id : option Z)
    (region_id location_id : option Z) (m : Z) (tbl : list order) :
  Forall (fun o => (forall r, region_id = Some r -> o_region_id o = r)
                   /\ (forall s, location_id = Some s -> o_location_id o = s)
                   /\ of_type type_id o
                   /\ on_side order_type o
                   /\ o_retrieve_time o = m
                   /\ In o tbl)
    (select_orders order_type type_id region_id location_id (Some m) tbl).
Proof.
  apply Forall_forall. intros o Ho. apply list_elem_of_In in Ho.
  unfold select_orders in Ho. apply filter_In in Ho as [Hin Hf].
  apply andb_prop in Hf as [Hf Ht]. apply andb_prop in Hf as [Hf Hs].
  unfold order_matches in Hf. cbn [f_region_id f_location_id f_type_id] in Hf.
  apply andb_prop in Hf as [Hf Hty]. apply andb_prop in Hf as [Hr Hl].
  repeat split.
  - intros r ->. symmetry. now apply opt_matches_some.
  - intros s ->. symmetry. now apply opt_matches_some.
  - intros t ->. symmetry. now apply opt_matches_some.
  - now apply side_matches_on_side.
  - now apply side_matches_on_side.
  - symmetry. now apply opt_matches_some.
  - exact Hin.
Qed.

(** Read without a side and without a type, the store returns as many rows
    as the oracle counted at the maximum. *)
Lemma select_all_count (region_id location_id : option Z) (m : Z) (w : World) :
  Z.of_nat (length (select_orders "all" None region_id location_id (Some m)
                      (orders w)))
  = count_at m (stamps tbl_orders col_retrieve_time
                  (mk_filter region_id location_id None) w).
Proof.
  unfold count_at, stamps, select_orders. f_equal.
  induction (orders w) as [|o tbl IH]; [reflexivity|].
  cbn [List.filter].
  change (side_matches "all" o) with true. rewrite andb_true_r.
  destruct (order_matches _ o); cbn [andb map List.filter]; [|exact IH].
  change (opt_matches (Some m) (o_retrieve_time o))
    with (m =? o_retrieve_time o).
  rewrite (Z.eqb_sym m).
  destruct (o_retrieve_time o =? m); cbn [length]; now rewrite IH.
Qed.

Lemma miss_outcome_fresh (E : Env) (ep : endpoint) (f : filter)
    (order_type : string) (type_id : option Z) (region_id : Z)
    (system_id : option Z) (key : cache_key) (kwd : kwds) (h : headers)
    (w : World) (pre : list event) :
  let policy := expiry_policy (kwd !! "update_threshold") h in
  let verdict := orders_verdict f (snd policy) w in
  let o := after pre (miss_outcome E ep f order_type type_id region_id
                        system_id key kwd h w) in
  fst verdict = false ->
  existsb is_remote pre = false ->
  exists m,
    snd verdict = Some m
    /\ now w - snd policy <= m
    /\ 1000 <= count_at m (stamps tbl_orders col_retrieve_time f w)
    /\ res o = Ok (DFOrders (select_orders order_type type_id (f_region_id f)
                               (f_location_id f) (Some m) (orders w)))
    /\ fin o = w
    /\ List.filter is_remote (log o) = [ev_head ep].
Proof.
  intros policy verdict o Hfresh Hpre. subst o verdict policy.
  unfold orders_verdict in *.
  destruct (decide_fresh_fresh _ _ _ Hfresh) as (m & Hm & _ & HT & Hc).
  exists m. unfold miss_outcome, orders_verdict. rewrite Hfresh, Hm.
  cbn [res fin log after]. repeat split; try assumption.
  rewrite List.filter_app. cbn.
  assert (List.filter is_remote pre = []) as ->; [|reflexivity].
  induction pre as [|e pre IH]; [reflexivity|]. cbn in *.
  destruct (is_remote e); [discriminate | now apply IH].
Qed.

(** X5.  When [get_structure_market] misses the cache and the oracle
    reports the store fresh, the call returns the stored snapshot of the
    structure: at least 1000 rows, all of this structure and all stamped
    with one [retrieve_time] that is no older than the threshold.  The
    store and the cache are unchanged and the HEAD is the only remote
    request. *)
Theorem structure_fresh_frame (E : Env) (kwd : kwds) (w : World) (x : pyarg)
    (cname : option string) (h : headers) :
  let sid := search_structure_id E x cname in
  let policy := expiry_policy (kwd !! "update_threshold") h in
  let o := get_structure_market E x cname kwd w in
  res o <> Raise TypeError ->
  res o <> Raise ValueError ->
  esi_head E (ep_structure_orders sid) = Some h ->
  cache_lookup (structure_key E x cname kwd) w = None ->
  fst (orders_verdict (mk_filter None (Some sid) None) (snd policy) w)
  = false ->
  exists df m,
    res o = Ok (DFOrders df)
    /\ fin o = w
    /\ 1000 <= Z.of_nat (length df)
    /\ now w - snd policy <= m
    /\ Forall (fun r => o_location_id r = sid /\ o_retrieve_time r = m
                        /\ In r (orders w)) df
    /\ List.filter is_remote (log o)
       = [ev_head (ep_structure_orders sid)].
Proof.
  intros sid policy o HT HV Hh Hmiss Hfresh. subst o.
  rewrite (structure_market_miss_run E kwd w x cname h HT HV Hh Hmiss).
  destruct (miss_outcome_fresh E (ep_structure_orders sid)
              (mk_filter None (Some sid) None) "all" None
              (default 0 (kwd !! "region_id"))
              (Some (default 0 (kwd !! "system_id")))
              (structure_key E x cname kwd) kwd h w
              [ev_search "search_structure_id" x] Hfresh eq_refl)
    as (m & Hm & HTm & Hc & Hres & Hfin & Hlog).
  cbn [f_region_id f_location_id] in Hres.
  eexists _, m. split; [exact Hres|]. split; [exact Hfin|].
  split; [rewrite select_all_count; exact Hc|]. split; [exact HTm|].
  split; [|exact Hlog].
  eapply List.Forall_impl; [|apply select_orders_rows].
  intros r (_ & Hl & _ & _ & Ht & Hin). auto.
Qed.


(** The snapshot of 1000 orders, all in one station, asked for as a
    structure. *)
Lemma structure_fresh_frame_witness :
  let o := get_structure_market Scenario.env (PyInt 60003760) None ∅
             Scenario.w_fresh in
  exists df m,
    res o = Ok (DFOrders df)
    /\ fin o = Scenario.w_fresh
    /\ 1000 <= Z.of_nat (length df)
    /\ 1653736200 - 1200 <= m
    /\ Forall (fun r => o_location_id r = 60003760 /\ o_retrieve_time r = m
                        /\ In r Scenario.snapshot) df
    /\ List.filter is_remote (log o) = [ev_head (ep_structure_orders 60003760)].
Proof.
  refine (structure_fresh_frame Scenario.env ∅ Scenario.w_fresh
            (PyInt 60003760) None (mk_headers (Some 1653736500) (Some 1))
            _ _ _ _ _).
  - vm_compute. discriminate.
  - vm_compute. discriminate.
  - reflexivity.
  - reflexivity.
  - vm_compute. reflexivity.
Defined.


(** ** Forcing an update *)

Lemma stamps_in_orders (f : filter) (w : World) (m : Z) :
  In m (stamps tbl_orders col_retrieve_time f w) ->
  exists o, In o (orders w) /\ o_retrieve_time o = m.
Proof.
  cbn [stamps]. intros H. apply in_map_iff in H as (o & <- & Ho).
  apply filter_In in Ho as [Ho _]. eauto.
Qed.

Lemma verdict_forced (f : filter) (w : World) :
  Forall (fun o => o_retrieve_time o <= now w) (orders w) ->
  fst (orders_verdict f (-1) w) = true.
Proof.
  intros Hpast. unfold orders_verdict, decide_fresh.
  pose proof (max_stamp_spec (stamps tbl_orders col_retrieve_time f w)) as Hm.
  destruct (max_stamp _) as [m|]; [|reflexivity].
  destruct Hm as [Hin _]. apply stamps_in_orders in Hin as (o & Ho & <-).
  rewrite List.Forall_forall in Hpast. specialize (Hpast o Ho).
  destruct (Z.ltb_spec (o_retrieve_time o) (now w - -1)); [reflexivity | lia].
Qed.

Lemma miss_outcome_forced (E : Env) (ep : endpoint) (f : filter)
    (order_type : string) (type_id : option Z) (region_id : Z)
    (system_id : option Z) (key : cache_key) (kwd : kwds) (h : headers)
    (w : World) (pre : list event) (v : pyobj) :
  kwd !! "update_threshold" = Some (-1) ->
  Forall (fun o => o_retrieve_time o <= now w) (orders w) ->
  let o := after pre (miss_outcome E ep f order_type type_id region_id
                        system_id key kwd h w) in
  res o = Ok v ->
  get_pages (log o) <> []
  /\ In (ev_cache_set key) (log o)
  /\ cache_lookup key (fin o) = None.
Proof.
  intros Hk Hpast o. subst o. unfold miss_outcome. rewrite Hk.
  cbn [expiry_policy Z.eqb fst snd]. rewrite (verdict_forced f w Hpast).
  unfold fetch_outcome.
  destruct (requested_pages _ h) as [pages|]; [|discriminate].
  cbv zeta.
  destruct (fetch_all (esi_orders E ep) pages) as [[|r rows]|] eqn:Hf;
    [discriminate| |discriminate].
  rewrite (attempted_all _ _ _ Hf). cbn [res fin log after]. intros _.
  split; [|split].
  - rewrite !get_pages_app, get_pages_gets.
    destruct pages as [|p pages]; [cbn in Hf; discriminate Hf|].
    intros Hnil. apply app_eq_nil in Hnil as [_ Hnil].
    apply app_eq_nil in Hnil as [_ Hnil]. discriminate Hnil.
  - apply in_or_app. right. simpl. do 3 right.
    apply in_or_app. right. simpl. auto.
  - unfold cache_lookup. rewrite cache_store_find.
    cbn [e_expires_at e_value expires_at cache_store now].
    destruct (Z.leb_spec (now w) (now w + -1)); [lia | reflexivity].
Qed.

(** X7.  The documented way to force an update works, and defeats the
    cache: with [update_threshold=-1] and no stored row stamped in the
    future, an order query that misses the cache never takes the store
    branch; when it completes it has fetched at least one page from the
    remote source, and the cache entry it writes, with a time to live of -1
    second, is expired at once, so the next identical call misses the cache
    again. *)
Theorem forced_update_refetches (E : Env) (kwd : kwds) (w : World)
    (h : headers) (v : pyobj) :
  kwd !! "update_threshold" = Some (-1) ->
  Forall (fun o => o_retrieve_time o <= now w) (orders w) ->
  (forall x order_type type_id,
     let o := get_region_market E x order_type type_id kwd w in
     let key := region_key E x order_type type_id kwd in
     esi_head E (ep_region_orders (region_of E x) order_type type_id)
     = Some h ->
     cache_lookup key w = None ->
     res o = Ok v ->
     get_pages (log o) <> []
     /\ In (ev_cache_set key) (log o)
     /\ cache_lookup key (fin o) = None)
  /\ (forall x cname,
        let o := get_structure_market E x cname kwd w in
        let key := structure_key E x cname kwd in
        esi_head E (ep_structure_orders (search_structure_id E x cname))
        = Some h ->
        cache_lookup key w = None ->
        res o = Ok v ->
        get_pages (log o) <> []
        /\ In (ev_cache_set key) (log o)
        /\ cache_lookup key (fin o) = None).
Proof.
  intros Hk Hpast. split.
  - intros x order_type type_id o key Hh Hmiss Hres. subst o key.
    assert (x <> PyOther) as Hx by (intros ->; discriminate Hres).
    assert (valid_order_type order_type = true) as Hv.
    { destruct (valid_order_type order_type) eqn:Hv; [reflexivity|].
      exfalso. revert Hres. unfold get_region_market, call_search_id.
      destruct x as [s|n|]; run_py; rewrite ?Hv; run_py; discriminate. }
    revert Hres.
    rewrite (region_market_miss_run E kwd w x order_type type_id h
               Hx Hv Hh Hmiss).
    now apply miss_outcome_forced.
  - intros x cname o key Hh Hmiss Hres. subst o key.
    assert (res (get_structure_market E x cname kwd w) <> Raise TypeError)
      as HT by (rewrite Hres; discriminate).
    assert (res (get_structure_market E x cname kwd w) <> Raise ValueError)
      as HV by (rewrite Hres; discriminate).
    revert Hres.
    rewrite (structure_market_miss_run E kwd w x cname h HT HV Hh Hmiss).
    now apply miss_outcome_forced.
Qed.

Lemma forced_update_refetches_witness :
  let kwd : kwds := {[ "update_threshold" := -1 ]} in
  let o := get_region_market Scenario.env (PyInt 10000002) "all" None kwd
             Scenario.w_fresh in
  let key := make_cache_key "get_region_market"
               [VInt 10000002; VStr "all"; VNone] kwd in
  get_pages (log o) <> []
  /\ In (ev_cache_set key) (log o)
  /\ cache_lookup key (fin o) = None.
Proof.
  intros kwd o key.
  destruct (res o) as [v|e] eqn:Hres; [|vm_compute in Hres; discriminate Hres].
  refine (proj1 (forced_update_refetches Scenario.env kwd Scenario.w_fresh
                   (mk_headers (Some 1653736500) (Some 1)) v _ _)
            (PyInt 10000002) "all" None _ _ Hres).
  - reflexivity.
  - apply List.Forall_forall. intros r Hr.
    apply in_map_iff in Hr as (i & <- & _). cbn. lia.
  - reflexivity.
  - reflexivity.
Defined.

(** ** The station query *)

Lemma select_orders_rows_any (order_type : string) (type_id : option Z)
    (region_id location_id retrieve_time : option Z) (tbl : list order) :
  Forall (fun o => (forall r, region_id = Some r -> o_region_id o = r)
                   /\ (forall s, location_id = Some s -> o_location_id o = s)
                   /\ of_type type_id o
                   /\ on_side order_type o
                   /\ (forall m, retrieve_time = Some m -> o_retrieve_time o = m)
                   /\ In o tbl)
    (select_orders order_type type_id region_id location_id retrieve_time tbl).
Proof.
  apply List.Forall_forall. intros o Ho.
  unfold select_orders in Ho. apply filter_In in Ho as [Hin Hf].
  apply andb_prop in Hf as [Hf Ht]. apply andb_prop in Hf as [Hf Hs].
  unfold order_matches in Hf. cbn [f_region_id f_location_id f_type_id] in Hf.
  apply andb_prop in Hf as [Hf Hty]. apply andb_prop in Hf as [Hr Hl].
  split; [intros r ->; symmetry; now apply opt_matches_some|].
  split; [intros s ->; symmetry; now apply opt_matches_some|].
  split; [intros t ->; symmetry; now apply opt_matches_some|].
  split; [now apply side_matches_on_side|].
  split; [intros m ->; symmetry; now apply opt_matches_some | exact Hin].
Qed.

(** X8.  Whatever happens inside, a frame returned by [get_station_market]
    holds rows of the store as it is when the call returns, each of the
    station and of its region, on the requested side and of the requested
    type.  When the oracle found rows of the station before, every returned
    row carries the [retrieve_time] found then: rows that a refresh made
    during the call has stamped anew are not returned. *)
Theorem station_frame (E : Env) (x : pyarg) (order_type : string)
    (type_id : option Z) (kwd : kwds) (w : World) (v : pyobj) :
  let station_id := station_of E x in
  let region_id := search_station_region_id E station_id in
  let verdict :=
    orders_verdict (mk_filter (Some region_id) (Some station_id) None)
      (default 1200 (kwd !! "update_threshold")) w in
  let o := get_station_market E x order_type type_id kwd w in
  res o = Ok v ->
  exists df,
    v = DFOrders df
    /\ Forall (fun r => o_region_id r = region_id
                        /\ o_location_id r = station_id
                        /\ on_side order_type r /\ of_type type_id r
                        /\ (forall m, snd verdict = Some m ->
                                      o_retrieve_time r = m)
                        /\ In r (orders (fin o))) df.
Proof.
  intros station_id region_id verdict o. subst o verdict region_id station_id.
  unfold orders_verdict, get_station_market, call_search_id,
    call_search_station_region_id, _update_or_not, _select_from_orders.
  destruct x as [s|n|]; cbn [station_of]; run_py; [| |discriminate].
  all: destruct (valid_order_type order_type); run_py; [|discriminate].
  all: destruct (decide_fresh _ _ _ _) as [[|] last]; run_py.
  all: try rewrite bind_case.
  all: try match goal with
       | |- context [get_region_market ?E ?x ?o ?t ?k ?w0] =>
           destruct (get_region_market E x o t k w0) as [[v'|e'] w1 l1]
       end; run_py; try discriminate.
  all: intros [= <-]; eexists; split; [reflexivity|].
  all: eapply List.Forall_impl; [|apply select_orders_rows_any].
  all: intros r (Hr & Hl & Hty & Hs & Ht & Hin); auto 10.
Qed.

(** The snapshot of 1000 sell orders of type 34, all in the station and
    taken 1000 seconds ago: the whole snapshot comes back, every row with
    the [retrieve_time] the oracle found. *)
Lemma station_frame_witness :
  let o := get_station_market Scenario.env (PyInt 60003760) "sell" (Some 34)
             ∅ Scenario.w_fresh in
  exists df,
    res o = Ok (DFOrders df)
    /\ length df = 1000%nat
    /\ Forall (fun r => o_region_id r = 10000002
                        /\ o_location_id r = 60003760
                        /\ on_side "sell" r /\ of_type (Some 34) r
                        /\ o_retrieve_time r = 1653735200
                        /\ In r (orders (fin o))) df.
Proof.
  assert (res (get_station_market Scenario.env (PyInt 60003760) "sell"
                 (Some 34) ∅ Scenario.w_fresh)
          = Ok (DFOrders Scenario.snapshot)) as Hres
    by (vm_compute; reflexivity).
  pose proof (station_frame Scenario.env (PyInt 60003760) "sell" (Some 34) ∅
                Scenario.w_fresh (DFOrders Scenario.snapshot)) as H.
  cbv zeta in H. specialize (H Hres). destruct H as (df & Hv & Hall).
  cbv zeta. exists df. split; [rewrite Hres, Hv; reflexivity|].
  split.
  - injection Hv as <-. vm_compute. reflexivity.
  - eapply List.Forall_impl; [|exact Hall].
    intros r (Hr & Hl & Hs & Hty & Ht & Hin).
    match type of Ht with
    | forall m, snd ?v = Some m -> _ =>
        assert (snd v = Some 1653735200) as Hlast by (vm_compute; reflexivity)
    end.
    exact (conj Hr (conj Hl (conj Hs (conj Hty (conj (Ht _ Hlast) Hin))))).
Defined.



Lemma cache_only_under_app (k : cache_key) (l l' : list event) :
  cache_only_under k l -> cache_only_under k l' -> cache_only_under k (l ++ l').
Proof. intros H H'. apply Forall_app. now split. Qed.

Lemma cache_only_under_gets (k : cache_key) (ep : endpoint) (pages : list Z) :
  cache_only_under k (map (ev_get ep) pages).
Proof.
  apply List.Forall_forall. intros e He.
  apply in_map_iff in He as (p & <- & _). discriminate.
Qed.

Lemma fetch_outcome_cache_events (E : Env) (ep : endpoint) (page : Z)
    (h : headers) (region_id : Z) (system_id : option Z) (key : cache_key)
    (expires : expires_arg) (w : World) :
  cache_only_under key
    (log (fetch_outcome E ep page h region_id system_id key expires w)).
Proof.
  unfold fetch_outcome. destruct (requested_pages page h); [|constructor].
  cbv zeta. destruct (fetch_all _ _) as [[|r rows]|]; cbn [log];
    try apply cache_only_under_gets.
  apply cache_only_under_app; [apply cache_only_under_gets|].
  repeat constructor; auto; discriminate.
Qed.

Lemma region_market_cache_events (E : Env) (x : pyarg) (order_type : string)
    (type_id : option Z) (kwd : kwds) (w : World) :
  cache_only_under (region_key E x order_type type_id kwd)
    (log (get_region_market E x order_type type_id kwd w)).
Proof.
  unfold region_key.
  unfold get_region_market, call_search_id, ESIClient_head, api_cache_get,
    _update_or_not, _select_from_orders.
  destruct x as [s|n|]; cbn [region_of]; run_py; [| |constructor].
  all: destruct (valid_order_type order_type); run_py;
    [|repeat constructor; discriminate].
  all: destruct (esi_head E _); run_py; [|repeat constructor; discriminate].
  all: destruct (cache_lookup _ w); run_py;
    [repeat constructor; auto; discriminate|].
  all: destruct (expiry_policy _ _) as [expires update_threshold]; run_py.
  all: destruct (decide_fresh _ _ _ _) as [[|] last]; run_py;
    [|repeat constructor; auto; discriminate].
  all: rewrite fetch_path_run.
  all: repeat (constructor; [first [discriminate | auto]|]).
  all: apply fetch_outcome_cache_events.
Qed.

Lemma station_market_cache_events (E : Env) (x : pyarg) (order_type : string)
    (type_id : option Z) (kwd : kwds) (w : World) :
  cache_only_under (station_inner_key E x order_type type_id kwd)
    (log (get_station_market E x order_type type_id kwd w)).
Proof.
  unfold station_inner_key.
  unfold get_station_market, call_search_id,
    call_search_station_region_id, _update_or_not, _select_from_orders.
  destruct x as [s|n|]; cbn [station_of]; run_py; [| |constructor].
  all: destruct (valid_order_type order_type); run_py;
    [|repeat constructor; discriminate].
  all: destruct (decide_fresh _ _ _ _) as [[|] last]; run_py;
    [repeat constructor; discriminate|].
  all: rewrite bind_case.
  all: match goal with
       | |- context [get_region_market ?E ?x ?o ?t ?k ?w0] =>
           pose proof (region_market_cache_events E x o t k w0) as Hin;
           destruct (get_region_market E x o t k w0) as [[v'|e'] w1 l1]
       end; run_py; cbn [log] in Hin.
  all: repeat (constructor; [discriminate|]).
  all: unfold cache_only_under in Hin; rewrite ?app_nil_r.
  all: try exact Hin.
  all: apply Forall_app; split; [exact Hin|].
  all: repeat constructor; discriminate.
Qed.

(** X9.  [get_station_market] has no cache entry of its own: the only
    cache accesses of a call are those of the [get_region_market] call it
    makes, and they are under a key that carries the option
    [update_threshold], which is never the key of a direct
    [get_region_market] call without options.  A station query and a plain
    region query therefore never share a cache entry; and when the oracle
    reports the station stale the cache is not touched at all. *)
Theorem station_cache_keys (E : Env) (x : pyarg) (order_type : string)
    (type_id : option Z) (kwd : kwds) (w : World) :
  let station_id := station_of E x in
  let region_id := search_station_region_id E station_id in
  let key := station_inner_key E x order_type type_id kwd in
  let o := get_station_market E x order_type type_id kwd w in
  cache_only_under key (log o)
  /\ key <> region_key E (PyInt region_id) order_type type_id ∅
  /\ (fst (orders_verdict (mk_filter (Some region_id) (Some station_id) None)
             (default 1200 (kwd !! "update_threshold")) w) = true ->
      existsb is_cache (log o) = false).
Proof.
  intros station_id region_id key o. subst o key region_id station_id.
  split; [apply station_market_cache_events|split].
  - unfold station_inner_key, region_key, make_cache_key. intros Hk.
    apply (f_equal (fun k => k_kwd k !! "update_threshold")) in Hk.
    cbn [k_kwd] in Hk.
    rewrite lookup_singleton_eq, lookup_empty in Hk. discriminate.
  - unfold orders_verdict, get_station_market, call_search_id,
      call_search_station_region_id, _update_or_not, _select_from_orders.
    destruct x as [s|n|]; cbn [station_of]; run_py; [| |reflexivity].
    all: destruct (valid_order_type order_type); run_py; [|reflexivity].
    all: intros ->; run_py; reflexivity.
Qed.

(** The stale station of the empty store: no cache access at all. *)
Lemma station_cache_keys_witness :
  existsb is_cache
    (log (get_station_market Scenario.env (PyInt 60003760) "all" None ∅
            Scenario.w_empty)) = false.
Proof.
  exact (proj2 (proj2 (station_cache_keys Scenario.env (PyInt 60003760) "all"
                         None ∅ Scenario.w_empty)) eq_refl).
Defined.

(** ** The history of one type *)

Lemma type_history_run (E : Env) (rid type_id : Z) (reduces : option reducer)
    (w : World) :
  _get_type_history_async E rid type_id reduces w
  = type_history_outcome E rid type_id reduces w.
Proof.
  unfold type_history_outcome, history_verdict, _get_type_history_async,
    _update_or_not, to_sql_history.
  run_py. destruct (decide_fresh _ _ _ _) as [[|] last]; run_py;
    [|show_outcome; reflexivity].
  destruct (check_type_id E type_id); run_py; [|show_outcome; reflexivity].
  destruct (esi_history E rid type_id) as [[|r resp]|]; run_py;
    try (show_outcome; reflexivity).
  cbn [length Nat.eqb].
  destruct (history_frame rid type_id (r :: resp)); run_py;
    show_outcome; reflexivity.
Qed.

Lemma history_frame_none (rid type_id : Z) (resp : list raw_history) :
  history_frame rid type_id resp = None <-> Exists bad_date resp.
Proof.
  induction resp as [|r resp IH]; cbn [history_frame].
  - split; [discriminate | intros H; inversion H].
  - unfold to_history, bad_date in *.
    destruct (history_date (rh_date r)) eqn:Hd.
    + destruct (history_frame rid type_id resp).
      * split; [discriminate|]. intros H. inversion H; subst; [congruence|].
        assert (Some l = None) as Hl by now apply IH. discriminate Hl.
      * split; [intros _|reflexivity]. apply Exists_cons_tl. now apply IH.
    + split; [intros _|reflexivity]. now apply Exists_cons_hd.
Qed.

(** X10.  A history response is converted as a whole: when the store is
    stale for the type, the type is published and the response holds a
    record whose date [strptime] rejects (a day that does not exist, a
    field that is missing or out of range, text after the day other than
    blanks), the call raises ValueError and nothing is stored, not even
    the well-formed records of the same response. *)
Theorem bad_date_rejects_whole_response (E : Env) (rid type_id : Z)
    (reduces : option reducer) (w : World) (resp : list raw_history) :
  fst (history_verdict rid type_id w) = true ->
  check_type_id E type_id = true ->
  esi_history E rid type_id = Some resp ->
  Exists bad_date resp ->
  let o := _get_type_history_async E rid type_id reduces w in
  res o = Raise ValueError
  /\ fin o = w
  /\ log o = [ ev_oracle tbl_market_history
                 (mk_filter (Some rid) None (Some type_id));
               ev_check_type type_id;
               ev_request (ep_history rid type_id) ].
Proof.
  intros Hstale Hcheck Hresp Hbad o. subst o.
  rewrite type_history_run. unfold type_history_outcome.
  rewrite Hstale, Hcheck, Hresp.
  apply (history_frame_none rid type_id) in Hbad. rewrite Hbad.
  destruct resp as [|r resp]; [discriminate Hbad|].
  repeat split.
Qed.

Lemma bad_date_rejects_whole_response_witness :
  let o := _get_type_history_async BadDate.env 10000002 34 None
             Scenario.w_empty in
  res o = Raise ValueError /\ fin o = Scenario.w_empty.
Proof.
  intros o.
  destruct (bad_date_rejects_whole_response BadDate.env 10000002 34 None
              Scenario.w_empty
              [ mk_raw_history "2022-05-27" 540 560 500 1000000 2000;
                mk_raw_history "2022-02-30" 545 570 510 1200000 2100 ])
    as (Hres & Hfin & _); try reflexivity.
  - apply Exists_cons_tl, Exists_cons_hd. reflexivity.
  - split; assumption.
Defined.

Lemma filter_remote_after (l : list event) {A} (o : outcome A) :
  List.filter is_remote (log (after l o))
  = List.filter is_remote l ++ List.filter is_remote (log o).
Proof. cbn [log after]. apply List.filter_app. Qed.

(** X11.  What a per-type history call costs and changes.  It asks the
    remote source nothing when the store is fresh for the type (a row
    dated within the last two days); only the validity check when the
    type is not published; the validity check and one history request
    otherwise.  It changes the world only when it returns a fetched frame,
    and then only the history table, by inserting that frame. *)
Theorem type_history_cost (E : Env) (rid type_id : Z)
    (reduces : option reducer) (w : World) :
  let o := _get_type_history_async E rid type_id reduces w in
  List.filter is_remote (log o) = type_history_requests E rid type_id w
  /\ (fin o = w
      \/ exists resp df,
           fst (history_verdict rid type_id w) = true
           /\ esi_history E rid type_id = Some resp
           /\ history_frame rid type_id resp = Some df
           /\ res o = Ok (Some (apply_reduces reduces rid type_id df))
           /\ fin o = mk_world (now w) (orders w)
                        (upsert_history df (market_history w)) (api_cache w)).
Proof.
  intros o. subst o. rewrite type_history_run.
  unfold type_history_outcome, type_history_requests.
  destruct (fst (history_verdict rid type_id w)) eqn:Hstale;
    [|split; [reflexivity | now left]].
  destruct (check_type_id E type_id); [|split; [reflexivity | now left]].
  destruct (esi_history E rid type_id) as [[|r resp]|] eqn:Hresp;
    try (split; [reflexivity | now left]).
  destruct (history_frame rid type_id (r :: resp)) as [df|] eqn:Hdf;
    [|split; [reflexivity | now left]].
  split; [reflexivity|]. right. exists (r :: resp), df. auto.
Qed.

(** X12.  Served from the store, a per-type history is the stored rows of
    that region and type and nothing else, at no remote cost and with the
    world unchanged; the newest of them is dated within the last two days.
    Whatever a reducer returns, the rows handed back carry the region id
    and the type id of the call. *)
Theorem type_history_from_store (E : Env) (rid type_id : Z)
    (reduces : option reducer) (w : World) :
  fst (history_verdict rid type_id w) = false ->
  let o := _get_type_history_async E rid type_id reduces w in
  let stored :=
    List.filter (history_matches (mk_filter (Some rid) None (Some type_id)))
      (market_history w) in
  exists rows,
    res o = Ok (Some rows)
    /\ fin o = w
    /\ existsb is_remote (log o) = false
    /\ Forall (fun h => h_region_id h = rid /\ h_type_id h = type_id) rows
    /\ (reduces = None -> rows = stored)
    /\ exists h, In h stored /\ now w - 2 * 24 * 3600 <= h_date h.
Proof.
  intros Hfresh o stored. subst o. rewrite type_history_run.
  unfold type_history_outcome. rewrite Hfresh. cbn [res fin log after].
  eexists. split; [reflexivity|]. split; [reflexivity|].
  split; [reflexivity|]. split; [|split].
  - destruct reduces as [f|]; cbn [apply_reduces].
    + apply List.Forall_forall. intros h Hh.
      apply in_map_iff in Hh as (h' & <- & _). split; reflexivity.
    + apply List.Forall_forall. intros h Hh.
      apply filter_In in Hh as [_ Hm]. unfold history_matches in Hm.
      cbn [f_region_id f_location_id f_type_id] in Hm.
      apply andb_prop in Hm as [Hm Ht]. apply andb_prop in Hm as [Hr _].
      split; symmetry; now apply opt_matches_some.
  - intros ->. reflexivity.
  - unfold history_verdict, decide_fresh in Hfresh.
    pose proof (max_stamp_spec
                  (stamps tbl_market_history col_date
                     (mk_filter (Some rid) None (Some type_id)) w)) as Hm.
    destruct (max_stamp _) as [m|]; [|discriminate].
    destruct (Z.ltb_spec m (now w - 2 * 24 * 3600)); [discriminate|].
    destruct Hm as [Hin _]. cbn [stamps] in Hin.
    apply in_map_iff in Hin as (h & <- & Hh). exists h. split; assumption.
Qed.

Lemma type_history_from_store_witness :
  let o := _get_type_history_async Scenario.env 10000002 34 None w_history in
  exists rows,
    res o = Ok (Some rows)
    /\ fin o = w_history
    /\ existsb is_remote (log o) = false
    /\ Forall (fun h => h_region_id h = 10000002 /\ h_type_id h = 34) rows.
Proof.
  intros o.
  destruct (type_history_from_store Scenario.env 10000002 34 None w_history
              eq_refl) as (rows & Hres & Hfin & Hrem & Hall & _).
  exists rows. auto.
Defined.

(** ** The types of a region *)

(** X13.  [get_region_types] reads the cache before it asks the remote
    source anything: a non-empty cached list is returned with no remote
    request at all and the world unchanged.  An empty cached list does not
    count, because the value is tested for truth: the call goes on to the
    HEAD request as if nothing were cached. *)
Theorem region_types_cache_first (E : Env) (x : pyarg) (src : string)
    (w : World) :
  let o := get_region_types E x src w in
  let key := types_key E x src in
  x <> PyOther ->
  (forall t ids, cache_lookup key w = Some (TypeIds (t :: ids)) ->
     o = mk_outcome (Ok (t :: ids)) w (region_lookups x ++ [ev_cache_get key]))
  /\ (no_cached_types key w ->
      exists rest,
        log o = region_lookups x
                ++ ev_cache_get key
                   :: ev_head (ep_region_types (region_of E x)) :: rest).
Proof.
  intros o key Hx. subst o key. unfold types_key, no_cached_types.
  unfold get_region_types, call_search_id, api_cache_get, ESIClient_head.
  destruct x as [s|n|]; [| |contradiction]; cbn [region_of region_lookups].
  all: run_py; split.
  all: try (intros t ids ->; run_py; show_outcome; reflexivity).
  all: intros [-> | ->]; run_py.
  all: destruct (esi_head E _); run_py; eexists; reflexivity.
Qed.

Lemma region_types_cache_first_witness :
  let key := make_cache_key "get_region_types"
               [VInt 10000002; VStr "esi"] ∅ in
  let w := mk_world 1653736200 [] []
             [mk_entry key (TypeIds [34; 35]) 1653736500] in
  get_region_types env_down (PyInt 10000002) "esi" w
  = mk_outcome (Ok [34; 35]) w [ev_cache_get key].
Proof.
  intros key w.
  refine (proj1 (region_types_cache_first env_down (PyInt 10000002) "esi" w
                   _) 34 [35] _); [discriminate | reflexivity].
Defined.

(** X14.  With [src="db"], after a miss, [get_region_types] returns the
    type ids of the stored orders of the region, each once, and caches
    them; no page is requested, but the HEAD request is made all the same,
    and the call fails with the transport error when that HEAD fails. *)
Theorem region_types_from_db (E : Env) (x : pyarg) (w : World) :
  let rid := region_of E x in
  let key := types_key E x "db" in
  let o := get_region_types E x "db" w in
  x <> PyOther ->
  no_cached_types key w ->
  match esi_head E (ep_region_types rid) with
  | None => res o = Raise TransportError /\ fin o = w
  | Some h =>
      exists ids,
        res o = Ok ids
        /\ NoDup ids
        /\ (forall t, In t ids <->
                      exists r, In r (orders w)
                                /\ o_region_id r = rid /\ o_type_id r = t)
        /\ List.filter is_remote (log o) = [ev_head (ep_region_types rid)]
        /\ cache_find key (api_cache (fin o))
           = Some (mk_entry key (TypeIds ids)
                     (expires_at (now w)
                        match hd_expires h with
                        | Some t => ExpHint t
                        | None => ExpNone
                        end))
  end.
Proof.
  intros rid key o Hx Hmiss. subst o key rid.
  unfold types_key, no_cached_types in *.
  unfold get_region_types, call_search_id, api_cache_get, ESIClient_head,
    api_cache_set.
  destruct x as [s|n|]; [| |contradiction]; cbn [region_of] in *.
  all: run_py.
  all: destruct Hmiss as [-> | ->]; run_py.
  all: destruct (esi_head E _) as [h|]; run_py; [|split; reflexivity].
  all: change (bool_decide ("db" = "esi")) with false;
    change (bool_decide ("db" = "db")) with true; cbv iota; run_py.
  all: eexists; split; [reflexivity|].
  all: split; [apply NoDup_remove_dups|].
  all: split; [|split; [reflexivity | rewrite cache_store_find; reflexivity]].
  all: intros t; rewrite <- list_elem_of_In, elem_of_remove_dups,
         list_elem_of_In, in_map_iff.
  all: split; intros (r & Hr1 & Hr2).
  all: try (apply filter_In in Hr2 as [Hin Hm];
            unfold order_matches in Hm;
            cbn [f_region_id f_location_id f_type_id opt_matches andb] in Hm;
            rewrite !andb_true_r in Hm; apply Z.eqb_eq in Hm;
            exists r; auto).
  all: destruct Hr2 as [Hrid Ht]; exists r; split; [exact Ht|].
  all: apply filter_In; split; [exact Hr1|].
  all: unfold order_matches;
    cbn [f_region_id f_location_id f_type_id opt_matches andb];
    rewrite !andb_true_r; apply Z.eqb_eq; auto.
Qed.

Lemma region_types_from_db_witness :
  let o := get_region_types Scenario.env (PyInt 10000002) "db"
             Scenario.w_fresh in
  exists ids,
    res o = Ok ids
    /\ NoDup ids
    /\ List.filter is_remote (log o) = [ev_head (ep_region_types 10000002)].
Proof.
  intros o.
  destruct (region_types_from_db Scenario.env (PyInt 10000002)
              Scenario.w_fresh) as (ids & Hres & Hnd & _ & Hlog & _).
  - discriminate.
  - left. reflexivity.
  - exists ids. auto.
Defined.

(** X15.  A [src] other than "esi" and "db" is not rejected at the start:
    the call reads the cache, makes the HEAD request, and then raises
    UnboundLocalError, with nothing cached. *)
Theorem region_types_unknown_source (E : Env) (x : pyarg) (src : string)
    (w : World) (h : headers) :
  let rid := region_of E x in
  let key := types_key E x src in
  let o := get_region_types E x src w in
  x <> PyOther ->
  src <> "esi" -> src <> "db" ->
  no_cached_types key w ->
  esi_head E (ep_region_types rid) = Some h ->
  o = mk_outcome (Raise UnboundLocalError) w
        (region_lookups x ++ [ev_cache_get key; ev_head (ep_region_types rid)]).
Proof.
  intros rid key o Hx Hesi Hdb Hmiss Hh. subst o key rid.
  unfold types_key, no_cached_types in *.
  unfold get_region_types, call_search_id, api_cache_get, ESIClient_head.
  destruct x as [s|n|]; [| |contradiction];
    cbn [region_of region_lookups] in *.
  all: run_py.
  all: destruct Hmiss as [-> | ->]; run_py.
  all: rewrite Hh; run_py.
  all: rewrite (bool_decide_eq_false_2 _ Hesi), (bool_decide_eq_false_2 _ Hdb).
  all: run_py; show_outcome; reflexivity.
Qed.

Lemma region_types_unknown_source_witness :
  res (get_region_types Scenario.env (PyInt 10000002) "cache"
         Scenario.w_empty)
  = Raise UnboundLocalError.
Proof.
  rewrite (region_types_unknown_source Scenario.env (PyInt 10000002) "cache"
             Scenario.w_empty (mk_headers (Some 1653736500) (Some 1)));
    try discriminate; try reflexivity.
  left. reflexivity.
Defined.

(** ** Bulk history *)

(** X16.  Contrary to the note in its docstring, [get_market_history] is
    cached.  For an explicit list of types the cache is read first, before
    any remote request: a hit returns the cached value with the world
    unchanged.  After a miss, when the HEAD completes and the per-type
    tasks finish with at least one frame, the call returns the frames
    concatenated in the order of the types, absent results skipped, and
    stores that result in the cache under the key of the call. *)
Theorem market_history_is_cached (E : Env) (x : pyarg) (t : Z) (ids : list Z)
    (reduces : option reducer) (w : World) :
  let rid := region_of E x in
  let key := history_key_for E x (t :: ids) reduces in
  let o := get_market_history E x (Some (t :: ids)) reduces w in
  x <> PyOther ->
  (forall v, cache_lookup key w = Some v ->
     o = mk_outcome (Ok v) w (region_lookups x ++ [ev_cache_get key]))
  /\ (forall h rs w1 l1,
        cache_lookup key w = None ->
        esi_head E (ep_history rid 12005) = Some h ->
        gather (history_tasks E rid (t :: ids) reduces) w
        = mk_outcome (Ok rs) w1 l1 ->
        omap id rs <> [] ->
        let df := DFHistory (concat (omap id rs)) in
        res o = Ok df
        /\ fin o = cache_store key df (header_expiry h) w1
        /\ cache_find key (api_cache (fin o))
           = Some (mk_entry key df (expires_at (now w1) (header_expiry h)))).
Proof.
  intros rid key o Hx. subst o key rid. unfold history_key_for, history_tasks.
  unfold get_market_history, call_search_id, api_cache_get, ESIClient_head,
    api_cache_set.
  destruct x as [s|n|]; [| |contradiction];
    cbn [region_of region_lookups] in *.
  all: run_py; split.
  all: try (intros v ->; run_py; show_outcome; reflexivity).
  all: intros h rs w1 l1 -> Hh Hg Hne; run_py; rewrite Hh; run_py.
  all: rewrite bind_case, Hg; run_py.
  all: unfold pd_concat; destruct (omap id rs) as [|r kept] eqn:Hk;
    [contradiction|]; run_py.
  all: rewrite cache_store_find; repeat split.
Qed.

Lemma market_history_is_cached_witness :
  let key := make_cache_key "get_market_history"
               [VInt 10000002; VList [34]; VNone] ∅ in
  let o := get_market_history Scenario.env_history (PyInt 10000002)
             (Some [34]) None Scenario.w_empty in
  exists df,
    res o = Ok (DFHistory df)
    /\ cache_lookup key (fin o) = Some (DFHistory df)
    /\ get_market_history Scenario.env_history (PyInt 10000002) (Some [34])
         None (fin o)
       = mk_outcome (Ok (DFHistory df)) (fin o) [ev_cache_get key].
Proof.
  intros key o.
  pose proof (market_history_is_cached Scenario.env_history (PyInt 10000002)
                34 [] None) as H.
  destruct (gather (history_tasks Scenario.env_history 10000002 [34] None)
              Scenario.w_empty) as [[rs|e] w1 l1] eqn:Hg;
    [|vm_compute in Hg; discriminate Hg].
  destruct (H Scenario.w_empty) as [_ Hmiss]; [discriminate|].
  specialize (Hmiss (mk_headers (Some 1653736500) (Some 1)) rs w1 l1
                eq_refl eq_refl Hg).
  assert (omap id rs <> []) as Hne.
  { vm_compute in Hg. injection Hg as <- _ _. discriminate. }
  destruct (Hmiss Hne) as (Hres & Hfin & Hfind).
  exists (concat (omap id rs)). split; [exact Hres|].
  assert (cache_lookup key (fin o) = Some (DFHistory (concat (omap id rs))))
    as Hhit.
  { unfold cache_lookup. fold o in Hfind. unfold key.
    change (region_of Scenario.env_history (PyInt 10000002)) with 10000002
      in Hfind.
    unfold history_key_for in Hfind. cbn [region_of reducer_val] in Hfind.
    rewrite Hfind. cbn [e_expires_at e_value].
    fold o in Hfin. rewrite Hfin.
    assert (now w1 = 1653736200) as Hnow
      by (vm_compute in Hg; injection Hg as _ <- _; reflexivity).
    cbn [now cache_store expires_at header_expiry hd_expires]. rewrite Hnow.
    reflexivity. }
  split; [exact Hhit|].
  destruct (H (fin o)) as [Hit _]; [discriminate|].
  exact (Hit _ Hhit).
Defined.

(** X17.  Asked for all types ([type_ids] absent or empty),
    [get_market_history] first obtains the types from [get_region_types]
    with source "esi", whose failure is the failure of the call.  The cache
    key then names the region and "all_type_ids", not the types obtained: a
    cached result is returned even if the list of types has changed since.
    And when the region has no type at all and the cache misses, the call
    raises ValueError, for there is nothing to concatenate. *)
Theorem market_history_all_types (E : Env) (x : pyarg) (type_ids : option (list Z))
    (reduces : option reducer) (w : World) :
  let rid := region_of E x in
  let key := history_key_all E x reduces in
  let inner := get_region_types E (PyInt rid) "esi" w in
  let o := get_market_history E x type_ids reduces w in
  x <> PyOther ->
  type_ids = None \/ type_ids = Some [] ->
  match res inner with
  | Raise e => res o = Raise e /\ fin o = fin inner
  | Ok ids =>
      exists rest,
        log o = region_lookups x ++ log inner ++ ev_cache_get key :: rest
        /\ (forall v, cache_lookup key (fin inner) = Some v ->
              res o = Ok v /\ fin o = fin inner /\ rest = [])
        /\ (forall h, ids = [] ->
              cache_lookup key (fin inner) = None ->
              esi_head E (ep_history rid 12005) = Some h ->
              res o = Raise ValueError)
  end.
Proof.
  intros rid key inner o Hx Hall. subst o inner key rid.
  unfold history_key_all.
  unfold get_market_history, call_search_id, api_cache_get, ESIClient_head.
  destruct x as [s|n|]; [| |contradiction];
    cbn [region_of region_lookups] in *.
  all: run_py.
  all: destruct Hall as [-> | ->]; run_py.
  all: rewrite bind_case.
  all: match goal with
       | |- context [get_region_types ?E ?x ?s ?w0] =>
           destruct (get_region_types E x s w0) as [[ids|e] w1 l1]
       end; run_py; [|split; reflexivity].
  all: destruct (cache_lookup _ w1) as [v|] eqn:Hc; run_py.
  all: try (eexists; split; [show_outcome; reflexivity|];
            split; [intros v' [= <-]; auto | discriminate]).
  all: destruct (esi_head E _) as [h|] eqn:Hh; run_py.
  all: try (eexists; split; [show_outcome; reflexivity|];
            split; [discriminate | discriminate]).
  all: rewrite bind_case.
  all: destruct (gather _ w1) as [[rs|e] w2 l2] eqn:Hg; run_py.
  all: try rewrite bind_case.
  all: try destruct (pd_concat rs w2) as [[df|e'] w3 l3] eqn:Hp; run_py.
  all: eexists; (split; [show_outcome; reflexivity|]);
    (split; [discriminate|]).
  all: intros h' -> _ _; cbn in Hg; try discriminate Hg.
  all: injection Hg as <- <- <-; cbn in Hp; try discriminate Hp.
  all: injection Hp as <- _ _; reflexivity.
Qed.

(** A region without market types, asked for the history of all types. *)
Lemma market_history_all_types_witness :
  res (get_region_types env_no_types (PyInt 10000002) "esi" Scenario.w_empty)
  = Ok []
  /\ res (get_market_history env_no_types (PyInt 10000002) None None
            Scenario.w_empty)
     = Raise ValueError.
Proof.
  split; [reflexivity|].
  pose proof (market_history_all_types env_no_types (PyInt 10000002) None None
                Scenario.w_empty) as H.
  cbv zeta in H.
  change (res (get_region_types env_no_types
                 (PyInt (region_of env_no_types (PyInt 10000002))) "esi"
                 Scenario.w_empty)) with (@Ok (list Z) []) in H.
  destruct H as (rest & _ & _ & Hempty); [discriminate | now left |].
  exact (Hempty (mk_headers (Some 1653736500) (Some 1)) eq_refl eq_refl eq_refl).
Defined.

(** ** The history of one type, cached *)

(** X18.  [get_type_history] reads the cache first: a hit is returned with
    no remote request and the world unchanged.  After a miss it makes the
    HEAD request, whose failure fails the call with nothing changed, and
    then runs the per-type fetch; a frame that comes back is stored in the
    cache under the key of the call, with the expiry of the HEAD
    response, and returned. *)
Theorem type_history_is_cached (E : Env) (x : pyarg) (type_id : Z)
    (reduces : option reducer) (w : World) :
  let rid := region_of E x in
  let key := make_cache_key "get_type_history"
               [VInt rid; VInt type_id; reducer_val reduces] ∅ in
  let o := get_type_history E x type_id reduces w in
  x <> PyOther ->
  (forall v, cache_lookup key w = Some v ->
     o = mk_outcome (Ok (Some v)) w (region_lookups x ++ [ev_cache_get key]))
  /\ (cache_lookup key w = None ->
      esi_head E (ep_history rid type_id) = None ->
      o = mk_outcome (Raise TransportError) w
            (region_lookups x
             ++ [ev_cache_get key; ev_head (ep_history rid type_id)]))
  /\ (forall h rows w1 l1,
        cache_lookup key w = None ->
        esi_head E (ep_history rid type_id) = Some h ->
        _get_type_history_async E rid type_id reduces w
        = mk_outcome (Ok (Some rows)) w1 l1 ->
        res o = Ok (Some (DFHistory rows))
        /\ fin o = cache_store key (DFHistory rows) (header_expiry h) w1
        /\ log o = region_lookups x
                   ++ [ev_cache_get key; ev_head (ep_history rid type_id)]
                   ++ l1 ++ [ev_cache_set key]).
Proof.
  intros rid key o Hx. subst o key rid.
  unfold get_type_history, call_search_id, api_cache_get, ESIClient_head,
    api_cache_set.
  destruct x as [s|n|]; [| |contradiction];
    cbn [region_of region_lookups] in *.
  all: run_py; split; [|split].
  all: try (intros v ->; run_py; show_outcome; reflexivity).
  all: try (intros -> ->; run_py; show_outcome; reflexivity).
  all: intros h rows w1 l1 -> -> Hrun; run_py.
  all: rewrite bind_case, Hrun; run_py; show_outcome; repeat split.
Qed.

Lemma type_history_is_cached_witness :
  let key := make_cache_key "get_type_history"
               [VInt 10000002; VInt 34; VNone] ∅ in
  get_type_history env_down (PyInt 10000002) 34 None Scenario.w_empty
  = mk_outcome (Raise TransportError) Scenario.w_empty
      [ev_cache_get key; ev_head (ep_history 10000002 34)].
Proof.
  intros key.
  refine (proj1 (proj2 (type_history_is_cached env_down (PyInt 10000002) 34
                          None Scenario.w_empty _)) _ _);
    [discriminate | reflexivity | reflexivity].
Defined.

(** ** The exceptions of the order queries *)

Lemma fetch_outcome_raises (E : Env) (ep : endpoint) (page : Z) (h : headers)
    (region_id : Z) (system_id : option Z) (key : cache_key)
    (expires : expires_arg) (w : World) (e : exn) :
  res (fetch_outcome E ep page h region_id system_id key expires w) = Raise e ->
  e = TransportError \/ e = KeyError.
Proof.
  unfold fetch_outcome. destruct (requested_pages page h);
    [|intros [= <-]; now right].
  cbv zeta. destruct (fetch_all _ _) as [[|r rows]|]; cbn [res];
    [intros [= <-]; now right | discriminate | intros [= <-]; now left].
Qed.

Lemma region_market_raises (E : Env) (x : pyarg) (order_type : string)
    (type_id : option Z) (kwd : kwds) (w : World) (e : exn) :
  res (get_region_market E x order_type type_id kwd w) = Raise e ->
  (e = TypeError /\ x = PyOther)
  \/ (e = ValueError /\ x <> PyOther /\ valid_order_type order_type = false)
  \/ ((e = TransportError \/ e = KeyError)
      /\ x <> PyOther /\ valid_order_type order_type = true).
Proof.
  unfold get_region_market, call_search_id, ESIClient_head, api_cache_get,
    _update_or_not, _select_from_orders.
  destruct x as [s|n|]; run_py; [| |intros [= <-]; now left].
  all: destruct (valid_order_type order_type); run_py;
    [|intros [= <-]; right; left; repeat split; discriminate].
  all: intros Hres; right; right; split; [|split; [discriminate|reflexivity]].
  all: revert Hres; destruct (esi_head E _); run_py;
    [|intros [= <-]; now left].
  all: destruct (cache_lookup _ w); run_py; [discriminate|].
  all: destruct (expiry_policy _ _) as [expires update_threshold]; run_py.
  all: destruct (decide_fresh _ _ _ _) as [[|] last]; run_py;
    [|discriminate].
  all: rewrite fetch_path_run; apply fetch_outcome_raises.
Qed.

Lemma station_market_raises (E : Env) (x : pyarg) (order_type : string)
    (type_id : option Z) (kwd : kwds) (w : World) (e : exn) :
  res (get_station_market E x order_type type_id kwd w) = Raise e ->
  (e = TypeError /\ x = PyOther)
  \/ (e = ValueError /\ x <> PyOther /\ valid_order_type order_type = false)
  \/ ((e = TransportError \/ e = KeyError)
      /\ x <> PyOther /\ valid_order_type order_type = true).
Proof.
  unfold get_station_market, call_search_id, call_search_station_region_id,
    _update_or_not, _select_from_orders.
  destruct x as [s|n|]; run_py; [| |intros [= <-]; now left].
  all: destruct (valid_order_type order_type) eqn:Hv; run_py;
    [|intros [= <-]; right; left; repeat split; discriminate].
  all: intros Hres; right; right; split; [|split; [discriminate|reflexivity]].
  all: revert Hres.
  all: destruct (decide_fresh _ _ _ _) as [[|] last]; run_py;
    [discriminate|].
  all: rewrite bind_case.
  all: match goal with
       | |- context [get_region_market ?E ?x ?o ?t ?k ?w0] =>
           pose proof (region_market_raises E x o t k w0) as Hin;
           destruct (get_region_market E x o t k w0) as [[v|e'] w1 l1]
       end; run_py; [discriminate|].
  all: intros [= <-]; cbn [res] in Hin.
  all: destruct (Hin e' eq_refl) as [[_ [=]] | [(_ & _ & Hf) | (He & _)]];
    [congruence | exact He].
Qed.

(** X19.  The exceptions of [get_region_market] and [get_station_market]
    sort by cause: TypeError exactly for an identifier that is neither a
    string nor an integer, ValueError exactly for an unrecognized
    order_type with a well-typed identifier, and for validated input only
    a transport error or the KeyError of a fetch that finds no X-Pages
    header or no order. *)
Theorem order_query_exceptions (E : Env) (x : pyarg) (order_type : string)
    (type_id : option Z) (kwd : kwds) (w : World) (e : exn) :
  (res (get_region_market E x order_type type_id kwd w) = Raise e ->
   (e = TypeError /\ x = PyOther)
   \/ (e = ValueError /\ x <> PyOther /\ valid_order_type order_type = false)
   \/ ((e = TransportError \/ e = KeyError)
       /\ x <> PyOther /\ valid_order_type order_type = true))
  /\ (res (get_station_market E x order_type type_id kwd w) = Raise e ->
      (e = TypeError /\ x = PyOther)
      \/ (e = ValueError /\ x <> PyOther
          /\ valid_order_type order_type = false)
      \/ ((e = TransportError \/ e = KeyError)
          /\ x <> PyOther /\ valid_order_type order_type = true)).
Proof.
  split; [apply region_market_raises | apply station_market_raises].
Qed.

(** A station whose snapshot is fresh in a region that is not, on a
    remote side without orders: the refresh of the region raises KeyError
    through the station query. *)
Lemma order_query_exceptions_witness :
  let o := get_station_market Edge.env_empty_market (PyInt 60003760) "all"
             None ∅ w_fresh_station in
  res o = Raise KeyError /\ valid_order_type "all" = true.
Proof.
  intros o.
  assert (res o = Raise KeyError) as Hres by (vm_compute; reflexivity).
  pose proof (order_query_exceptions Edge.env_empty_market (PyInt 60003760)
                "all" None ∅ w_fresh_station KeyError) as H.
  destruct H as [_ H]. specialize (H Hres).
  destruct H as [[[=] _] | [([=] & _) | (_ & _ & Hv)]].
  split; assumption.
Defined.

(** ** The Jita shortcut *)

(** X20.  [get_jita_market] is the station query of one fixed station name
    with no options.  It never raises TypeError; an unrecognized
    order_type is answered with ValueError after the name has been
    resolved and before anything else; otherwise the station and then its
    region are resolved and the oracle is asked with the default threshold
    of 1200 seconds, which the caller cannot change: it is the verdict on
    the station's rows at [now - 1200] that decides what follows.  When
    that verdict is stale the call is the store read alone, with the
    [retrieve_time] of that verdict; when it is fresh, the HEAD request of
    the region query comes next.  Every cache access of the call is under
    the region key that carries that threshold. *)
Theorem jita_market_shortcut (E : Env) (order_type : string)
    (type_id : option Z) (w : World) :
  let station_id := search_id E jita_name "station" in
  let region_id := search_station_region_id E station_id in
  let f := mk_filter (Some region_id) (Some station_id) None in
  let verdict := orders_verdict f 1200 w in
  let o := get_jita_market E order_type type_id w in
  res o <> Raise TypeError
  /\ (valid_order_type order_type = false ->
      o = mk_outcome (Raise ValueError) w
            [ev_search "search_id" (PyStr jita_name)])
  /\ (valid_order_type order_type = true ->
      res o <> Raise ValueError
      /\ (exists rest,
            log o = ev_search "search_id" (PyStr jita_name)
                    :: ev_search "search_station_region_id" (PyInt station_id)
                    :: ev_oracle tbl_orders f :: rest)
      /\ (fst verdict = true ->
          o = mk_outcome
                (Ok (DFOrders
                       (select_orders order_type type_id (Some region_id)
                          (Some station_id) (snd verdict) (orders w))))
                w
                [ ev_search "search_id" (PyStr jita_name);
                  ev_search "search_station_region_id" (PyInt station_id);
                  ev_oracle tbl_orders f;
                  ev_select tbl_orders
                    (mk_filter (Some region_id) (Some station_id) type_id) ])
      /\ (fst verdict = false ->
          exists rest,
            log o = ev_search "search_id" (PyStr jita_name)
                    :: ev_search "search_station_region_id" (PyInt station_id)
                    :: ev_oracle tbl_orders f
                    :: ev_head (ep_region_orders region_id order_type type_id)
                    :: rest))
  /\ cache_only_under
       (make_cache_key "get_region_market"
          [VInt region_id; VStr order_type; opt_int type_id]
          {[ "update_threshold" := 1200 ]})
       (log o).
Proof.
  intros station_id region_id f verdict o.
  subst o verdict f region_id station_id.
  unfold get_jita_market. fold jita_name.
  split; [|split; [|split]].
  - intros H. apply station_market_raises in H
      as [[_ [=]] | [([=] & _) | ([[=] | [=]] & _)]].
  - intros Hv. unfold get_station_market, call_search_id. run_py.
    rewrite Hv. run_py. show_outcome. reflexivity.
  - intros Hv. split; [|split; [|split]].
    + intros H. apply station_market_raises in H
        as [[[=] _] | [(_ & _ & Hf) | ([[=] | [=]] & _)]]. congruence.
    + unfold get_station_market, call_search_id,
        call_search_station_region_id, _update_or_not. run_py.
      rewrite Hv. run_py.
      match goal with
      | |- context [bind ?m ?k ?w0] => destruct (bind m k w0)
      end.
      eexists. reflexivity.
    + unfold orders_verdict, get_station_market, call_search_id,
        call_search_station_region_id, _update_or_not, _select_from_orders.
      run_py. rewrite Hv. run_py. rewrite lookup_empty. cbn [default].
      destruct (decide_fresh _ _ _ _) as [[|] last]; [|discriminate].
      intros _. run_py. show_outcome. reflexivity.
    + unfold orders_verdict, get_station_market, call_search_id,
        call_search_station_region_id, _update_or_not.
      run_py. rewrite Hv. run_py. rewrite lookup_empty. cbn [default].
      destruct (decide_fresh _ _ _ _) as [[|] last]; [discriminate|].
      intros _. run_py. rewrite bind_case.
      unfold get_region_market, ESIClient_head. run_py. rewrite Hv. run_py.
      match goal with
      | |- context [bind ?m ?k ?w0] =>
          destruct (bind m k w0) as [[v'|e'] w1 l1]
      end.
      all: show_outcome; eexists; reflexivity.
  - pose proof (station_market_cache_events E (PyStr jita_name) order_type
                  type_id ∅ w) as H.
    unfold station_inner_key in H. rewrite lookup_empty in H. exact H.
Qed.

(** A snapshot of the station taken 1000 seconds ago is fresh at the
    threshold of 1200 seconds, so the region query runs. *)
Lemma jita_market_shortcut_witness :
  exists rest,
    log (get_jita_market Scenario.env "sell" (Some 34) Scenario.w_fresh)
    = [ ev_search "search_id" (PyStr jita_name);
        ev_search "search_station_region_id" (PyInt 60003760);
        ev_oracle tbl_orders (mk_filter (Some 10000002) (Some 60003760) None);
        ev_head (ep_region_orders 10000002 "sell" (Some 34)) ] ++ rest.
Proof.
  pose proof (jita_market_shortcut Scenario.env "sell" (Some 34)
                Scenario.w_fresh) as H.
  cbv zeta in H. destruct H as (_ & _ & H & _).
  specialize (H eq_refl). destruct H as (_ & _ & _ & H).
  assert (fst (orders_verdict
                 (mk_filter
                    (Some (search_station_region_id Scenario.env
                             (search_id Scenario.env jita_name "station")))
                    (Some (search_id Scenario.env jita_name "station")) None)
                 1200 Scenario.w_fresh) = false) as Hfresh
    by (vm_compute; reflexivity).
  specialize (H Hfresh). destruct H as (rest & H).
  exists rest. rewrite H. reflexivity.
Defined.

(** ** What an order query leaves untouched *)

Lemma footprint_refl (key : cache_key) (w : World) : footprint key w w.
Proof. repeat split; auto. Qed.

Lemma cache_find_filter_other (k key : cache_key) (c : list cache_entry) :
  k <> key ->
  cache_find k (List.filter (fun e => negb (bool_decide (e_key e = key))) c)
  = cache_find k c.
Proof.
  intros Hk. induction c as [|e c IH]; [reflexivity|]. cbn [List.filter].
  destruct (bool_decide_reflect (e_key e = key)) as [He|He]; cbn [negb].
  - cbn [cache_find]. destruct (decide (e_key e = k)); [congruence | exact IH].
  - cbn [cache_find]. destruct (decide (e_key e = k)); [reflexivity | exact IH].
Qed.

Lemma cache_find_store_other (k key : cache_key) (v : pyobj)
    (x : expires_arg) (w : World) :
  k <> key ->
  cache_find k (api_cache (cache_store key v x w)) = cache_find k (api_cache w).
Proof.
  intros Hk. cbn [cache_store api_cache cache_find e_key].
  destruct (decide (key = k)); [congruence|].
  now apply cache_find_filter_other.
Qed.

Lemma fetch_outcome_footprint (E : Env) (ep : endpoint) (page : Z)
    (h : headers) (region_id : Z) (system_id : option Z) (key : cache_key)
    (expires : expires_arg) (w : World) :
  footprint key w
    (fin (fetch_outcome E ep page h region_id system_id key expires w)).
Proof.
  unfold fetch_outcome. destruct (requested_pages page h);
    [|apply footprint_refl].
  cbv zeta. destruct (fetch_all _ _) as [[|r rows]|]; cbn [fin];
    try apply footprint_refl.
  split; [reflexivity|]. split; [reflexivity|]. split.
  - intros i Hi. cbn [cache_store orders]. now apply upsert_orders_keeps.
  - intros k Hk. now rewrite cache_find_store_other.
Qed.

(** X21.  The footprint of the order queries.  Whatever its outcome, a call
    of [get_region_market] or [get_structure_market] leaves the clock and
    the history table as they were, never removes an order from the store
    (orders that left the market stay, with their old [retrieve_time]), and
    changes no cache entry but the one of its own key. *)
Theorem order_query_footprint (E : Env) (kwd : kwds) (w : World) :
  (forall x order_type type_id,
     footprint (region_key E x order_type type_id kwd) w
       (fin (get_region_market E x order_type type_id kwd w)))
  /\ (forall x cname,
        footprint (structure_key E x cname kwd) w
          (fin (get_structure_market E x cname kwd w))).
Proof.
  split.
  - intros x order_type type_id. unfold region_key.
    unfold get_region_market, call_search_id, ESIClient_head, api_cache_get,
      _update_or_not, _select_from_orders.
    destruct x as [s|n|]; cbn [region_of]; run_py; [| |apply footprint_refl].
    all: destruct (valid_order_type order_type); run_py;
      [|apply footprint_refl].
    all: destruct (esi_head E _); run_py; [|apply footprint_refl].
    all: destruct (cache_lookup _ w); run_py; [apply footprint_refl|].
    all: destruct (expiry_policy _ _) as [expires update_threshold]; run_py.
    all: destruct (decide_fresh _ _ _ _) as [[|] last]; run_py;
      [|apply footprint_refl].
    all: rewrite fetch_path_run; apply fetch_outcome_footprint.
  - intros x cname. unfold structure_key.
    unfold get_structure_market, call_search_structure_id, ESIClient_head,
      api_cache_get, _update_or_not, _select_from_orders.
    destruct x as [s|n|]; run_py; [| |apply footprint_refl].
    2: destruct (negb (n =? 0)); run_py.
    all: try (destruct (truthy_str cname); run_py; [|apply footprint_refl]).
    all: destruct (esi_head E _); run_py; [|apply footprint_refl].
    all: destruct (cache_lookup _ w); run_py; [apply footprint_refl|].
    all: destruct (expiry_policy _ _) as [expires update_threshold]; run_py.
    all: destruct (decide_fresh _ _ _ _) as [[|] last]; run_py;
      [|apply footprint_refl].
    all: rewrite fetch_path_run; apply fetch_outcome_footprint.
Qed.

Lemma order_query_footprint_witness :
  let key := make_cache_key "get_region_market"
               [VInt 10000002; VStr "all"; VNone] ∅ in
  footprint key Scenario.w_empty
    (fin (get_region_market Scenario.env (PyInt 10000002) "all" None ∅
            Scenario.w_empty)).
Proof.
  exact (proj1 (order_query_footprint Scenario.env ∅ Scenario.w_empty)
           (PyInt 10000002) "all" None).
Defined.

(** ** What the history calls leave untouched *)

Lemma orders_are_cache_set (tbl : list order) (k : cache_key) (v : pyobj)
    (x : expires_arg) :
  preserves (orders_are tbl) (api_cache_set k v x).
Proof. intros w H. exact H. Qed.

Lemma orders_are_cache_set_none (tbl : list order) (k : cache_key) :
  preserves (orders_are tbl) (api_cache_set_none k).
Proof. intros w H. exact H. Qed.

Lemma orders_are_to_sql_history (tbl : list order) (rows : list history) :
  preserves (orders_are tbl) (to_sql_history rows).
Proof. intros w H. exact H. Qed.

Ltac keep_orders_step :=
  match goal with
  | |- preserves _ (bind _ _) => apply preserves_bind
  | |- preserves _ (ret _) => apply preserves_ret
  | |- preserves _ (raise _) => apply preserves_raise
  | |- preserves _ (emit _) => apply preserves_emit
  | |- preserves _ get_world => apply preserves_get_world
  | |- preserves _ (of_response _) => apply preserves_of_response
  | |- preserves _ (ESIClient_get _ _ _) => apply preserves_ESIClient_get
  | |- preserves _ (api_cache_set _ _ _) => apply orders_are_cache_set
  | |- preserves _ (api_cache_set_none _) => apply orders_are_cache_set_none
  | |- preserves _ (to_sql_history _) => apply orders_are_to_sql_history
  | |- preserves _ (match ?x with _ => _ end) => destruct x
  | |- forall _ : _, preserves _ _ => intro
  end.

Ltac keep_orders :=
  repeat first
    [ keep_orders_step
    | progress unfold api_cache_get, _update_or_not, call_search_id,
        ESIClient_head, x_pages_of, pd_concat ].

Lemma type_history_keeps_orders (tbl : list order) (E : Env) (rid type_id : Z)
    (reduces : option reducer) :
  preserves (orders_are tbl) (_get_type_history_async E rid type_id reduces).
Proof. unfold _get_type_history_async. keep_orders. Qed.

Lemma region_types_keeps_orders (tbl : list order) (E : Env) (x : pyarg)
    (src : string) :
  preserves (orders_are tbl) (get_region_types E x src).
Proof. unfold get_region_types. keep_orders. Qed.

(** X22.  The history side never writes the orders table: whatever their
    outcome, [_get_type_history_async], [get_type_history],
    [get_market_history] and [get_region_types] return with the stored
    orders exactly as they were. *)
Theorem history_calls_keep_orders (E : Env) (w : World) :
  (forall rid type_id reduces,
     orders (fin (_get_type_history_async E rid type_id reduces w)) = orders w)
  /\ (forall x type_id reduces,
        orders (fin (get_type_history E x type_id reduces w)) = orders w)
  /\ (forall x type_ids reduces,
        orders (fin (get_market_history E x type_ids reduces w)) = orders w)
  /\ (forall x src, orders (fin (get_region_types E x src w)) = orders w).
Proof.
  split; [|split; [|split]].
  - intros rid type_id reduces.
    now apply (type_history_keeps_orders (orders w)).
  - intros x type_id reduces.
    assert (preserves (orders_are (orders w))
              (get_type_history E x type_id reduces)) as H.
    { unfold get_type_history. keep_orders.
      all: apply type_history_keeps_orders. }
    now apply H.
  - intros x type_ids reduces.
    assert (preserves (orders_are (orders w))
              (get_market_history E x type_ids reduces)) as H.
    { unfold get_market_history. keep_orders.
      all: try apply region_types_keeps_orders.
      all: apply preserves_gather, Forall_forall; intros t Ht;
        apply list_elem_of_In, in_map_iff in Ht as (type_id & <- & _);
        apply type_history_keeps_orders. }
    now apply H.
  - intros x src. now apply (region_types_keeps_orders (orders w)).
Qed.

(** ** Asking again *)

Lemma miss_outcome_fetch_fin (E : Env) (ep : endpoint) (f : filter)
    (order_type : string) (type_id : option Z) (region_id : Z)
    (system_id : option Z) (key : cache_key) (kwd : kwds) (h : headers)
    (w : World) (pages : list Z) (rows : list raw_order) (pre : list event) :
  let policy := expiry_policy (kwd !! "update_threshold") h in
  fst (orders_verdict f (snd policy) w) = true ->
  requested_pages (default (-1) (kwd !! "page")) h = Some pages ->
  fetch_all (esi_orders E ep) pages = Some rows ->
  rows <> [] ->
  now w <= expires_at (now w) (fst policy) ->
  let o := after pre (miss_outcome E ep f order_type type_id region_id
                        system_id key kwd h w) in
  exists v, res o = Ok v /\ cache_lookup key (fin o) = Some v.
Proof.
  intros policy Hstale Hp Hf Hne Hexp o. subst o policy.
  unfold miss_outcome. rewrite Hstale. unfold fetch_outcome. rewrite Hp.
  cbv zeta. rewrite Hf. destruct rows as [|r rows]; [contradiction|].
  cbn [res fin log after]. eexists. split; [reflexivity|].
  unfold cache_lookup. rewrite cache_store_find.
  cbn [e_expires_at e_value cache_store now].
  destruct (Z.leb_spec (now w)
              (expires_at (now w)
                 (fst (expiry_policy (kwd !! "update_threshold") h))));
    [reflexivity | lia].
Qed.

(** X23.  Asking again.  After a call of [get_region_market] that fetched
    and completed, the same call on the resulting world is answered from
    the cache, provided the expiry given to the cache (the
    [update_threshold] option as a time to live, else the Expires header,
    else 20 minutes) is not already in the past: it makes its HEAD
    request, reads the cache, and returns the very frame of the first call
    with nothing else done and nothing changed. *)
Theorem region_market_asked_again (E : Env) (kwd : kwds) (w : World)
    (x : pyarg) (order_type : string) (type_id : option Z) (h : headers)
    (pages : list Z) (rows : list raw_order) :
  let rid := region_of E x in
  let ep := ep_region_orders rid order_type type_id in
  let key := region_key E x order_type type_id kwd in
  let policy := expiry_policy (kwd !! "update_threshold") h in
  x <> PyOther ->
  valid_order_type order_type = true ->
  esi_head E ep = Some h ->
  cache_lookup key w = None ->
  fst (orders_verdict (mk_filter (Some rid) None None) (snd policy) w) = true ->
  requested_pages (default (-1) (kwd !! "page")) h = Some pages ->
  fetch_all (esi_orders E ep) pages = Some rows ->
  rows <> [] ->
  now w <= expires_at (now w) (fst policy) ->
  let o := get_region_market E x order_type type_id kwd w in
  exists v,
    res o = Ok v
    /\ get_region_market E x order_type type_id kwd (fin o)
       = mk_outcome (Ok v) (fin o)
           (region_lookups x ++ [ev_head ep; ev_cache_get key]).
Proof.
  intros rid ep key policy Hx Hv Hh Hmiss Hstale Hp Hf Hne Hexp o.
  assert (exists v, res o = Ok v /\ cache_lookup key (fin o) = Some v)
    as (v & Hres & Hhit).
  { subst o.
    rewrite (region_market_miss_run E kwd w x order_type type_id h
               Hx Hv Hh Hmiss).
    now apply (miss_outcome_fetch_fin E ep _ order_type type_id rid None key
                 kwd h w pages rows). }
  exists v. split; [exact Hres|].
  generalize dependent (fin o). intros w' Hhit.
  destruct (region_market_head_then_cache E kwd w' x order_type type_id)
    as (events & Hlog & Hev).
  - intros H. apply region_market_raises in H
      as [[_ ->] | [([=] & _) | ([[=] | [=]] & _)]]. contradiction.
  - intros H. apply region_market_raises in H
      as [[[=] _] | [(_ & _ & Hf') | ([[=] | [=]] & _)]]. congruence.
  - unfold head_then_cache in Hev. fold rid ep key in Hev. rewrite Hh in Hev.
    destruct Hev as (rest & -> & Hrest).
    destruct (Hrest v Hhit) as (-> & Hres' & Hfin').
    destruct (get_region_market E x order_type type_id kwd w')
      as [r2 w2 l2]. cbn [res fin log] in *. subst. reflexivity.
Qed.

Lemma region_market_asked_again_witness :
  let o := get_region_market Scenario.env (PyInt 10000002) "all" None ∅
             Scenario.w_empty in
  exists v,
    res o = Ok v
    /\ get_region_market Scenario.env (PyInt 10000002) "all" None ∅ (fin o)
       = mk_outcome (Ok v) (fin o)
           [ev_head (ep_region_orders 10000002 "all" None);
            ev_cache_get (make_cache_key "get_region_market"
                            [VInt 10000002; VStr "all"; VNone] ∅)].
Proof.
  refine (region_market_asked_again Scenario.env ∅ Scenario.w_empty
            (PyInt 10000002) "all" None
            (mk_headers (Some 1653736500) (Some 1)) [1] Scenario.page1
            _ _ _ _ _ _ _ _ _); try reflexivity; discriminate.
Defined.
